(** * Zoho CRM tag proxy: a shallow embedding of [functions/src/index.ts]

    The program is a Firebase function that keeps an OAuth access token fresh
    in a Realtime Database record and rewrites the [Tag] field of CRM leads.
    Every function of the source that takes part in the token lifecycle or in
    the tag workflows is embedded below as a computation in a state-and-error
    monad over a [World]: the credential record held by the database and the
    chronological trace of the calls made to the outside (database reads and
    updates, form posts to the token endpoint, CRM requests).  What the
    outside answers is given by an [Env] of oracles that see the trace so far.

    Conventions:
    - [logger] calls are not part of the model;
    - [Date.now()] is one of the oracles and leaves no event;
    - numbers are integers ([Z]): epoch milliseconds and [expires_in] seconds
      (of a number the CRM answers only zero or not zero is ever looked at);
    - the store is touched by this program only: a read answers the record
      the last update left;
    - values typed by an interface of the source ([ZohoCredentials],
      [AccessTokenResponse], [ReqParams]) are records, a field the code guards
      with [?.] or [||] being an [option]; values typed [any] (what the CRM
      answers) are [JSON] values with the JavaScript rules for truthiness,
      property access, iteration and [filter]. *)

From Stdlib Require Import ZArith String List Bool Lia.
From stdpp Require Import base option list strings gmap.

Set Warnings "-register-all".

Local Open Scope string_scope.
Local Open Scope list_scope.
Local Open Scope Z_scope.

(** ** Values *)

Inductive Error :=
  | TypeError (msg : string)
  | Rejected (msg : string).

Inductive Result (A : Type) :=
  | Ok (a : A)
  | Err (e : Error).
Arguments Ok {A} a.
Arguments Err {A} e.

(** A value of type [any].  An object is the list of its own properties, a
    property being read at its first binding. *)
Inductive JSON :=
  | JUndefined
  | JNull
  | JBool (b : bool)
  | JNum (n : Z)
  | JStr (s : string)
  | JArr (l : list JSON)
  | JObj (kvs : list (string * JSON)).

Definition is_empty_string (s : string) : bool :=
  match s with EmptyString => true | _ => false end.

(** [!!v] *)
Definition truthy (v : JSON) : bool :=
  match v with
  | JUndefined | JNull => false
  | JBool b => b
  | JNum n => negb (n =? 0)
  | JStr s => negb (is_empty_string s)
  | JArr _ | JObj _ => true
  end.

(** [!!s] for a string field that may be missing. *)
Definition truthy_str (o : option string) : bool :=
  match o with
  | Some s => negb (is_empty_string s)
  | None => false
  end.

Fixpoint assoc (k : string) (kvs : list (string * JSON)) : JSON :=
  match kvs with
  | [] => JUndefined
  | (k', v) :: rest => if String.eqb k k' then v else assoc k rest
  end.

(** [v.k] for the property names the program reads ([data], [Tag], [id],
    [name]): none of them is defined on arrays, strings, numbers or booleans. *)
Definition get_prop (v : JSON) (k : string) : Result JSON :=
  match v with
  | JUndefined => Err (TypeError "Cannot read properties of undefined")
  | JNull => Err (TypeError "Cannot read properties of null")
  | JObj kvs => Ok (assoc k kvs)
  | JBool _ | JNum _ | JStr _ | JArr _ => Ok JUndefined
  end.

(** [v[0]] *)
Definition index0 (v : JSON) : Result JSON :=
  match v with
  | JUndefined => Err (TypeError "Cannot read properties of undefined")
  | JNull => Err (TypeError "Cannot read properties of null")
  | JArr (x :: _) => Ok x
  | JStr (String c _) => Ok (JStr (String c EmptyString))
  | JObj kvs => Ok (assoc "0" kvs)
  | JArr [] | JStr EmptyString | JBool _ | JNum _ => Ok JUndefined
  end.

(** [v?.[0]] *)
Definition opt_index0 (v : JSON) : JSON :=
  match v with
  | JUndefined | JNull => JUndefined
  | _ => match index0 v with Ok x => x | Err _ => JUndefined end
  end.

(** [a || b] *)
Definition js_or (a b : JSON) : JSON := if truthy a then a else b.

(** The values [for (const x of v)] runs through. *)
Definition iterate (v : JSON) : Result (list JSON) :=
  match v with
  | JArr l => Ok l
  | JStr s => Ok (map (fun c => JStr (String c EmptyString)) (list_ascii_of_string s))
  | _ => Err (TypeError "data is not iterable")
  end.

(** [s.startsWith(p)] *)
Definition startsWith (s p : string) : bool := String.prefix p s.

(** The callback [(tag) => !tag.name.startsWith(tagFilter)]. *)
Definition keep_tag (tagFilter : string) (tag : JSON) : Result bool :=
  match get_prop tag "name" with
  | Err e => Err e
  | Ok (JStr s) => Ok (negb (startsWith s tagFilter))
  | Ok JUndefined => Err (TypeError "Cannot read properties of undefined")
  | Ok JNull => Err (TypeError "Cannot read properties of null")
  | Ok _ => Err (TypeError "tag.name.startsWith is not a function")
  end.

Fixpoint filter_array (f : JSON -> Result bool) (l : list JSON) : Result (list JSON) :=
  match l with
  | [] => Ok []
  | x :: rest =>
      match f x with
      | Err e => Err e
      | Ok b =>
          match filter_array f rest with
          | Err e => Err e
          | Ok rest' => Ok (if b then x :: rest' else rest')
          end
      end
  end.

(** [tags.filter(f)]: only an array has a [filter] method. *)
Definition js_filter (tags : JSON) (f : JSON -> Result bool) : Result (list JSON) :=
  match tags with
  | JArr l => filter_array f l
  | _ => Err (TypeError "tags.filter is not a function")
  end.

(** ** Interfaces of the source *)

Record ZohoCredentials := {
  CLIENT_ID : option string;
  CLIENT_SECRET : option string;
  AUTHORIZATION_CODE : option string;
  ACCESS_TOKEN : option string;
  REFRESH_TOKEN : option string;
  ACCOUNTS_URL : option string;
  API_DOMAIN : option string;
  EXPIRY_TIME : option Z
}.

Record AccessTokenResponse := {
  access_token : string;
  refresh_token : string;
  api_domain : string;
  token_type : string;
  expires_in : Z
}.

Record ReqParams := {
  phone : string;
  tag : string;
  id : string;
  tagFilter : string
}.

(** A template literal [`lit${arg}`] whose argument may be any value is kept
    as its two parts. *)
Record Url := {
  url_lit : string;
  url_arg : option JSON
}.

Record AxiosRequestConfig := {
  method : option string;
  url : option Url;
  params : option (list (string * string));
  data : option JSON;
  baseURL : option string;
  headers : option (gmap string string)
}.

Definition redirectUri : string := "https://www.zoho.com".
Definition apiUrl : string := "https://www.zohoapis.com/crm/v5".
Definition tokenUrl : string := "https://accounts.zoho.com/oauth/v2/token".

(** ** The world *)

Inductive Event :=
  | EvOnce
  | EvUpdate (updates : ZohoCredentials)
  | EvPostForm (target : string) (payload : gmap string (option string))
  | EvAxios (config : AxiosRequestConfig).

Record World := {
  db : ZohoCredentials;
  trace : list Event
}.

(** What the collaborators answer, given the calls made so far. *)
Record Env := {
  Date_now : list Event -> Z;
  dbRef_once : list Event -> option Error;
  dbRef_update : list Event -> ZohoCredentials -> option Error;
  axios_postForm :
    list Event -> string -> gmap string (option string) -> Result AccessTokenResponse;
  axios : list Event -> AxiosRequestConfig -> Result JSON
}.

Definition M (A : Type) : Type := World -> Result A * World.

Definition ret {A} (a : A) : M A := fun w => (Ok a, w).

Definition throw {A} (e : Error) : M A := fun w => (Err e, w).

Definition bind {A B} (m : M A) (k : A -> M B) : M B :=
  fun w =>
    match m w with
    | (Ok a, w') => k a w'
    | (Err e, w') => (Err e, w')
    end.

(** [try { m } catch (error) { h error }] *)
Definition try_catch {A} (m : M A) (h : Error -> M A) : M A :=
  fun w =>
    match m w with
    | (Ok a, w') => (Ok a, w')
    | (Err e, w') => h e w'
    end.

Definition lift {A} (r : Result A) : M A := fun w => (r, w).

Declare Scope m_scope.
Delimit Scope m_scope with M.
Notation "x <- m ;; k" := (bind m (fun x => k))
  (at level 100, m at next level, right associativity) : m_scope.
Notation "m ;;; k" := (bind m (fun _ => k))
  (at level 100, right associativity) : m_scope.
Local Open Scope m_scope.

(** [dbRef.update(updates)] merges the given fields into the record. *)
Definition merge_field {A} (new old : option A) : option A :=
  match new with
  | Some v => Some v
  | None => old
  end.

Definition merge_record (updates d : ZohoCredentials) : ZohoCredentials :=
  {| CLIENT_ID := merge_field (CLIENT_ID updates) (CLIENT_ID d);
     CLIENT_SECRET := merge_field (CLIENT_SECRET updates) (CLIENT_SECRET d);
     AUTHORIZATION_CODE := merge_field (AUTHORIZATION_CODE updates) (AUTHORIZATION_CODE d);
     ACCESS_TOKEN := merge_field (ACCESS_TOKEN updates) (ACCESS_TOKEN d);
     REFRESH_TOKEN := merge_field (REFRESH_TOKEN updates) (REFRESH_TOKEN d);
     ACCOUNTS_URL := merge_field (ACCOUNTS_URL updates) (ACCOUNTS_URL d);
     API_DOMAIN := merge_field (API_DOMAIN updates) (API_DOMAIN d);
     EXPIRY_TIME := merge_field (EXPIRY_TIME updates) (EXPIRY_TIME d) |}.

Definition no_updates : ZohoCredentials :=
  {| CLIENT_ID := None; CLIENT_SECRET := None; AUTHORIZATION_CODE := None;
     ACCESS_TOKEN := None; REFRESH_TOKEN := None; ACCOUNTS_URL := None;
     API_DOMAIN := None; EXPIRY_TIME := None |}.

Section Program.

Variable env : Env.

(** [for (const x of l) { body x }] *)
Fixpoint for_of {A} (l : list A) (body : A -> M unit) : M unit :=
  match l with
  | [] => ret tt
  | x :: rest => body x ;;; for_of rest body
  end.

(** *** Calls to the outside *)

Definition date_now : M Z := fun w => (Ok (Date_now env (trace w)), w).

Definition once_value : M ZohoCredentials :=
  fun w =>
    let w' := {| db := db w; trace := trace w ++ [EvOnce] |} in
    match dbRef_once env (trace w) with
    | None => (Ok (db w), w')
    | Some e => (Err e, w')
    end.

Definition update_value (updates : ZohoCredentials) : M unit :=
  fun w =>
    let tr := trace w ++ [EvUpdate updates] in
    match dbRef_update env (trace w) updates with
    | None => (Ok tt, {| db := merge_record updates (db w); trace := tr |})
    | Some e => (Err e, {| db := db w; trace := tr |})
    end.

Definition postForm (target : string) (payload : gmap string (option string))
  : M AccessTokenResponse :=
  fun w =>
    (axios_postForm env (trace w) target payload,
     {| db := db w; trace := trace w ++ [EvPostForm target payload] |}).

Definition axios_request (config : AxiosRequestConfig) : M JSON :=
  fun w =>
    (axios env (trace w) config,
     {| db := db w; trace := trace w ++ [EvAxios config] |}).

(** *** The functions of the source *)

Definition readDbData : M ZohoCredentials :=
  try_catch once_value (fun error => throw error).

Definition updateDbData (updates : ZohoCredentials) : M unit :=
  try_catch (update_value updates) (fun error => throw error).

Definition generateApiRequestConfig (options : AxiosRequestConfig) (token : option string)
  : AxiosRequestConfig :=
  {| method := method options;
     url := url options;
     params := params options;
     data := data options;
     baseURL := Some apiUrl;
     headers :=
       Some (default ∅ (headers options) ∪
             {[ "Content-Type" := "application/json";
                "Authorization" := ("Zoho-oauthtoken " ++ default "undefined" token)%string ]}) |}.

Definition getAccessToken_payload (dbData : ZohoCredentials) : gmap string (option string) :=
  {[ "client_id" := CLIENT_ID dbData;
     "client_secret" := CLIENT_ID dbData;
     "redirect_uri" := Some redirectUri;
     "code" := AUTHORIZATION_CODE dbData;
     "grant_type" := Some "authorization_code" ]}.

Definition getAccessToken (dbData : ZohoCredentials) : M unit :=
  try_catch
    (let payload := getAccessToken_payload dbData in
     response <- postForm tokenUrl payload ;;
     now <- date_now ;;
     let dbUpdates :=
       {| CLIENT_ID := None; CLIENT_SECRET := None; AUTHORIZATION_CODE := None;
          ACCESS_TOKEN := Some (access_token response);
          REFRESH_TOKEN := Some (refresh_token response);
          ACCOUNTS_URL := None; API_DOMAIN := None;
          EXPIRY_TIME := Some (now + expires_in response * 1000) |} in
     updateDbData dbUpdates)
    (fun error => throw error).

Definition refreshAccessToken_payload (dbData : ZohoCredentials) : gmap string (option string) :=
  {[ "client_id" := CLIENT_ID dbData;
     "client_secret" := CLIENT_SECRET dbData;
     "refresh_token" := REFRESH_TOKEN dbData;
     "grant_type" := Some "refresh_token" ]}.

Definition refreshAccessToken (dbData : ZohoCredentials) : M unit :=
  try_catch
    (let payload := refreshAccessToken_payload dbData in
     response <- postForm tokenUrl payload ;;
     now <- date_now ;;
     let dbUpdates :=
       {| CLIENT_ID := None; CLIENT_SECRET := None; AUTHORIZATION_CODE := None;
          ACCESS_TOKEN := Some (access_token response);
          REFRESH_TOKEN := None;
          ACCOUNTS_URL := None; API_DOMAIN := None;
          EXPIRY_TIME := Some (now + expires_in response * 1000) |} in
     updateDbData dbUpdates)
    (fun error => throw error).

(** [Date.now() >= (dbData.EXPIRY_TIME || 0)] *)
Definition expired (now : Z) (expiry : option Z) : bool :=
  (match expiry with
   | Some t => if t =? 0 then 0 else t
   | None => 0
   end) <=? now.

Definition makeApiRequest (options : AxiosRequestConfig) : M JSON :=
  dbData <- readDbData ;;
  now <- date_now ;;
  (if negb (truthy_str (ACCESS_TOKEN dbData)) || expired now (EXPIRY_TIME dbData)
   then
     if negb (truthy_str (REFRESH_TOKEN dbData))
     then getAccessToken dbData
     else refreshAccessToken dbData
   else ret tt) ;;;
  latestDbData <- readDbData ;;
  let config := generateApiRequestConfig options (ACCESS_TOKEN latestDbData) in
  try_catch
    (response_data <- axios_request config ;;
     ret response_data)
    (fun error => throw error).

Definition findByLeadId (leadId : string) : M JSON :=
  let options :=
    {| method := Some "GET";
       url := Some {| url_lit := "/Leads/"; url_arg := Some (JStr leadId) |};
       params := None; data := None; baseURL := None; headers := None |} in
  data <- makeApiRequest options ;;
  ret data.

Definition findByPhone (phonePrefix : string) : M JSON :=
  let options :=
    {| method := Some "GET";
       url := Some {| url_lit := "/Leads/search"; url_arg := None |};
       params := Some [("criteria", ("Phone:starts_with:" ++ phonePrefix)%string);
                       ("fields", "id,Phone,Full_Name,Tag")];
       data := None; baseURL := None; headers := None |} in
  data <- makeApiRequest options ;;
  ret data.

Definition updateLeadTag (leadId : JSON) (tags : JSON) : M JSON :=
  let options :=
    {| method := Some "PUT";
       url := Some {| url_lit := "/Leads/"; url_arg := Some leadId |};
       params := None;
       data := Some (JObj [("data", JArr [JObj [("Tag", tags)]])]);
       baseURL := None; headers := None |} in
  data <- makeApiRequest options ;;
  ret data.

Definition modifyLeadByLeadId (reqBody : ReqParams) : M Z :=
  try_catch
    (response <- findByLeadId (id reqBody) ;;
     data <- lift (get_prop response "data") ;;
     if negb (truthy (opt_index0 data)) then ret 400 else
     lead <- lift (index0 data) ;;
     Tag <- lift (get_prop lead "Tag") ;;
     let tags := js_or Tag (JArr []) in
     updatedTags <- lift (js_filter tags (keep_tag (tagFilter reqBody))) ;;
     let updatedTags := updatedTags ++ [JObj [("name", JStr (tag reqBody))]] in
     lead' <- lift (index0 data) ;;
     leadId <- lift (get_prop lead' "id") ;;
     updateLeadTag leadId (JArr updatedTags) ;;;
     ret 200)
    (fun error => throw error).

Definition modifyLeadsByPhoneAndTag (reqBody : ReqParams) : M Z :=
  try_catch
    (response <- findByPhone (phone reqBody) ;;
     data <- lift (get_prop response "data") ;;
     if negb (truthy data) then ret 400 else
     leads <- lift (iterate data) ;;
     for_of leads (fun lead =>
       Tag <- lift (get_prop lead "Tag") ;;
       let tags := js_or Tag (JArr []) in
       updatedTags <- lift (js_filter tags (keep_tag (tagFilter reqBody))) ;;
       let updatedTags := updatedTags ++ [JObj [("name", JStr (tag reqBody))]] in
       leadId <- lift (get_prop lead "id") ;;
       updateLeadTag leadId (JArr updatedTags) ;;;
       ret tt) ;;;
     ret 200)
    (fun error => throw error).

End Program.

(** ** Reading a trace *)

Definition axios_calls (evs : list Event) : list AxiosRequestConfig :=
  omap (fun e => match e with EvAxios config => Some config | _ => None end) evs.

Definition exchanges (evs : list Event) : list (gmap string (option string)) :=
  omap (fun e => match e with EvPostForm _ payload => Some payload | _ => None end) evs.

(** The lead and the tag collection a [PUT /Leads/{leadId}] request carries. *)
Definition written (config : AxiosRequestConfig) : option (JSON * JSON) :=
  match method config, url config, data config with
  | Some m, Some {| url_lit := lit; url_arg := Some leadId |},
    Some (JObj [(k1, JArr [JObj [(k2, tags)]])]) =>
      if String.eqb m "PUT" && String.eqb lit "/Leads/"
         && String.eqb k1 "data" && String.eqb k2 "Tag"
      then Some (leadId, tags) else None
  | _, _, _ => None
  end.

Definition writes (evs : list Event) : list (JSON * JSON) :=
  omap written (axios_calls evs).

(** ** Tags and leads as the CRM returns them *)

Definition name_of (t : JSON) : option string :=
  match get_prop t "name" with
  | Ok (JStr s) => Some s
  | _ => None
  end.

Definition named (t : JSON) : Prop := exists s, name_of t = Some s.

Definition has_prefix (p : string) (t : JSON) : bool :=
  match name_of t with
  | Some s => startsWith s p
  | None => false
  end.

Definition new_tag (tag : string) : JSON := JObj [("name", JStr tag)].

(** The tag sequence the workflows are meant to write for the sequence [ts]. *)
Definition retag (tagFilter tag : string) (ts : list JSON) : list JSON :=
  List.filter (fun t => negb (has_prefix tagFilter t)) ts ++ [new_tag tag].

(** A missing value: the property is not there, or holds [null]. *)
Definition absent (v : JSON) : Prop := v = JUndefined \/ v = JNull.

Definition tags_of (lead : JSON) : list JSON :=
  match get_prop lead "Tag" with
  | Ok (JArr ts) => ts
  | _ => []
  end.

Definition id_of (lead : JSON) : JSON :=
  match get_prop lead "id" with
  | Ok v => v
  | Err _ => JUndefined
  end.

(** What a workflow writes for [lead]. *)
Definition expected (reqBody : ReqParams) (lead : JSON) : JSON * JSON :=
  (id_of lead, JArr (retag (tagFilter reqBody) (tag reqBody) (tags_of lead))).

(** ** A CRM and a token endpoint to run the program against *)

Module Demo.

Definition token_response : AccessTokenResponse :=
  {| access_token := "1000.at";
     refresh_token := "1000.rt";
     api_domain := "https://www.zohoapis.com";
     token_type := "Bearer";
     expires_in := 3600 |}.

Definition is_lead (leadId : string) (entry : JSON * JSON) : bool :=
  match fst entry with
  | JStr s => String.eqb s leadId
  | _ => false
  end.

(** The tags of a lead: those of the last write to it, else [initial]. *)
Definition stored_tags (initial : JSON) (leadId : string) (tr : list Event) : JSON :=
  match last (List.filter (is_lead leadId) (writes tr)) with
  | Some entry => snd entry
  | None => initial
  end.

Definition is_put (config : AxiosRequestConfig) : bool :=
  match method config with
  | Some m => String.eqb m "PUT"
  | None => false
  end.

Fixpoint initial_tags (leadId : string) (leads : list (string * JSON)) : option JSON :=
  match leads with
  | [] => None
  | (i, tags) :: rest => if String.eqb i leadId then Some tags else initial_tags leadId rest
  end.

(** A CRM that starts with [leads] (an id and a [Tag] value each), in which a
    search answers [found] and the write number [failing] (from 0) is
    refused. *)
Definition crm (leads : list (string * JSON)) (found : JSON) (failing : option nat)
    (tr : list Event) (config : AxiosRequestConfig) : Result JSON :=
  if is_put config then
    if bool_decide (failing = Some (length (writes tr)))
    then Err (Rejected "Request failed with status code 500")
    else Ok (JObj [("data", JArr [JObj [("code", JStr "SUCCESS")]])])
  else
    match url config with
    | Some {| url_lit := _; url_arg := Some (JStr leadId) |} =>
        match initial_tags leadId leads with
        | Some initial =>
            Ok (JObj [("data",
                       JArr [JObj [("id", JStr leadId);
                                   ("Tag", stored_tags initial leadId tr)]])])
        | None => Ok (JObj [("data", JArr [])])
        end
    | _ => Ok found
    end.

Definition env (now : Z) (leads : list (string * JSON)) (found : JSON)
    (failing : option nat) : Env :=
  {| Date_now := fun _ => now;
     dbRef_once := fun _ => None;
     dbRef_update := fun _ _ => None;
     axios_postForm := fun _ _ _ => Ok token_response;
     axios := crm leads found failing |}.

Definition credentials (token refresh : option string) (expiry : option Z)
  : ZohoCredentials :=
  {| CLIENT_ID := Some "1000.CLIENT";
     CLIENT_SECRET := Some "s3cret";
     AUTHORIZATION_CODE := Some "1000.code";
     ACCESS_TOKEN := token;
     REFRESH_TOKEN := refresh;
     ACCOUNTS_URL := Some "https://accounts.zoho.com";
     API_DOMAIN := Some "https://www.zohoapis.com";
     EXPIRY_TIME := expiry |}.

Definition world (token refresh : option string) (expiry : option Z) : World :=
  {| db := credentials token refresh expiry; trace := [] |}.

Definition fresh : World := world (Some "1000.old") (Some "1000.rt0") (Some 5000).

Definition tagged (names : list string) : JSON := JArr (map new_tag names).

Definition lead (leadId : string) (tags : JSON) : JSON :=
  JObj [("id", JStr leadId); ("Tag", tags)].

Definition request (p i t f : string) : ReqParams :=
  {| phone := p; tag := t; id := i; tagFilter := f |}.

End Demo.

(** ** Notions the statements use *)

Definition refresh_updates (now : Z) (response : AccessTokenResponse) : ZohoCredentials :=
  {| CLIENT_ID := None; CLIENT_SECRET := None; AUTHORIZATION_CODE := None;
     ACCESS_TOKEN := Some (access_token response);
     REFRESH_TOKEN := None;
     ACCOUNTS_URL := None; API_DOMAIN := None;
     EXPIRY_TIME := Some (now + expires_in response * 1000) |}.

Definition code_updates (now : Z) (response : AccessTokenResponse) : ZohoCredentials :=
  {| CLIENT_ID := None; CLIENT_SECRET := None; AUTHORIZATION_CODE := None;
     ACCESS_TOKEN := Some (access_token response);
     REFRESH_TOKEN := Some (refresh_token response);
     ACCOUNTS_URL := None; API_DOMAIN := None;
     EXPIRY_TIME := Some (now + expires_in response * 1000) |}.

(** The fields no exchange writes. *)
Definition same_registration (d d' : ZohoCredentials) : Prop :=
  CLIENT_ID d' = CLIENT_ID d /\
  CLIENT_SECRET d' = CLIENT_SECRET d /\
  AUTHORIZATION_CODE d' = AUTHORIZATION_CODE d /\
  ACCOUNTS_URL d' = ACCOUNTS_URL d /\
  API_DOMAIN d' = API_DOMAIN d.

Definition after (w : World) (e : Event) : World :=
  {| db := db w; trace := trace w ++ [e] |}.

(** The part of [makeApiRequest] that runs before the request is built. *)
Definition ensure_token (env : Env) (dbData : ZohoCredentials) (now : Z) : M unit :=
  if negb (truthy_str (ACCESS_TOKEN dbData)) || expired now (EXPIRY_TIME dbData)
  then
    if negb (truthy_str (REFRESH_TOKEN dbData))
    then getAccessToken env dbData
    else refreshAccessToken env dbData
  else ret tt.

(** What the three statements after the lookup of a lead compute: the lead
    to write to and its new tags. *)
Definition plan (reqBody : ReqParams) (lead : JSON) : Result (JSON * JSON) :=
  match get_prop lead "Tag" with
  | Err e => Err e
  | Ok Tag =>
      match js_filter (js_or Tag (JArr [])) (keep_tag (tagFilter reqBody)) with
      | Err e => Err e
      | Ok updatedTags =>
          match get_prop lead "id" with
          | Err e => Err e
          | Ok leadId => Ok (leadId, JArr (updatedTags ++ [new_tag (tag reqBody)]))
          end
      end
  end.

(** A lead as the CRM returns it: an object whose [Tag] is missing or a
    sequence of tags that have a name. *)
Definition well_formed_lead (lead : JSON) : Prop :=
  exists kvs, lead = JObj kvs /\
    (absent (assoc "Tag" kvs) \/ exists ts, assoc "Tag" kvs = JArr ts /\ Forall named ts).

Definition apply_plan (env : Env) (reqBody : ReqParams) (lead : JSON) : M unit :=
  fun w =>
    match plan reqBody lead with
    | Err e => (Err e, w)
    | Ok (leadId, tags) =>
        match updateLeadTag env leadId tags w with
        | (Ok _, w') => (Ok tt, w')
        | (Err e, w') => (Err e, w')
        end
    end.

(** The updates of a sequence of leads, each succeeding in the world the
    one before left. *)
Inductive applied (env : Env) (reqBody : ReqParams) : World -> list JSON -> World -> Prop :=
  | applied_nil w : applied env reqBody w [] w
  | applied_cons w lead leads v w1 w2 :
      updateLeadTag env (id_of lead)
        (JArr (retag (tagFilter reqBody) (tag reqBody) (tags_of lead))) w = (Ok v, w1) ->
      applied env reqBody w1 leads w2 ->
      applied env reqBody w (lead :: leads) w2.

(** The tags of the last request written. *)
Definition last_written (tr : list Event) : option JSON :=
  match last (writes tr) with
  | Some entry => Some (snd entry)
  | None => None
  end.

(** The [Tag] of the lead a lookup by id answers with in the world [w]. *)
Definition fetched_tags (env : Env) (reqBody : ReqParams) (w : World) : option JSON :=
  match findByLeadId env (id reqBody) w with
  | (Ok response, _) =>
      match get_prop response "data" with
      | Ok data =>
          match index0 data with
          | Ok lead =>
              match get_prop lead "Tag" with
              | Ok Tag => Some Tag
              | Err _ => None
              end
          | Err _ => None
          end
      | Err _ => None
      end
  | (Err _, _) => None
  end.

Definition is_named (s : string) (t : JSON) : bool :=
  match name_of t with
  | Some s' => String.eqb s' s
  | None => false
  end.

Definition count_named (s : string) (ts : list JSON) : nat :=
  length (List.filter (is_named s) ts).

(** The property of two runs in a row, as stated for every input. *)
Definition twice_leaves_one (env : Env) (reqBody : ReqParams) (w : World) : Prop :=
  forall w1 w2,
    modifyLeadByLeadId env reqBody w = (Ok 200, w1) ->
    fetched_tags env reqBody w1 = last_written (trace w1) ->
    modifyLeadByLeadId env reqBody w1 = (Ok 200, w2) ->
    exists ts,
      last_written (trace w2) = Some (JArr ts) /\
      count_named (tag reqBody) ts = 1%nat /\
      forall t, In t ts -> has_prefix (tagFilter reqBody) t = true ->
                name_of t = Some (tag reqBody).

(** The by-phone property "400 only when [data] is missing", as stated for
    every answer of the search. *)
Definition not_found_only_when_absent (env : Env) (reqBody : ReqParams) (w : World) : Prop :=
  forall response w1 data w2,
    findByPhone env (phone reqBody) w = (Ok response, w1) ->
    get_prop response "data" = Ok data ->
    modifyLeadsByPhoneAndTag env reqBody w = (Ok 400, w2) ->
    absent data.

(** ** The HTTP endpoint *)

(** [req.body]: the fields the handler tests before it reads them may be
    missing. *)
Record RequestBody := {
  body_phone : option string;
  body_tag : option string;
  body_id : option string;
  body_tagFilter : option string
}.

(** [res.status(code).send(text)] *)
Record Response := {
  res_status : Z;
  res_text : string
}.

(** [req.body] as the workflows read it.  A workflow is called only with the
    fields it reads present, but for [tagFilter], where [startsWith] turns
    [undefined] into the string ["undefined"]; a field the workflow called
    does not read is given the empty string. *)
Definition req_params (body : RequestBody) : ReqParams :=
  {| phone := default "" (body_phone body);
     tag := default "" (body_tag body);
     id := default "" (body_id body);
     tagFilter := default "undefined" (body_tagFilter body) |}.

Definition send (code : Z) (text : string) : M Response :=
  ret {| res_status := code; res_text := text |}.

(** The handler of [app.post("/v5/", ...)]; [req_body] is [None] when
    [req.body] is [undefined]. *)
Definition post_v5 (env : Env) (req_body : option RequestBody) : M Response :=
  try_catch
    (bind
       (lift (match req_body with
              | Some body => Ok body
              | None => Err (TypeError "Cannot destructure property 'phone' of 'req.body'")
              end))
       (fun body =>
          bind
            (if truthy_str (body_phone body) && truthy_str (body_tag body)
             then bind (modifyLeadsByPhoneAndTag env (req_params body))
                       (fun status => ret (Some status))
             else if truthy_str (body_id body) && truthy_str (body_tag body)
             then bind (modifyLeadByLeadId env (req_params body))
                       (fun status => ret (Some status))
             else ret None)
            (fun routed =>
               match routed with
               | None => send 400 "Bad Request: Either Phone or Lead Id or tag is missing."
               | Some status =>
                   if status =? 200
                   then send 200 "Leads modified successfully."
                   else send 400 "Error modifying leads."
               end)))
    (fun error => send 500 "Error modifying leads.").

(** ** Collaborators that fail *)

Module Faults.

(** A store whose reads answer [once] and whose updates answer [update], a
    token endpoint that answers [posted] and a CRM that answers [answer]. *)
Definition env (now : Z) (once update : option Error)
    (posted : Result AccessTokenResponse) (answer : Result JSON) : Env :=
  {| Date_now := fun _ => now;
     dbRef_once := fun _ => once;
     dbRef_update := fun _ _ => update;
     axios_postForm := fun _ _ _ => posted;
     axios := fun _ _ => answer |}.

Definition denied : Error := Rejected "PERMISSION_DENIED".

Definition invalid_code : Error := Rejected "Request failed with status code 400".

End Faults.

(** ** What every run keeps *)

(** An update of the store sets the token together with its expiry and no
    field of the registration. *)
Definition paired_update (e : Event) : Prop :=
  match e with
  | EvUpdate updates =>
      ACCESS_TOKEN updates <> None /\ EXPIRY_TIME updates <> None /\
      CLIENT_ID updates = None /\ CLIENT_SECRET updates = None /\
      AUTHORIZATION_CODE updates = None /\
      ACCOUNTS_URL updates = None /\ API_DOMAIN updates = None
  | _ => True
  end.

Definition evolves (w w' : World) : Prop :=
  (exists evs, trace w' = trace w ++ evs /\ Forall paired_update evs) /\
  same_registration (db w) (db w').

Definition respects {A} (m : M A) : Prop := forall w, evolves w (snd (m w)).

Definition reads (evs : list Event) : nat :=
  length (List.filter (fun e => match e with EvOnce => true | _ => false end) evs).

(** ** The monad *)

Lemma try_catch_rethrow {A} (m : M A) (w : World) :
  try_catch m (fun error => throw error) w = m w.
Proof. unfold try_catch, throw. destruct (m w) as [[a|e] w']; reflexivity. Qed.

Lemma bind_inv {A B} (m : M A) (k : A -> M B) w r w' :
  bind m k w = (r, w') ->
  (exists e, m w = (Err e, w') /\ r = Err e) \/
  (exists a w1, m w = (Ok a, w1) /\ k a w1 = (r, w')).
Proof.
  unfold bind. destruct (m w) as [[a|e] w1]; intros H.
  - right. eauto.
  - left. inversion H; subst. eauto.
Qed.

Lemma axios_calls_app evs1 evs2 :
  axios_calls (evs1 ++ evs2) = axios_calls evs1 ++ axios_calls evs2.
Proof. apply omap_app. Qed.

Lemma writes_app evs1 evs2 : writes (evs1 ++ evs2) = writes evs1 ++ writes evs2.
Proof. unfold writes. rewrite axios_calls_app. apply omap_app. Qed.

Lemma truthy_str_present (o : option string) :
  truthy_str o = true <-> exists s, o = Some s /\ s <> "".
Proof.
  destruct o as [[|c s]|]; simpl; split; try discriminate; try reflexivity.
  - intros (s & Hs & Hne). inversion Hs; subst. congruence.
  - intros _. eexists; split; [reflexivity | discriminate].
  - intros (s' & Hs & _). discriminate.
Qed.

Lemma expired_spec now expiry : expired now expiry = true <-> default 0 expiry <= now.
Proof.
  unfold expired. destruct expiry as [t|]; simpl.
  - destruct (Z.eqb_spec t 0); subst; apply Z.leb_le.
  - apply Z.leb_le.
Qed.

(** ** The token lifecycle *)

Lemma refreshAccessToken_run env dbData w :
  refreshAccessToken env dbData w =
  let payload := refreshAccessToken_payload dbData in
  let posted := trace w ++ [EvPostForm tokenUrl payload] in
  match axios_postForm env (trace w) tokenUrl payload with
  | Err e => (Err e, {| db := db w; trace := posted |})
  | Ok response =>
      let updates := refresh_updates (Date_now env posted) response in
      match dbRef_update env posted updates with
      | None => (Ok tt, {| db := merge_record updates (db w);
                           trace := posted ++ [EvUpdate updates] |})
      | Some e => (Err e, {| db := db w; trace := posted ++ [EvUpdate updates] |})
      end
  end.
Proof.
  unfold refreshAccessToken. rewrite try_catch_rethrow.
  unfold bind, postForm, date_now, updateDbData. cbn [trace db].
  destruct (axios_postForm _ _ _ _) as [response|e]; [|reflexivity].
  rewrite try_catch_rethrow. unfold update_value, refresh_updates. cbn [trace db].
  destruct (dbRef_update _ _ _); reflexivity.
Qed.

Lemma getAccessToken_run env dbData w :
  getAccessToken env dbData w =
  let payload := getAccessToken_payload dbData in
  let posted := trace w ++ [EvPostForm tokenUrl payload] in
  match axios_postForm env (trace w) tokenUrl payload with
  | Err e => (Err e, {| db := db w; trace := posted |})
  | Ok response =>
      let updates := code_updates (Date_now env posted) response in
      match dbRef_update env posted updates with
      | None => (Ok tt, {| db := merge_record updates (db w);
                           trace := posted ++ [EvUpdate updates] |})
      | Some e => (Err e, {| db := db w; trace := posted ++ [EvUpdate updates] |})
      end
  end.
Proof.
  unfold getAccessToken. rewrite try_catch_rethrow.
  unfold bind, postForm, date_now, updateDbData. cbn [trace db].
  destruct (axios_postForm _ _ _ _) as [response|e]; [|reflexivity].
  rewrite try_catch_rethrow. unfold update_value, code_updates. cbn [trace db].
  destruct (dbRef_update _ _ _); reflexivity.
Qed.

(** C4. In the authorization-code exchange the form posted to the token
    endpoint holds the record's [CLIENT_ID] in its [client_id] field and in
    its [client_secret] field; every field of the form holds the client id,
    the redirect URI, the authorization code or the grant type, so the
    record's [CLIENT_SECRET] is not sent. *)
Theorem getAccessToken_posts_client_id_twice env dbData w :
  exists payload rest,
    trace (snd (getAccessToken env dbData w)) =
      trace w ++ EvPostForm tokenUrl payload :: rest /\
    exchanges (EvPostForm tokenUrl payload :: rest) = [payload] /\
    payload !! "client_id" = Some (CLIENT_ID dbData) /\
    payload !! "client_secret" = Some (CLIENT_ID dbData) /\
    forall k v, payload !! k = Some v ->
      v = CLIENT_ID dbData \/ v = Some redirectUri \/
      v = AUTHORIZATION_CODE dbData \/ v = Some "authorization_code".
Proof.
  exists (getAccessToken_payload dbData).
  rewrite getAccessToken_run. cbv zeta.
  assert (Hfields : forall k v, getAccessToken_payload dbData !! k = Some v ->
      v = CLIENT_ID dbData \/ v = Some redirectUri \/
      v = AUTHORIZATION_CODE dbData \/ v = Some "authorization_code").
  { intros k v. unfold getAccessToken_payload.
    rewrite !lookup_insert. repeat case_decide; rewrite ?lookup_singleton;
      try case_decide; intros Hv; inversion Hv; subst; auto. }
  destruct (axios_postForm _ _ _ _) as [response|e].
  - destruct (dbRef_update _ _ _); eexists; cbn [snd trace];
      rewrite <- app_assoc; (split; [reflexivity|]); (split; [reflexivity|]);
      (split; [reflexivity|]); (split; [reflexivity|]); exact Hfields.
  - exists []. cbn [snd trace]. split; [reflexivity|]. split; [reflexivity|].
    split; [reflexivity|]. split; [reflexivity|]. exact Hfields.
Qed.

Lemma getAccessToken_posts_client_id_twice_witness :
  let env := Demo.env 6000 [] JNull None in
  exchanges (trace (snd (getAccessToken env (db Demo.fresh) Demo.fresh)))
    = [getAccessToken_payload (db Demo.fresh)] /\
  getAccessToken_payload (db Demo.fresh) !! "client_secret" = Some (Some "1000.CLIENT") /\
  CLIENT_SECRET (db Demo.fresh) = Some "s3cret".
Proof.
  cbv zeta.
  destruct (getAccessToken_posts_client_id_twice (Demo.env 6000 [] JNull None)
              (db Demo.fresh) Demo.fresh)
    as (payload & rest & Htrace & Hone & _ & Hsecret & _).
  assert (Hpayload : payload = getAccessToken_payload (db Demo.fresh)).
  { rewrite getAccessToken_run in Htrace.
    cbn [Demo.env axios_postForm dbRef_update snd trace Demo.fresh Demo.world app]
      in Htrace.
    inversion Htrace. reflexivity. }
  subst payload. split; [|split; [exact Hsecret | reflexivity]].
  rewrite Htrace. exact Hone.
Defined.

(** C8. After a refresh exchange that the token endpoint answers, the update
    sent to the credential store holds [ACCESS_TOKEN] and [EXPIRY_TIME = now +
    expires_in * 1000] and nothing else, and the stored [REFRESH_TOKEN] and
    registration fields are what they were; after an authorization-code
    exchange the update holds [ACCESS_TOKEN], [REFRESH_TOKEN] and
    [EXPIRY_TIME], and the registration fields are what they were. *)
Theorem exchange_update_frame env dbData w response :
  (axios_postForm env (trace w) tokenUrl (refreshAccessToken_payload dbData) = Ok response ->
   let posted := trace w ++ [EvPostForm tokenUrl (refreshAccessToken_payload dbData)] in
   let now := Date_now env posted in
   let updates :=
     {| CLIENT_ID := None; CLIENT_SECRET := None; AUTHORIZATION_CODE := None;
        ACCESS_TOKEN := Some (access_token response);
        REFRESH_TOKEN := None;
        ACCOUNTS_URL := None; API_DOMAIN := None;
        EXPIRY_TIME := Some (now + expires_in response * 1000) |} in
   let r := fst (refreshAccessToken env dbData w) in
   let w' := snd (refreshAccessToken env dbData w) in
   trace w' = posted ++ [EvUpdate updates] /\
   REFRESH_TOKEN (db w') = REFRESH_TOKEN (db w) /\
   same_registration (db w) (db w') /\
   (r = Ok tt <-> dbRef_update env posted updates = None) /\
   (r = Ok tt ->
    ACCESS_TOKEN (db w') = Some (access_token response) /\
    EXPIRY_TIME (db w') = Some (now + expires_in response * 1000))) /\
  (axios_postForm env (trace w) tokenUrl (getAccessToken_payload dbData) = Ok response ->
   let posted := trace w ++ [EvPostForm tokenUrl (getAccessToken_payload dbData)] in
   let now := Date_now env posted in
   let updates :=
     {| CLIENT_ID := None; CLIENT_SECRET := None; AUTHORIZATION_CODE := None;
        ACCESS_TOKEN := Some (access_token response);
        REFRESH_TOKEN := Some (refresh_token response);
        ACCOUNTS_URL := None; API_DOMAIN := None;
        EXPIRY_TIME := Some (now + expires_in response * 1000) |} in
   let r := fst (getAccessToken env dbData w) in
   let w' := snd (getAccessToken env dbData w) in
   trace w' = posted ++ [EvUpdate updates] /\
   same_registration (db w) (db w') /\
   (r = Ok tt <-> dbRef_update env posted updates = None) /\
   (r = Ok tt ->
    ACCESS_TOKEN (db w') = Some (access_token response) /\
    REFRESH_TOKEN (db w') = Some (refresh_token response) /\
    EXPIRY_TIME (db w') = Some (now + expires_in response * 1000))).
Proof.
  split; intros Hpost; cbv zeta.
  - rewrite refreshAccessToken_run. cbv zeta. rewrite Hpost.
    change (refresh_updates ?n ?r) with
      {| CLIENT_ID := None; CLIENT_SECRET := None; AUTHORIZATION_CODE := None;
         ACCESS_TOKEN := Some (access_token r); REFRESH_TOKEN := None;
         ACCOUNTS_URL := None; API_DOMAIN := None;
         EXPIRY_TIME := Some (n + expires_in r * 1000) |}.
    destruct (dbRef_update _ _ _) as [e|]; cbn [fst snd db trace];
      unfold same_registration; cbn; repeat split; try reflexivity;
      try discriminate; intros; discriminate.
  - rewrite getAccessToken_run. cbv zeta. rewrite Hpost.
    change (code_updates ?n ?r) with
      {| CLIENT_ID := None; CLIENT_SECRET := None; AUTHORIZATION_CODE := None;
         ACCESS_TOKEN := Some (access_token r);
         REFRESH_TOKEN := Some (refresh_token r);
         ACCOUNTS_URL := None; API_DOMAIN := None;
         EXPIRY_TIME := Some (n + expires_in r * 1000) |}.
    destruct (dbRef_update _ _ _) as [e|]; cbn [fst snd db trace];
      unfold same_registration; cbn; repeat split; try reflexivity;
      try discriminate; intros; discriminate.
Qed.

Lemma exchange_update_frame_witness :
  let env := Demo.env 6000 [] JNull None in
  let w := Demo.fresh in
  let refreshed := db (snd (refreshAccessToken env (db w) w)) in
  let granted := db (snd (getAccessToken env (db w) w)) in
  (axios_postForm env (trace w) tokenUrl (refreshAccessToken_payload (db w))
     = Ok Demo.token_response /\
   REFRESH_TOKEN refreshed = Some "1000.rt0" /\
   ACCESS_TOKEN refreshed = Some "1000.at" /\
   EXPIRY_TIME refreshed = Some 3606000) /\
  (axios_postForm env (trace w) tokenUrl (getAccessToken_payload (db w))
     = Ok Demo.token_response /\
   REFRESH_TOKEN granted = Some "1000.rt" /\
   ACCESS_TOKEN granted = Some "1000.at" /\
   EXPIRY_TIME granted = Some 3606000).
Proof.
  cbv zeta.
  destruct (exchange_update_frame (Demo.env 6000 [] JNull None)
              (db Demo.fresh) Demo.fresh Demo.token_response) as [Hr Hc].
  specialize (Hr eq_refl). specialize (Hc eq_refl). cbv zeta in Hr, Hc.
  destruct Hr as (_ & Hkeep & _ & _ & Hr).
  destruct Hc as (_ & _ & _ & Hc).
  specialize (Hr eq_refl). specialize (Hc eq_refl).
  destruct Hr as (Hat & Hexp). destruct Hc as (Hat' & Hrt' & Hexp').
  split.
  - split; [reflexivity|]. split; [exact Hkeep|]. split; [exact Hat | exact Hexp].
  - split; [reflexivity|]. split; [exact Hrt'|]. split; [exact Hat' | exact Hexp'].
Defined.

Lemma readDbData_run env w :
  readDbData env w =
  match dbRef_once env (trace w) with
  | None => (Ok (db w), after w EvOnce)
  | Some e => (Err e, after w EvOnce)
  end.
Proof.
  unfold readDbData. rewrite try_catch_rethrow. unfold once_value.
  destruct (dbRef_once _ _); reflexivity.
Qed.

Lemma makeApiRequest_run env options w :
  makeApiRequest env options w =
  match dbRef_once env (trace w) with
  | Some e => (Err e, after w EvOnce)
  | None =>
      let w1 := after w EvOnce in
      match ensure_token env (db w) (Date_now env (trace w1)) w1 with
      | (Err e, w2) => (Err e, w2)
      | (Ok _, w2) =>
          match dbRef_once env (trace w2) with
          | Some e => (Err e, after w2 EvOnce)
          | None =>
              let config := generateApiRequestConfig options (ACCESS_TOKEN (db w2)) in
              (axios env (trace (after w2 EvOnce)) config,
               after (after w2 EvOnce) (EvAxios config))
          end
      end
  end.
Proof.
  unfold makeApiRequest. unfold bind at 1. rewrite readDbData_run.
  destruct (dbRef_once env (trace w)) as [e|]; [reflexivity|].
  cbv zeta. unfold bind at 1. unfold date_now at 1. unfold bind at 1.
  fold (ensure_token env (db w) (Date_now env (trace (after w EvOnce)))).
  destruct (ensure_token _ _ _ _) as [[[]|e] w2]; [|reflexivity].
  unfold bind at 1. rewrite readDbData_run.
  destruct (dbRef_once env (trace w2)) as [e|]; [reflexivity|].
  rewrite try_catch_rethrow. unfold bind, axios_request, ret, after. cbn [db trace].
  destruct (axios _ _ _); reflexivity.
Qed.

(** C1. When the record read from the store has [EXPIRY_TIME <= now] (a
    missing [EXPIRY_TIME] counting as 0), [makeApiRequest] posts exactly one
    form to the token endpoint, before any CRM request: the refresh-token
    form when the record holds a (non-empty) [REFRESH_TOKEN], the
    authorization-code form otherwise. *)
Theorem makeApiRequest_stale_token_exchanges_once env options w :
  dbRef_once env (trace w) = None ->
  default 0 (EXPIRY_TIME (db w)) <= Date_now env (trace w ++ [EvOnce]) ->
  exists payload rest,
    trace (snd (makeApiRequest env options w)) =
      trace w ++ EvOnce :: EvPostForm tokenUrl payload :: rest /\
    exchanges (EvOnce :: EvPostForm tokenUrl payload :: rest) = [payload] /\
    axios_calls (EvOnce :: EvPostForm tokenUrl payload :: rest) = axios_calls rest /\
    ((exists s, REFRESH_TOKEN (db w) = Some s /\ s <> "") ->
     payload = refreshAccessToken_payload (db w) /\
     payload !! "grant_type" = Some (Some "refresh_token")) /\
    (~ (exists s, REFRESH_TOKEN (db w) = Some s /\ s <> "") ->
     payload = getAccessToken_payload (db w) /\
     payload !! "grant_type" = Some (Some "authorization_code")).
Proof.
  intros Hread Hstale.
  apply expired_spec in Hstale.
  rewrite makeApiRequest_run, Hread. cbv zeta. clear Hread.
  unfold ensure_token. cbn [after trace db]. rewrite Hstale, orb_true_r.
  destruct (truthy_str (REFRESH_TOKEN (db w))) eqn:Hrt; cbn [negb].
  - exists (refreshAccessToken_payload (db w)).
    assert (Hkind :
      ((exists s, REFRESH_TOKEN (db w) = Some s /\ s <> "") ->
       refreshAccessToken_payload (db w) = refreshAccessToken_payload (db w) /\
       refreshAccessToken_payload (db w) !! "grant_type" = Some (Some "refresh_token")) /\
      (~ (exists s, REFRESH_TOKEN (db w) = Some s /\ s <> "") ->
       refreshAccessToken_payload (db w) = getAccessToken_payload (db w) /\
       refreshAccessToken_payload (db w) !! "grant_type"
         = Some (Some "authorization_code"))).
    { split; [intros _; split; reflexivity|].
      intros Hno. exfalso. apply Hno. apply truthy_str_present. exact Hrt. }
    rewrite refreshAccessToken_run. cbv zeta. cbn [trace db].
    destruct (axios_postForm _ _ _ _) as [response|e];
      [destruct (dbRef_update _ _ _) as [e|];
         [|cbn [trace db]; destruct (dbRef_once env _) as [e|]]|];
      eexists; cbn [snd trace after db]; rewrite <- ?app_assoc;
      (split; [reflexivity|]); (split; [reflexivity|]);
      (split; [reflexivity|]); exact Hkind.
  - exists (getAccessToken_payload (db w)).
    assert (Hkind :
      ((exists s, REFRESH_TOKEN (db w) = Some s /\ s <> "") ->
       getAccessToken_payload (db w) = refreshAccessToken_payload (db w) /\
       getAccessToken_payload (db w) !! "grant_type" = Some (Some "refresh_token")) /\
      (~ (exists s, REFRESH_TOKEN (db w) = Some s /\ s <> "") ->
       getAccessToken_payload (db w) = getAccessToken_payload (db w) /\
       getAccessToken_payload (db w) !! "grant_type"
         = Some (Some "authorization_code"))).
    { split; [|intros _; split; reflexivity].
      intros Hyes. apply truthy_str_present in Hyes. congruence. }
    rewrite getAccessToken_run. cbv zeta. cbn [trace db].
    destruct (axios_postForm _ _ _ _) as [response|e];
      [destruct (dbRef_update _ _ _) as [e|];
         [|cbn [trace db]; destruct (dbRef_once env _) as [e|]]|];
      eexists; cbn [snd trace after db]; rewrite <- ?app_assoc;
      (split; [reflexivity|]); (split; [reflexivity|]);
      (split; [reflexivity|]); exact Hkind.
Qed.

Lemma makeApiRequest_stale_token_exchanges_once_witness :
  let env := Demo.env 5000 [] JNull None in
  let options :=
    {| method := Some "GET"; url := None; params := None; data := None;
       baseURL := None; headers := None |} in
  dbRef_once env (trace Demo.fresh) = None /\
  default 0 (EXPIRY_TIME (db Demo.fresh)) <= Date_now env (trace Demo.fresh ++ [EvOnce]) /\
  exchanges (trace (snd (makeApiRequest env options Demo.fresh)))
    = [refreshAccessToken_payload (db Demo.fresh)].
Proof.
  cbv zeta. split; [reflexivity|]. split; [vm_compute; discriminate|].
  destruct (makeApiRequest_stale_token_exchanges_once
              (Demo.env 5000 [] JNull None)
              {| method := Some "GET"; url := None; params := None; data := None;
                 baseURL := None; headers := None |}
              Demo.fresh)
    as (payload & rest & Htrace & Hone & _ & Hrefresh & _).
  - reflexivity.
  - vm_compute. discriminate.
  - rewrite Htrace. cbn [Demo.fresh Demo.world trace app]. rewrite Hone.
    destruct Hrefresh as [Hpayload _].
    + exists "1000.rt0". split; [reflexivity | discriminate].
    + rewrite Hpayload. reflexivity.
Defined.

(** C7. When the stored [ACCESS_TOKEN] is non-empty and [EXPIRY_TIME > now],
    [makeApiRequest] posts nothing to the token endpoint and leaves the
    record as it is, and the request it sends (it sends one as soon as both
    reads of the store resolve) carries the stored token in its
    [Authorization] header, for every request description that does not set
    that header itself. *)
Theorem makeApiRequest_fresh_token_no_exchange env options w token :
  ACCESS_TOKEN (db w) = Some token ->
  token <> "" ->
  Date_now env (trace w ++ [EvOnce]) < default 0 (EXPIRY_TIME (db w)) ->
  default ∅ (headers options) !! "Authorization" = None ->
  exists evs,
    trace (snd (makeApiRequest env options w)) = trace w ++ evs /\
    exchanges evs = [] /\
    db (snd (makeApiRequest env options w)) = db w /\
    (forall config, In config (axios_calls evs) ->
       config = generateApiRequestConfig options (Some token) /\
       default ∅ (headers config) !! "Authorization"
         = Some ("Zoho-oauthtoken " ++ token)%string) /\
    (dbRef_once env (trace w) = None ->
     dbRef_once env (trace w ++ [EvOnce]) = None ->
     axios_calls evs = [generateApiRequestConfig options (Some token)] /\
     fst (makeApiRequest env options w) =
       axios env (trace w ++ [EvOnce; EvOnce])
         (generateApiRequestConfig options (Some token))).
Proof.
  intros Htoken Hne Hfresh Hnoauth.
  assert (Hheader :
    default ∅ (headers (generateApiRequestConfig options (Some token)))
      !! "Authorization" = Some ("Zoho-oauthtoken " ++ token)%string).
  { unfold generateApiRequestConfig. cbn [headers].
    change (default ∅ (Some ?m)) with m.
    rewrite lookup_union_r by exact Hnoauth. reflexivity. }
  assert (Hnot : expired (Date_now env (trace w ++ [EvOnce])) (EXPIRY_TIME (db w)) = false).
  { destruct (expired _ _) eqn:E; [|reflexivity]. apply expired_spec in E. lia. }
  assert (Htruthy : truthy_str (ACCESS_TOKEN (db w)) = true).
  { apply truthy_str_present. eauto. }
  rewrite makeApiRequest_run. cbv zeta.
  destruct (dbRef_once env (trace w)) as [e|] eqn:Hread1.
  - exists [EvOnce]. cbn [snd fst after trace db].
    split; [reflexivity|]. split; [reflexivity|]. split; [reflexivity|].
    split; [intros config []|]. intros Hcontra. discriminate.
  - unfold ensure_token. cbn [after trace db]. rewrite Htruthy, Hnot.
    cbn [negb orb ret after trace db].
    destruct (dbRef_once env (trace w ++ [EvOnce])) as [e|] eqn:Hread2.
    + exists [EvOnce; EvOnce]. cbn [snd fst after trace db]. rewrite <- app_assoc.
      split; [reflexivity|]. split; [reflexivity|]. split; [reflexivity|].
      split; [intros config []|]. intros _ Hcontra. discriminate.
    + rewrite Htoken.
      exists [EvOnce; EvOnce; EvAxios (generateApiRequestConfig options (Some token))].
      cbn [snd fst after trace db]. rewrite <- !app_assoc.
      split; [reflexivity|]. split; [reflexivity|]. split; [reflexivity|]. split.
      * intros config [<-|[]]. split; [reflexivity | exact Hheader].
      * intros _ _. split; reflexivity.
Qed.

Lemma makeApiRequest_fresh_token_no_exchange_witness :
  let env := Demo.env 4999 [] JNull None in
  let options :=
    {| method := Some "GET"; url := None; params := None; data := None;
       baseURL := None; headers := None |} in
  let w' := snd (makeApiRequest env options Demo.fresh) in
  (ACCESS_TOKEN (db Demo.fresh) = Some "1000.old" /\
   Date_now env (trace Demo.fresh ++ [EvOnce]) < default 0 (EXPIRY_TIME (db Demo.fresh))) /\
  exchanges (trace w') = [] /\
  axios_calls (trace w') = [generateApiRequestConfig options (Some "1000.old")].
Proof.
  cbv zeta. split; [split; reflexivity|].
  destruct (makeApiRequest_fresh_token_no_exchange
              (Demo.env 4999 [] JNull None)
              {| method := Some "GET"; url := None; params := None; data := None;
                 baseURL := None; headers := None |}
              Demo.fresh "1000.old")
    as (evs & Htrace & Hnone & _ & _ & Hsent).
  - reflexivity.
  - discriminate.
  - reflexivity.
  - reflexivity.
  - rewrite Htrace. cbn [Demo.fresh Demo.world trace app].
    split; [exact Hnone|]. apply Hsent; reflexivity.
Defined.

(** ** What a request to the CRM adds to the trace *)

Lemma ensure_token_quiet env dbData now w :
  exists evs,
    trace (snd (ensure_token env dbData now w)) = trace w ++ evs /\
    axios_calls evs = [].
Proof.
  unfold ensure_token.
  destruct (negb (truthy_str (ACCESS_TOKEN dbData)) || expired now (EXPIRY_TIME dbData)).
  - destruct (negb (truthy_str (REFRESH_TOKEN dbData))).
    + rewrite getAccessToken_run. cbv zeta.
      destruct (axios_postForm _ _ _ _) as [response|e];
        [destruct (dbRef_update _ _ _) as [e|]|];
        eexists; cbn [snd trace]; rewrite <- ?app_assoc; split; reflexivity.
    + rewrite refreshAccessToken_run. cbv zeta.
      destruct (axios_postForm _ _ _ _) as [response|e];
        [destruct (dbRef_update _ _ _) as [e|]|];
        eexists; cbn [snd trace]; rewrite <- ?app_assoc; split; reflexivity.
  - exists []. cbn [ret snd]. rewrite app_nil_r. split; reflexivity.
Qed.

Lemma makeApiRequest_shape env options w r w' :
  makeApiRequest env options w = (r, w') ->
  exists pre,
    axios_calls pre = [] /\
    (((exists e, r = Err e) /\ trace w' = trace w ++ pre) \/
     (exists token,
        trace w' = trace w ++ pre ++ [EvAxios (generateApiRequestConfig options token)])).
Proof.
  rewrite makeApiRequest_run.
  destruct (dbRef_once env (trace w)) as [e|].
  - intros H; inversion H; subst. exists [EvOnce]. split; [reflexivity|].
    left. split; [eauto | reflexivity].
  - cbv zeta.
    destruct (ensure_token_quiet env (db w) (Date_now env (trace (after w EvOnce)))
                (after w EvOnce)) as (evs & Htrace & Hquiet).
    destruct (ensure_token _ _ _ _) as [[[]|e] w2]; cbn [snd] in Htrace.
    + destruct (dbRef_once env (trace w2)) as [e|]; intros H; inversion H; subst;
        cbn [after trace] in *; rewrite Htrace, <- ?app_assoc.
      * exists ([EvOnce] ++ evs ++ [EvOnce]). split.
        { rewrite !axios_calls_app, Hquiet. reflexivity. }
        left. split; [eauto | reflexivity].
      * exists ([EvOnce] ++ evs ++ [EvOnce]). split.
        { rewrite !axios_calls_app, Hquiet. reflexivity. }
        right. eexists. rewrite <- !app_assoc. reflexivity.
    + intros H; inversion H; subst. cbn [after trace] in *.
      rewrite Htrace, <- ?app_assoc. exists ([EvOnce] ++ evs). split.
      { rewrite !axios_calls_app, Hquiet. reflexivity. }
      left. split; [eauto | reflexivity].
Qed.

Lemma writes_request pre config :
  axios_calls pre = [] ->
  writes (pre ++ [EvAxios config]) = from_option (fun p => [p]) [] (written config).
Proof.
  intros Hpre. unfold writes. rewrite axios_calls_app, Hpre. cbn.
  destruct (written config); reflexivity.
Qed.

Lemma writes_quiet pre : axios_calls pre = [] -> writes pre = [].
Proof. intros Hpre. unfold writes. rewrite Hpre. reflexivity. Qed.

(** A search or a fetch writes nothing. *)
Lemma findByLeadId_writes env leadId w r w' :
  findByLeadId env leadId w = (r, w') ->
  exists evs, trace w' = trace w ++ evs /\ writes evs = [].
Proof.
  unfold findByLeadId. cbv zeta. intros H.
  apply bind_inv in H as [(e & H & ->)|(a & w1 & H & Hret)].
  - apply makeApiRequest_shape in H as (pre & Hpre & [[_ Htrace]|[token Htrace]]).
    + exists pre. split; [exact Htrace | apply writes_quiet; exact Hpre].
    + eexists. split; [exact Htrace|]. rewrite writes_request by exact Hpre. reflexivity.
  - inversion Hret; subst.
    apply makeApiRequest_shape in H as (pre & Hpre & [[[e He] _]|[token Htrace]]).
    + discriminate.
    + eexists. split; [exact Htrace|]. rewrite writes_request by exact Hpre. reflexivity.
Qed.

Lemma findByPhone_writes env prefix w r w' :
  findByPhone env prefix w = (r, w') ->
  exists evs, trace w' = trace w ++ evs /\ writes evs = [].
Proof.
  unfold findByPhone. cbv zeta. intros H.
  apply bind_inv in H as [(e & H & ->)|(a & w1 & H & Hret)].
  - apply makeApiRequest_shape in H as (pre & Hpre & [[_ Htrace]|[token Htrace]]).
    + exists pre. split; [exact Htrace | apply writes_quiet; exact Hpre].
    + eexists. split; [exact Htrace|]. rewrite writes_request by exact Hpre. reflexivity.
  - inversion Hret; subst.
    apply makeApiRequest_shape in H as (pre & Hpre & [[[e He] _]|[token Htrace]]).
    + discriminate.
    + eexists. split; [exact Htrace|]. rewrite writes_request by exact Hpre. reflexivity.
Qed.

(** An update writes its lead and tags once when it reaches the CRM, and it
    does when it succeeds. *)
Lemma updateLeadTag_writes env leadId tags w r w' :
  updateLeadTag env leadId tags w = (r, w') ->
  exists evs,
    trace w' = trace w ++ evs /\
    (writes evs = [(leadId, tags)] \/ (writes evs = [] /\ exists e, r = Err e)).
Proof.
  unfold updateLeadTag. cbv zeta. intros H.
  apply bind_inv in H as [(e & H & ->)|(a & w1 & H & Hret)].
  - apply makeApiRequest_shape in H as (pre & Hpre & [[_ Htrace]|[token Htrace]]).
    + exists pre. split; [exact Htrace|]. right.
      split; [apply writes_quiet; exact Hpre | eauto].
    + eexists. split; [exact Htrace|]. left.
      rewrite writes_request by exact Hpre. reflexivity.
  - inversion Hret; subst.
    apply makeApiRequest_shape in H as (pre & Hpre & [[[e He] _]|[token Htrace]]).
    + discriminate.
    + eexists. split; [exact Htrace|]. left.
      rewrite writes_request by exact Hpre. reflexivity.
Qed.

(** ** The tag rule *)

Lemma keep_tag_named tagFilter t b :
  keep_tag tagFilter t = Ok b -> named t /\ b = negb (has_prefix tagFilter t).
Proof.
  unfold keep_tag, named, has_prefix, name_of.
  destruct (get_prop t "name") as [[| | | |s| |]|e]; try discriminate.
  intros H; inversion H; subst. eauto.
Qed.

Lemma named_keep_tag tagFilter t :
  named t -> keep_tag tagFilter t = Ok (negb (has_prefix tagFilter t)).
Proof.
  unfold keep_tag, named, has_prefix, name_of. intros [s Hs].
  destruct (get_prop t "name") as [[| | | |s'| |]|e]; try discriminate. reflexivity.
Qed.

Lemma filter_array_keep tagFilter ts l :
  filter_array (keep_tag tagFilter) ts = Ok l ->
  Forall named ts /\ l = List.filter (fun t => negb (has_prefix tagFilter t)) ts.
Proof.
  revert l. induction ts as [|t ts IH]; intros l; cbn [filter_array List.filter].
  - intros H; inversion H; subst. split; [constructor | reflexivity].
  - destruct (keep_tag tagFilter t) as [b|e] eqn:Ht; [|discriminate].
    apply keep_tag_named in Ht as [Hn ->].
    destruct (filter_array (keep_tag tagFilter) ts) as [l'|e]; [|discriminate].
    destruct (IH l' eq_refl) as [Hall ->].
    intros H; inversion H; subst. split; [constructor; assumption | reflexivity].
Qed.

Lemma filter_array_named tagFilter ts :
  Forall named ts ->
  filter_array (keep_tag tagFilter) ts
    = Ok (List.filter (fun t => negb (has_prefix tagFilter t)) ts).
Proof.
  induction 1 as [|t ts Ht _ IH]; cbn [filter_array List.filter]; [reflexivity|].
  rewrite (named_keep_tag _ _ Ht), IH. reflexivity.
Qed.

Lemma plan_expected reqBody lead p :
  plan reqBody lead = Ok p -> p = expected reqBody lead.
Proof.
  unfold plan, expected, id_of, tags_of, retag, js_or, js_filter.
  destruct (get_prop lead "Tag") as [Tag|e]; [|discriminate].
  destruct (get_prop lead "id") as [leadId|e].
  - destruct Tag as [| |b|n|s|ts|kvs]; cbn [truthy];
      try (cbn; intros H; inversion H; subst; reflexivity).
    + destruct b; cbn; [discriminate|]. intros H; inversion H; reflexivity.
    + destruct (negb (n =? 0)); cbn; [discriminate|]. intros H; inversion H; reflexivity.
    + destruct (negb (is_empty_string s)); cbn; [discriminate|].
      intros H; inversion H; reflexivity.
    + destruct (filter_array _ ts) as [l|e] eqn:Hl; [|discriminate].
      apply filter_array_keep in Hl as [_ ->]. intros H; inversion H; reflexivity.
  - destruct (match (if truthy Tag then Tag else JArr []) with
              | JArr l => filter_array (keep_tag (tagFilter reqBody)) l
              | _ => Err (TypeError "tags.filter is not a function")
              end); discriminate.
Qed.

Lemma plan_well_formed reqBody lead :
  well_formed_lead lead -> plan reqBody lead = Ok (expected reqBody lead).
Proof.
  intros (kvs & -> & Htag).
  destruct (plan reqBody (JObj kvs)) as [p|e] eqn:Hp.
  - apply plan_expected in Hp. congruence.
  - exfalso. revert Hp. unfold plan. cbn [get_prop].
    destruct Htag as [[->| ->]|(ts & -> & Hts)]; unfold js_or; cbn [truthy js_filter].
    + discriminate.
    + discriminate.
    + rewrite (filter_array_named _ _ Hts). discriminate.
Qed.

(** ** The workflows, step by step *)

Lemma modifyLeadByLeadId_run env reqBody w :
  modifyLeadByLeadId env reqBody w =
  match findByLeadId env (id reqBody) w with
  | (Err e, w1) => (Err e, w1)
  | (Ok response, w1) =>
      match get_prop response "data" with
      | Err e => (Err e, w1)
      | Ok data =>
          if negb (truthy (opt_index0 data)) then (Ok 400, w1)
          else
            match index0 data with
            | Err e => (Err e, w1)
            | Ok lead =>
                match apply_plan env reqBody lead w1 with
                | (Ok _, w2) => (Ok 200, w2)
                | (Err e, w2) => (Err e, w2)
                end
            end
      end
  end.
Proof.
  unfold modifyLeadByLeadId. rewrite try_catch_rethrow. unfold bind at 1.
  destruct (findByLeadId env (id reqBody) w) as [[response|e] w1]; [|reflexivity].
  unfold bind at 1, lift at 1.
  destruct (get_prop response "data") as [data|e]; [|reflexivity].
  destruct (negb (truthy (opt_index0 data))); [reflexivity|].
  unfold bind at 1, lift at 1.
  destruct (index0 data) as [lead|e]; [|reflexivity].
  unfold apply_plan, plan, bind, lift, ret, new_tag.
  destruct (get_prop lead "Tag") as [Tag|e]; [|reflexivity].
  destruct (js_filter _ _) as [l|e]; [|reflexivity].
  destruct (get_prop lead "id") as [leadId|e]; [|reflexivity].
  destruct (updateLeadTag _ _ _ _) as [[v|e] w2]; reflexivity.
Qed.

Lemma for_of_ext {A} (body body' : A -> M unit) (l : list A) w :
  (forall x w, body x w = body' x w) -> for_of l body w = for_of l body' w.
Proof.
  intros Hext. revert w. induction l as [|x l IH]; intros w; cbn [for_of]; [reflexivity|].
  unfold bind. rewrite Hext. destruct (body' x w) as [[[]|e] w1]; [apply IH | reflexivity].
Qed.

Lemma modifyLeadsByPhoneAndTag_run env reqBody w :
  modifyLeadsByPhoneAndTag env reqBody w =
  match findByPhone env (phone reqBody) w with
  | (Err e, w1) => (Err e, w1)
  | (Ok response, w1) =>
      match get_prop response "data" with
      | Err e => (Err e, w1)
      | Ok data =>
          if negb (truthy data) then (Ok 400, w1)
          else
            match iterate data with
            | Err e => (Err e, w1)
            | Ok leads =>
                match for_of leads (apply_plan env reqBody) w1 with
                | (Ok _, w2) => (Ok 200, w2)
                | (Err e, w2) => (Err e, w2)
                end
            end
      end
  end.
Proof.
  unfold modifyLeadsByPhoneAndTag. rewrite try_catch_rethrow. unfold bind at 1.
  destruct (findByPhone env (phone reqBody) w) as [[response|e] w1]; [|reflexivity].
  unfold bind at 1, lift at 1.
  destruct (get_prop response "data") as [data|e]; [|reflexivity].
  destruct (negb (truthy data)); [reflexivity|].
  unfold bind at 1, lift at 1.
  destruct (iterate data) as [leads|e]; [|reflexivity].
  unfold bind at 1.
  rewrite (for_of_ext _ (apply_plan env reqBody)).
  - destruct (for_of leads _ w1) as [[[]|e] w2]; reflexivity.
  - intros lead w0. unfold apply_plan, plan, bind, lift, ret, new_tag.
    destruct (get_prop lead "Tag") as [Tag|e]; [|reflexivity].
    destruct (js_filter _ _) as [l|e]; [|reflexivity].
    destruct (get_prop lead "id") as [leadId|e]; [|reflexivity].
    destruct (updateLeadTag _ _ _ _) as [[v|e] w2]; reflexivity.
Qed.

Lemma index0_opt data lead : index0 data = Ok lead -> opt_index0 data = lead.
Proof.
  unfold opt_index0. intros H. rewrite H.
  destruct data; try reflexivity; discriminate.
Qed.

Lemma apply_plan_writes env reqBody lead w r w' :
  apply_plan env reqBody lead w = (r, w') ->
  exists evs,
    trace w' = trace w ++ evs /\
    (writes evs = [expected reqBody lead] \/ (writes evs = [] /\ exists e, r = Err e)).
Proof.
  unfold apply_plan.
  destruct (plan reqBody lead) as [[leadId tags]|e] eqn:Hplan.
  - apply plan_expected in Hplan. rewrite <- Hplan.
    destruct (updateLeadTag env leadId tags w) as [r0 w0] eqn:Hupdate.
    apply updateLeadTag_writes in Hupdate as (evs & Htrace & Hwrites).
    destruct r0 as [v|e]; intros H; inversion H; subst; exists evs;
      (split; [exact Htrace|]).
    + destruct Hwrites as [Hw|[_ [e He]]]; [left; exact Hw | discriminate].
    + destruct Hwrites as [Hw|[Hw _]]; [left; exact Hw | right; eauto].
  - intros H; inversion H; subst. exists []. rewrite app_nil_r.
    split; [reflexivity|]. right. eauto.
Qed.

Lemma apply_plan_well_formed env reqBody lead w :
  well_formed_lead lead ->
  apply_plan env reqBody lead w =
  match updateLeadTag env (id_of lead)
          (JArr (retag (tagFilter reqBody) (tag reqBody) (tags_of lead))) w with
  | (Ok _, w') => (Ok tt, w')
  | (Err e, w') => (Err e, w')
  end.
Proof.
  intros Hwf. unfold apply_plan. rewrite (plan_well_formed reqBody lead Hwf).
  reflexivity.
Qed.

Lemma for_of_applied env reqBody leads w w' :
  Forall well_formed_lead leads ->
  for_of leads (apply_plan env reqBody) w = (Ok tt, w') <-> applied env reqBody w leads w'.
Proof.
  intros Hwf. revert w. induction Hwf as [|lead leads Hlead _ IH]; intros w.
  - cbn [for_of ret]. split.
    + intros H; inversion H; subst. constructor.
    + intros H; inversion H; subst. reflexivity.
  - cbn [for_of]. unfold bind. rewrite (apply_plan_well_formed _ _ _ _ Hlead). split.
    + destruct (updateLeadTag _ _ _ w) as [[v|e] w1] eqn:Hupdate; [|discriminate].
      intros H. apply IH in H. econstructor; eassumption.
    + intros H; inversion H; subst.
      match goal with Hu : updateLeadTag _ _ _ w = _ |- _ => rewrite Hu end.
      apply IH. assumption.
Qed.

Lemma for_of_failed env reqBody pre lead post w wk e w' :
  Forall well_formed_lead (pre ++ lead :: post) ->
  applied env reqBody w pre wk ->
  updateLeadTag env (id_of lead)
    (JArr (retag (tagFilter reqBody) (tag reqBody) (tags_of lead))) wk = (Err e, w') ->
  for_of (pre ++ lead :: post) (apply_plan env reqBody) w = (Err e, w').
Proof.
  intros Hwf Hpre Hfail. induction Hpre as [w|w x pre v w1 w2 Hx _ IH].
  - cbn [app for_of]. unfold bind. apply Forall_cons_1 in Hwf as [Hlead _].
    rewrite (apply_plan_well_formed _ _ _ _ Hlead), Hfail. reflexivity.
  - cbn [app for_of]. unfold bind. cbn [app] in Hwf.
    apply Forall_cons_1 in Hwf as [Hlead Hrest].
    rewrite (apply_plan_well_formed _ _ _ _ Hlead), Hx. apply IH; assumption.
Qed.

Lemma applied_writes env reqBody w leads w' :
  applied env reqBody w leads w' ->
  exists evs, trace w' = trace w ++ evs /\ writes evs = map (expected reqBody) leads.
Proof.
  induction 1 as [w|w lead leads v w1 w2 Hupdate _ (evs & Htrace & Hwrites)].
  - exists []. rewrite app_nil_r. split; reflexivity.
  - apply updateLeadTag_writes in Hupdate as (evs1 & Htrace1 & [Hw|[_ [e He]]]);
      [|discriminate].
    exists (evs1 ++ evs). rewrite Htrace, Htrace1, app_assoc. split; [reflexivity|].
    rewrite writes_app, Hw, Hwrites. reflexivity.
Qed.

Lemma for_of_writes env reqBody leads w r w' :
  for_of leads (apply_plan env reqBody) w = (r, w') ->
  exists evs m,
    trace w' = trace w ++ evs /\
    writes evs = map (expected reqBody) (take m leads) /\
    (forall u, r = Ok u -> m = length leads).
Proof.
  revert w. induction leads as [|lead leads IH]; intros w; cbn [for_of ret].
  - intros H; inversion H; subst. exists [], 0%nat. rewrite app_nil_r.
    split; [reflexivity|]. split; reflexivity.
  - unfold bind. destruct (apply_plan env reqBody lead w) as [r1 w1] eqn:Hstep.
    apply apply_plan_writes in Hstep as (evs1 & Htrace1 & Hw1).
    destruct r1 as [[]|e].
    + intros H. apply IH in H as (evs & m & Htrace & Hwrites & Hall).
      destruct Hw1 as [Hw1|[_ [e He]]]; [|discriminate].
      exists (evs1 ++ evs), (S m). rewrite Htrace, Htrace1, app_assoc.
      split; [reflexivity|]. split.
      * rewrite writes_app, Hw1, Hwrites. reflexivity.
      * intros u Hu. cbn [length]. f_equal. eauto.
    + intros H; inversion H; subst. exists evs1.
      destruct Hw1 as [Hw1|[Hw1 _]].
      * exists 1%nat. split; [exact Htrace1|]. split; [exact Hw1 | discriminate].
      * exists 0%nat. split; [exact Htrace1|]. split; [exact Hw1 | discriminate].
Qed.

(** ** The workflow by lead id *)

(** C6. When the lookup answers with a [data] that is missing or an empty
    array, the by-id workflow returns 400, raises nothing, and ends in the
    world the lookup left: no update is called and nothing is written. *)
Theorem modifyLeadByLeadId_not_found env reqBody w response w1 data :
  findByLeadId env (id reqBody) w = (Ok response, w1) ->
  get_prop response "data" = Ok data ->
  absent data \/ data = JArr [] ->
  modifyLeadByLeadId env reqBody w = (Ok 400, w1) /\
  exists evs, trace w1 = trace w ++ evs /\ writes evs = [].
Proof.
  intros Hfind Hdata Hempty. split.
  - rewrite modifyLeadByLeadId_run, Hfind, Hdata.
    destruct Hempty as [[->| ->]| ->]; reflexivity.
  - eapply findByLeadId_writes. exact Hfind.
Qed.

Lemma modifyLeadByLeadId_not_found_witness :
  let env := Demo.env 4999 [("7", JNull)] JNull None in
  let reqBody := Demo.request "" "42" "status:contacted" "status:" in
  let found := findByLeadId env (id reqBody) Demo.fresh in
  get_prop (JObj [("data", JArr [])]) "data" = Ok (JArr []) /\
  fst found = Ok (JObj [("data", JArr [])]) /\
  modifyLeadByLeadId env reqBody Demo.fresh = (Ok 400, snd found) /\
  writes (trace (snd found)) = [].
Proof.
  cbv zeta.
  split; [reflexivity|]. split; [reflexivity|].
  destruct (modifyLeadByLeadId_not_found
              (Demo.env 4999 [("7", JNull)] JNull None)
              (Demo.request "" "42" "status:contacted" "status:")
              Demo.fresh
              (JObj [("data", JArr [])])
              (snd (findByLeadId (Demo.env 4999 [("7", JNull)] JNull None) "42" Demo.fresh))
              (JArr []))
    as (Hstatus & evs & Htrace & Hwrites).
  - reflexivity.
  - reflexivity.
  - right. reflexivity.
  - split; [exact Hstatus|].
    transitivity (writes evs); [f_equal; exact Htrace | exact Hwrites].
Defined.

(** C2. For a lead whose [Tag] is a sequence [ts] of named tags, the by-id
    workflow calls the update with [ts] without the tags whose name starts
    with [tagFilter] (every one of them, the others in their order) followed
    by the one tag [{name: tag}], which is appended whatever remains; the
    request that reaches the CRM carries that sequence.  For
    [{name:"status:new"}, {name:"source:web"}], filter ["status:"] and tag
    ["status:contacted"] the sequence is [{name:"source:web"},
    {name:"status:contacted"}]. *)
Theorem modifyLeadByLeadId_filters_and_appends env reqBody w response w1 data lead ts :
  findByLeadId env (id reqBody) w = (Ok response, w1) ->
  get_prop response "data" = Ok data ->
  index0 data = Ok lead ->
  truthy lead = true ->
  get_prop lead "Tag" = Ok (JArr ts) ->
  Forall named ts ->
  let updatedTags :=
    List.filter (fun t => negb (has_prefix (tagFilter reqBody) t)) ts
    ++ [JObj [("name", JStr (tag reqBody))]] in
  modifyLeadByLeadId env reqBody w =
    match updateLeadTag env (id_of lead) (JArr updatedTags) w1 with
    | (Ok _, w2) => (Ok 200, w2)
    | (Err e, w2) => (Err e, w2)
    end /\
  (exists evs,
     trace (snd (modifyLeadByLeadId env reqBody w)) = trace w1 ++ evs /\
     (writes evs = [(id_of lead, JArr updatedTags)] \/
      (writes evs = [] /\ exists e, fst (modifyLeadByLeadId env reqBody w) = Err e))) /\
  (tagFilter reqBody = "status:" -> tag reqBody = "status:contacted" ->
   ts = [JObj [("name", JStr "status:new")]; JObj [("name", JStr "source:web")]] ->
   updatedTags = [JObj [("name", JStr "source:web")];
                  JObj [("name", JStr "status:contacted")]]).
Proof.
  intros Hfind Hdata Hlead Htruthy Htag Hnamed updatedTags.
  assert (Hplan : plan reqBody lead = Ok (id_of lead, JArr updatedTags)).
  { unfold plan, id_of. rewrite Htag. unfold js_or. cbn [truthy js_filter].
    rewrite (filter_array_named _ _ Hnamed).
    destruct lead; try discriminate; reflexivity. }
  assert (Hrun : modifyLeadByLeadId env reqBody w =
    match updateLeadTag env (id_of lead) (JArr updatedTags) w1 with
    | (Ok _, w2) => (Ok 200, w2)
    | (Err e, w2) => (Err e, w2)
    end).
  { rewrite modifyLeadByLeadId_run, Hfind, Hdata, (index0_opt _ _ Hlead), Htruthy, Hlead.
    cbn [negb]. unfold apply_plan. rewrite Hplan.
    destruct (updateLeadTag _ _ _ _) as [[v|e] w2]; reflexivity. }
  split; [exact Hrun|]. split.
  - rewrite Hrun.
    destruct (updateLeadTag env (id_of lead) (JArr updatedTags) w1) as [r w2] eqn:Hupdate.
    apply updateLeadTag_writes in Hupdate as (evs & Htrace & Hwrites).
    exists evs. destruct r as [v|e]; cbn [fst snd]; (split; [exact Htrace|]).
    + destruct Hwrites as [Hw|[_ [e He]]]; [left; exact Hw | discriminate].
    + destruct Hwrites as [Hw|[Hw _]]; [left; exact Hw | right; eauto].
  - intros Hfilter Hnew ->. subst updatedTags. rewrite Hfilter, Hnew. reflexivity.
Qed.

Lemma modifyLeadByLeadId_filters_and_appends_witness :
  let env := Demo.env 4999 [("42", Demo.tagged ["status:new"; "source:web"])] JNull None in
  let reqBody := Demo.request "" "42" "status:contacted" "status:" in
  let found := findByLeadId env "42" Demo.fresh in
  let lead := Demo.lead "42" (Demo.tagged ["status:new"; "source:web"]) in
  (fst found = Ok (JObj [("data", JArr [lead])]) /\
   Forall named [new_tag "status:new"; new_tag "source:web"]) /\
  modifyLeadByLeadId env reqBody Demo.fresh =
    match updateLeadTag env (JStr "42")
            (Demo.tagged ["source:web"; "status:contacted"]) (snd found) with
    | (Ok _, w2) => (Ok 200, w2)
    | (Err e, w2) => (Err e, w2)
    end.
Proof.
  cbv zeta.
  assert (Hnamed : Forall named [new_tag "status:new"; new_tag "source:web"]).
  { repeat constructor; eexists; reflexivity. }
  split; [split; [reflexivity | exact Hnamed]|].
  destruct (modifyLeadByLeadId_filters_and_appends
              (Demo.env 4999 [("42", Demo.tagged ["status:new"; "source:web"])] JNull None)
              (Demo.request "" "42" "status:contacted" "status:")
              Demo.fresh
              (JObj [("data", JArr [Demo.lead "42" (Demo.tagged ["status:new"; "source:web"])])])
              (snd (findByLeadId
                      (Demo.env 4999 [("42", Demo.tagged ["status:new"; "source:web"])]
                         JNull None) "42" Demo.fresh))
              (JArr [Demo.lead "42" (Demo.tagged ["status:new"; "source:web"])])
              (Demo.lead "42" (Demo.tagged ["status:new"; "source:web"]))
              [new_tag "status:new"; new_tag "source:web"])
    as (Hrun & _ & _).
  - reflexivity.
  - reflexivity.
  - reflexivity.
  - reflexivity.
  - reflexivity.
  - exact Hnamed.
  - exact Hrun.
Defined.

(** ** The workflow by phone *)

Lemma falsy_cases data :
  truthy data = false <->
  absent data \/ data = JBool false \/ data = JNum 0 \/ data = JStr "".
Proof.
  unfold absent. split.
  - destruct data as [| |[]|n|[|c s]|l|kvs]; cbn [truthy negb is_empty_string];
      try discriminate; auto.
    destruct (Z.eqb_spec n 0) as [-> |Hn]; cbn [negb]; [auto | discriminate].
  - intros [[-> | ->]|[-> |[-> | ->]]]; reflexivity.
Qed.

(** C9, as it holds.  The by-phone workflow returns 400 exactly when the
    [data] of the search answer is falsy, that is missing, [null], [false],
    [0] or the empty string, and it does so in the world the search left;
    a [data] that is an array, the empty one too, never gives 400, and the
    empty array gives 200 in the world the search left, so that no update is
    called and nothing is written. *)
Theorem modifyLeadsByPhoneAndTag_not_found_iff_falsy env reqBody w response w1 data :
  findByPhone env (phone reqBody) w = (Ok response, w1) ->
  get_prop response "data" = Ok data ->
  ((exists w2, modifyLeadsByPhoneAndTag env reqBody w = (Ok 400, w2)) <->
   absent data \/ data = JBool false \/ data = JNum 0 \/ data = JStr "") /\
  (absent data \/ data = JBool false \/ data = JNum 0 \/ data = JStr "" ->
   modifyLeadsByPhoneAndTag env reqBody w = (Ok 400, w1)) /\
  (forall leads w2,
     data = JArr leads -> modifyLeadsByPhoneAndTag env reqBody w <> (Ok 400, w2)) /\
  (data = JArr [] -> modifyLeadsByPhoneAndTag env reqBody w = (Ok 200, w1)) /\
  exists evs, trace w1 = trace w ++ evs /\ writes evs = [].
Proof.
  intros Hfind Hdata.
  assert (Hfalsy : truthy data = false ->
                   modifyLeadsByPhoneAndTag env reqBody w = (Ok 400, w1)).
  { intros Hf. rewrite modifyLeadsByPhoneAndTag_run, Hfind, Hdata, Hf. reflexivity. }
  assert (Htruthy : truthy data = true ->
                    forall w2, modifyLeadsByPhoneAndTag env reqBody w <> (Ok 400, w2)).
  { intros Ht w2. rewrite modifyLeadsByPhoneAndTag_run, Hfind, Hdata, Ht. cbn [negb].
    destruct (iterate data) as [leads|e]; [|discriminate].
    destruct (for_of leads _ w1) as [[[]|e] w3]; discriminate. }
  split; [|split; [|split; [|split]]].
  - rewrite <- falsy_cases. split.
    + intros [w2 Hrun]. destruct (truthy data) eqn:Ht; [|reflexivity].
      exfalso. exact (Htruthy eq_refl w2 Hrun).
    + intros Hf. exists w1. apply Hfalsy. exact Hf.
  - intros Hcases. apply Hfalsy. apply falsy_cases. exact Hcases.
  - intros leads w2 ->. apply Htruthy. reflexivity.
  - intros ->. rewrite modifyLeadsByPhoneAndTag_run, Hfind, Hdata. reflexivity.
  - eapply findByPhone_writes. exact Hfind.
Qed.

Lemma modifyLeadsByPhoneAndTag_not_found_iff_falsy_witness :
  let reqBody := Demo.request "555" "" "status:contacted" "status:" in
  let nothing := Demo.env 4999 [] (JStr "") None in
  let zero := Demo.env 4999 [] (JObj [("data", JNum 0)]) None in
  let empty := Demo.env 4999 [] (JObj [("data", JArr [])]) None in
  (fst (findByPhone nothing "555" Demo.fresh) = Ok (JStr "") /\
   get_prop (JStr "") "data" = Ok JUndefined /\
   fst (modifyLeadsByPhoneAndTag nothing reqBody Demo.fresh) = Ok 400) /\
  (fst (findByPhone zero "555" Demo.fresh) = Ok (JObj [("data", JNum 0)]) /\
   get_prop (JObj [("data", JNum 0)]) "data" = Ok (JNum 0) /\
   fst (modifyLeadsByPhoneAndTag zero reqBody Demo.fresh) = Ok 400) /\
  (fst (findByPhone empty "555" Demo.fresh) = Ok (JObj [("data", JArr [])]) /\
   modifyLeadsByPhoneAndTag empty reqBody Demo.fresh
     = (Ok 200, snd (findByPhone empty "555" Demo.fresh))).
Proof.
  cbv zeta. split; [|split].
  - split; [reflexivity|]. split; [reflexivity|].
    destruct (modifyLeadsByPhoneAndTag_not_found_iff_falsy
                (Demo.env 4999 [] (JStr "") None)
                (Demo.request "555" "" "status:contacted" "status:")
                Demo.fresh (JStr "")
                (snd (findByPhone (Demo.env 4999 [] (JStr "") None) "555" Demo.fresh))
                JUndefined eq_refl eq_refl)
      as (_ & Hstatus & _).
    rewrite Hstatus; [reflexivity | left; left; reflexivity].
  - split; [reflexivity|]. split; [reflexivity|].
    destruct (modifyLeadsByPhoneAndTag_not_found_iff_falsy
                (Demo.env 4999 [] (JObj [("data", JNum 0)]) None)
                (Demo.request "555" "" "status:contacted" "status:")
                Demo.fresh (JObj [("data", JNum 0)])
                (snd (findByPhone (Demo.env 4999 [] (JObj [("data", JNum 0)]) None)
                        "555" Demo.fresh))
                (JNum 0) eq_refl eq_refl)
      as (_ & Hstatus & _).
    rewrite Hstatus; [reflexivity | right; right; left; reflexivity].
  - split; [reflexivity|].
    destruct (modifyLeadsByPhoneAndTag_not_found_iff_falsy
                (Demo.env 4999 [] (JObj [("data", JArr [])]) None)
                (Demo.request "555" "" "status:contacted" "status:")
                Demo.fresh (JObj [("data", JArr [])])
                (snd (findByPhone (Demo.env 4999 [] (JObj [("data", JArr [])]) None)
                        "555" Demo.fresh))
                (JArr []) eq_refl eq_refl)
      as (_ & _ & _ & Hstatus & _).
    apply Hstatus. reflexivity.
Defined.

(** C9, as stated, fails when [data] is there and falsy: a search that
    answers [{data: 0}] makes the workflow return 400. *)
Lemma not_found_only_when_absent_counterexample :
  ~ not_found_only_when_absent (Demo.env 4999 [] (JObj [("data", JNum 0)]) None)
      (Demo.request "555" "" "status:contacted" "status:") Demo.fresh.
Proof.
  set (env := Demo.env 4999 [] (JObj [("data", JNum 0)]) None).
  set (reqBody := Demo.request "555" "" "status:contacted" "status:").
  intros Hall.
  assert (Hfind : findByPhone env (phone reqBody) Demo.fresh
                  = (Ok (JObj [("data", JNum 0)]),
                     snd (findByPhone env (phone reqBody) Demo.fresh)))
    by (vm_compute; reflexivity).
  assert (Hrun : modifyLeadsByPhoneAndTag env reqBody Demo.fresh
                 = (Ok 400, snd (modifyLeadsByPhoneAndTag env reqBody Demo.fresh)))
    by (vm_compute; reflexivity).
  destruct (Hall _ _ (JNum 0) _ Hfind eq_refl Hrun) as [H|H]; discriminate.
Qed.

(** C5. When the search answers with the leads [leads], the by-phone
    workflow returns a status only when the update of every lead, taken in
    order, has succeeded; the status is then 200 and the requests written
    are those of [leads], one each, in order.  When the updates of the leads
    [pre] have succeeded and the update of the next lead [lead] fails with
    [e], the workflow fails with [e] in the world that update left: what was
    written for [pre] stays written, followed at most by the failed request
    for [lead], and no lead of [post] is reached. *)
Theorem modifyLeadsByPhoneAndTag_batch env reqBody w response w1 leads :
  findByPhone env (phone reqBody) w = (Ok response, w1) ->
  get_prop response "data" = Ok (JArr leads) ->
  Forall well_formed_lead leads ->
  (forall status w2,
     modifyLeadsByPhoneAndTag env reqBody w = (Ok status, w2) <->
     status = 200 /\ applied env reqBody w1 leads w2) /\
  (forall w2,
     applied env reqBody w1 leads w2 ->
     exists evs,
       trace w2 = trace w1 ++ evs /\
       writes evs = map (expected reqBody) leads /\
       length (writes evs) = length leads) /\
  (forall pre lead post wk e w2,
     leads = pre ++ lead :: post ->
     applied env reqBody w1 pre wk ->
     updateLeadTag env (id_of lead)
       (JArr (retag (tagFilter reqBody) (tag reqBody) (tags_of lead))) wk = (Err e, w2) ->
     modifyLeadsByPhoneAndTag env reqBody w = (Err e, w2) /\
     exists evs,
       trace w2 = trace w1 ++ evs /\
       (writes evs = map (expected reqBody) pre \/
        writes evs = map (expected reqBody) (pre ++ [lead]))).
Proof.
  intros Hfind Hdata Hwf.
  assert (Hrun : modifyLeadsByPhoneAndTag env reqBody w =
    match for_of leads (apply_plan env reqBody) w1 with
    | (Ok _, w2) => (Ok 200, w2)
    | (Err e, w2) => (Err e, w2)
    end).
  { rewrite modifyLeadsByPhoneAndTag_run, Hfind, Hdata. reflexivity. }
  split; [|split].
  - intros status w2. rewrite Hrun. split.
    + destruct (for_of leads _ w1) as [[[]|e] w3] eqn:Hloop; [|discriminate].
      intros H; inversion H; subst. split; [reflexivity|].
      apply for_of_applied; assumption.
    + intros [-> Happlied]. apply for_of_applied in Happlied; [|assumption].
      rewrite Happlied. reflexivity.
  - intros w2 Happlied. apply applied_writes in Happlied as (evs & Htrace & Hwrites).
    exists evs. split; [exact Htrace|]. split; [exact Hwrites|].
    rewrite Hwrites. apply length_map.
  - intros pre lead post wk e w2 -> Hpre Hfail. split.
    + rewrite Hrun, (for_of_failed _ _ _ _ _ _ _ _ _ Hwf Hpre Hfail). reflexivity.
    + apply applied_writes in Hpre as (evs & Htrace & Hwrites).
      apply updateLeadTag_writes in Hfail as (evs' & Htrace' & Hw).
      exists (evs ++ evs'). rewrite Htrace', Htrace, app_assoc. split; [reflexivity|].
      rewrite writes_app, Hwrites, map_app. cbn [map].
      destruct Hw as [-> |[-> _]]; [right; reflexivity | left; apply app_nil_r].
Qed.

Lemma modifyLeadsByPhoneAndTag_batch_witness :
  let leads :=
    [Demo.lead "1" JNull; Demo.lead "2" (Demo.tagged ["a:x"; "b"]);
     Demo.lead "3" JUndefined] in
  let env := Demo.env 4999 [] (JObj [("data", JArr leads)]) (Some 1%nat) in
  let reqBody := Demo.request "555" "" "a:y" "a:" in
  (fst (findByPhone env "555" Demo.fresh) = Ok (JObj [("data", JArr leads)]) /\
   Forall well_formed_lead leads) /\
  fst (modifyLeadsByPhoneAndTag env reqBody Demo.fresh)
    = Err (Rejected "Request failed with status code 500") /\
  writes (trace (snd (modifyLeadsByPhoneAndTag env reqBody Demo.fresh)))
    = [(JStr "1", Demo.tagged ["a:y"]); (JStr "2", Demo.tagged ["b"; "a:y"])].
Proof.
  cbv zeta.
  assert (Hwf : Forall well_formed_lead
    [Demo.lead "1" JNull; Demo.lead "2" (Demo.tagged ["a:x"; "b"]);
     Demo.lead "3" JUndefined]).
  { repeat constructor; eexists; (split; [reflexivity|]); cbn.
    - left. right. reflexivity.
    - right. eexists. split; [reflexivity|]. repeat constructor; eexists; reflexivity.
    - left. left. reflexivity. }
  split; [split; [reflexivity | exact Hwf]|].
  set (leads := [Demo.lead "1" JNull; Demo.lead "2" (Demo.tagged ["a:x"; "b"]);
                 Demo.lead "3" JUndefined]) in *.
  set (env := Demo.env 4999 [] (JObj [("data", JArr leads)]) (Some 1%nat)).
  set (reqBody := Demo.request "555" "" "a:y" "a:").
  destruct (modifyLeadsByPhoneAndTag_batch env reqBody Demo.fresh
              (JObj [("data", JArr leads)])
              (snd (findByPhone env "555" Demo.fresh)) leads)
    as (_ & _ & Hfail); [reflexivity | reflexivity | exact Hwf |].
  edestruct (Hfail [Demo.lead "1" JNull] (Demo.lead "2" (Demo.tagged ["a:x"; "b"]))
               [Demo.lead "3" JUndefined]) as (Hrun & _).
  - reflexivity.
  - eapply applied_cons; [reflexivity | apply applied_nil].
  - reflexivity.
  - rewrite Hrun. split; reflexivity.
Defined.

Lemma lookup_map_take {A B} (f : A -> B) (l : list A) (m i : nat) (y : B) :
  map f (take m l) !! i = Some y -> exists x, l !! i = Some x /\ y = f x.
Proof.
  revert m i. induction l as [|x l IH]; intros [|m] [|i]; cbn; try discriminate.
  - intros H; inversion H; subst. eauto.
  - apply IH.
Qed.

Lemma lookup_map_Some {A B} (f : A -> B) (l : list A) (i : nat) (x : A) :
  l !! i = Some x -> map f l !! i = Some (f x).
Proof.
  revert i. induction l as [|x' l IH]; intros [|i]; cbn; try discriminate.
  - intros H; inversion H; subst. reflexivity.
  - apply IH.
Qed.

Lemma expected_absent reqBody lead Tag :
  get_prop lead "Tag" = Ok Tag -> absent Tag ->
  expected reqBody lead = (id_of lead, JArr [JObj [("name", JStr (tag reqBody))]]).
Proof.
  intros Htag Ha. unfold expected, tags_of. rewrite Htag.
  destruct Ha as [->| ->]; reflexivity.
Qed.

(** C10. A lead whose [Tag] is missing or [null] has the empty tag sequence
    in both workflows: the by-id workflow calls the update with the
    one-element sequence [{name: tag}], and in the by-phone workflow the
    request written for such a lead carries that sequence, and is written
    whenever the workflow returns a status. *)
Theorem absent_Tag_writes_only_the_new_tag env reqBody w response w1 :
  (forall data lead Tag,
     findByLeadId env (id reqBody) w = (Ok response, w1) ->
     get_prop response "data" = Ok data ->
     index0 data = Ok lead ->
     truthy lead = true ->
     get_prop lead "Tag" = Ok Tag ->
     absent Tag ->
     modifyLeadByLeadId env reqBody w =
       match updateLeadTag env (id_of lead)
               (JArr [JObj [("name", JStr (tag reqBody))]]) w1 with
       | (Ok _, w2) => (Ok 200, w2)
       | (Err e, w2) => (Err e, w2)
       end) /\
  (forall leads,
     findByPhone env (phone reqBody) w = (Ok response, w1) ->
     get_prop response "data" = Ok (JArr leads) ->
     exists evs,
       trace (snd (modifyLeadsByPhoneAndTag env reqBody w)) = trace w1 ++ evs /\
       forall i lead Tag,
         leads !! i = Some lead ->
         get_prop lead "Tag" = Ok Tag ->
         absent Tag ->
         let entry := (id_of lead, JArr [JObj [("name", JStr (tag reqBody))]]) in
         (forall entry', writes evs !! i = Some entry' -> entry' = entry) /\
         (forall status,
            fst (modifyLeadsByPhoneAndTag env reqBody w) = Ok status ->
            writes evs !! i = Some entry)).
Proof.
  split.
  - intros data lead Tag Hfind Hdata Hlead Htruthy Htag Ha.
    rewrite modifyLeadByLeadId_run, Hfind, Hdata, (index0_opt _ _ Hlead), Htruthy, Hlead.
    cbn [negb]. unfold apply_plan.
    assert (Hplan : plan reqBody lead
                    = Ok (id_of lead, JArr [JObj [("name", JStr (tag reqBody))]])).
    { unfold plan, id_of. rewrite Htag.
      destruct Ha as [->| ->]; cbn; destruct lead; try discriminate; reflexivity. }
    rewrite Hplan. destruct (updateLeadTag _ _ _ _) as [[v|e] w2]; reflexivity.
  - intros leads Hfind Hdata.
    rewrite modifyLeadsByPhoneAndTag_run, Hfind, Hdata. cbn [truthy negb iterate].
    destruct (for_of leads (apply_plan env reqBody) w1) as [r w2] eqn:Hloop.
    apply for_of_writes in Hloop as (evs & m & Htrace & Hwrites & Hall).
    exists evs. split; [destruct r as [[]|e]; exact Htrace|].
    intros i lead Tag Hi Htag Ha. cbv zeta. split.
    + intros entry' Hentry. rewrite Hwrites in Hentry.
      apply lookup_map_take in Hentry as (x & Hx & ->).
      rewrite Hi in Hx. inversion Hx; subst.
      apply (expected_absent _ _ _ Htag Ha).
    + intros status Hstatus. destruct r as [[]|e]; [|discriminate].
      rewrite Hwrites, (Hall tt eq_refl), firstn_all.
      rewrite (lookup_map_Some _ _ _ _ Hi).
      f_equal. apply (expected_absent _ _ _ Htag Ha).
Qed.

Lemma absent_Tag_writes_only_the_new_tag_witness :
  let reqBody := Demo.request "555" "42" "vip" "status:" in
  let by_id := Demo.env 4999 [("42", JNull)] JNull None in
  let leads := [Demo.lead "1" (Demo.tagged ["status:new"]); JObj [("id", JStr "2")]] in
  let by_phone := Demo.env 4999 [] (JObj [("data", JArr leads)]) None in
  (fst (findByLeadId by_id "42" Demo.fresh)
     = Ok (JObj [("data", JArr [Demo.lead "42" JNull])]) /\
   writes (trace (snd (modifyLeadByLeadId by_id reqBody Demo.fresh)))
     = [(JStr "42", JArr [JObj [("name", JStr "vip")]])]) /\
  (fst (findByPhone by_phone "555" Demo.fresh) = Ok (JObj [("data", JArr leads)]) /\
   get_prop (JObj [("id", JStr "2")]) "Tag" = Ok JUndefined /\
   writes (trace (snd (modifyLeadsByPhoneAndTag by_phone reqBody Demo.fresh))) !! 1%nat
     = Some (JStr "2", JArr [JObj [("name", JStr "vip")]])).
Proof.
  cbv zeta. split.
  - split; [reflexivity|].
    destruct (absent_Tag_writes_only_the_new_tag
                (Demo.env 4999 [("42", JNull)] JNull None)
                (Demo.request "555" "42" "vip" "status:") Demo.fresh
                (JObj [("data", JArr [Demo.lead "42" JNull])])
                (snd (findByLeadId (Demo.env 4999 [("42", JNull)] JNull None)
                        "42" Demo.fresh)))
      as [Hid _].
    rewrite (Hid (JArr [Demo.lead "42" JNull]) (Demo.lead "42" JNull) JNull);
      [reflexivity | reflexivity | reflexivity | reflexivity | reflexivity
      | reflexivity | right; reflexivity].
  - split; [reflexivity|]. split; [reflexivity|].
    set (leads := [Demo.lead "1" (Demo.tagged ["status:new"]); JObj [("id", JStr "2")]]).
    set (env := Demo.env 4999 [] (JObj [("data", JArr leads)]) None).
    destruct (absent_Tag_writes_only_the_new_tag env
                (Demo.request "555" "42" "vip" "status:") Demo.fresh
                (JObj [("data", JArr leads)])
                (snd (findByPhone env "555" Demo.fresh)))
      as [_ Hphone].
    destruct (Hphone leads) as (evs & Htrace & Hlead); [reflexivity | reflexivity |].
    destruct (Hlead 1%nat (JObj [("id", JStr "2")]) JUndefined) as [_ Hwritten];
      [reflexivity | reflexivity | left; reflexivity |].
    specialize (Hwritten 200 eq_refl).
    rewrite Htrace, writes_app.
    change (writes (trace (snd (findByPhone env "555" Demo.fresh)))) with (@nil (JSON * JSON)).
    exact Hwritten.
Defined.

(** ** Running the by-id workflow twice *)

Lemma js_filter_kept tagFilter v l :
  js_filter v (keep_tag tagFilter) = Ok l ->
  exists ts, v = JArr ts /\ l = List.filter (fun t => negb (has_prefix tagFilter t)) ts.
Proof.
  destruct v; try discriminate. cbn [js_filter]. intros H.
  apply filter_array_keep in H as [_ ->]. eauto.
Qed.

Lemma modifyLeadByLeadId_ok env reqBody w w' :
  modifyLeadByLeadId env reqBody w = (Ok 200, w') ->
  exists Tag l,
    fetched_tags env reqBody w = Some Tag /\
    js_filter (js_or Tag (JArr [])) (keep_tag (tagFilter reqBody)) = Ok l /\
    last_written (trace w') = Some (JArr (l ++ [new_tag (tag reqBody)])).
Proof.
  rewrite modifyLeadByLeadId_run. unfold fetched_tags.
  destruct (findByLeadId env (id reqBody) w) as [[response|e] w1]; [|discriminate].
  destruct (get_prop response "data") as [data|e]; [|discriminate].
  destruct (negb (truthy (opt_index0 data))); [discriminate|].
  destruct (index0 data) as [lead|e]; [|discriminate].
  unfold apply_plan, plan.
  destruct (get_prop lead "Tag") as [Tag|e]; [|discriminate].
  destruct (js_filter _ _) as [l|e] eqn:Hl; [|discriminate].
  destruct (get_prop lead "id") as [leadId|e]; [|discriminate].
  destruct (updateLeadTag _ _ _ _) as [[v|e] w2] eqn:Hupdate; [|discriminate].
  intros H; inversion H; subst.
  apply updateLeadTag_writes in Hupdate as (evs & Htrace & [Hw|[_ [e He]]]);
    [|discriminate].
  exists Tag, l. split; [reflexivity|]. split; [exact Hl|].
  unfold last_written. rewrite Htrace, writes_app, Hw, last_snoc. reflexivity.
Qed.

Lemma filter_kept {A} (P : A -> bool) (l : list A) :
  List.filter P (List.filter P l) = List.filter P l.
Proof.
  induction l as [|x l IH]; cbn [List.filter]; [reflexivity|].
  destruct (P x) eqn:Hx; [|exact IH]. cbn [List.filter]. rewrite Hx, IH. reflexivity.
Qed.

Lemma has_prefix_new_tag tagFilter tag :
  has_prefix tagFilter (new_tag tag) = startsWith tag tagFilter.
Proof. reflexivity. Qed.

Lemma is_named_new_tag tag : is_named tag (new_tag tag) = true.
Proof. unfold is_named, new_tag, name_of. cbn. apply String.eqb_refl. Qed.

Lemma is_named_has_prefix tagFilter tag t :
  is_named tag t = true -> has_prefix tagFilter t = startsWith tag tagFilter.
Proof.
  unfold is_named, has_prefix. destruct (name_of t) as [s|]; [|discriminate].
  intros H. apply String.eqb_eq in H. subst. reflexivity.
Qed.

Lemma count_named_app s l1 l2 :
  count_named s (l1 ++ l2) = (count_named s l1 + count_named s l2)%nat.
Proof. unfold count_named. rewrite List.filter_app, length_app. reflexivity. Qed.

Lemma count_named_kept tagFilter tag ts :
  startsWith tag tagFilter = true ->
  count_named tag (List.filter (fun t => negb (has_prefix tagFilter t)) ts) = 0%nat.
Proof.
  intros Hprefix. unfold count_named. induction ts as [|t ts IH]; [reflexivity|].
  cbn [List.filter]. destruct (has_prefix tagFilter t) eqn:Ht; cbn [negb]; [exact IH|].
  cbn [List.filter]. destruct (is_named tag t) eqn:Hn; [|exact IH].
  apply (is_named_has_prefix tagFilter) in Hn. congruence.
Qed.

Lemma kept_no_prefix tagFilter ts t :
  In t (List.filter (fun t => negb (has_prefix tagFilter t)) ts) ->
  has_prefix tagFilter t = false.
Proof.
  intros H. apply List.filter_In in H as [_ H]. apply negb_true_iff in H. exact H.
Qed.

Lemma name_of_new_tag tag : name_of (new_tag tag) = Some tag.
Proof. reflexivity. Qed.

(** C3, as it holds.  When the by-id workflow runs twice and the second run
    fetches the tags the first one wrote, no tag written by the second run
    starts with [tagFilter] unless it is named [tag]; exactly one of them is
    named [tag] when [tag] starts with [tagFilter], and at least two are
    when it does not. *)
Theorem modifyLeadByLeadId_twice env reqBody w w1 w2 :
  modifyLeadByLeadId env reqBody w = (Ok 200, w1) ->
  fetched_tags env reqBody w1 = last_written (trace w1) ->
  modifyLeadByLeadId env reqBody w1 = (Ok 200, w2) ->
  exists ts,
    last_written (trace w2) = Some (JArr ts) /\
    (forall t, In t ts -> has_prefix (tagFilter reqBody) t = true ->
               name_of t = Some (tag reqBody)) /\
    (startsWith (tag reqBody) (tagFilter reqBody) = true ->
     count_named (tag reqBody) ts = 1%nat) /\
    (startsWith (tag reqBody) (tagFilter reqBody) = false ->
     (2 <= count_named (tag reqBody) ts)%nat).
Proof.
  intros Hfirst Hfetch Hsecond.
  apply modifyLeadByLeadId_ok in Hfirst as (Tag0 & l1 & _ & Hl1 & Hlast1).
  apply modifyLeadByLeadId_ok in Hsecond as (Tag1 & l2 & Hfetched & Hl2 & Hlast2).
  rewrite Hfetch, Hlast1 in Hfetched. inversion Hfetched; subst Tag1. clear Hfetched.
  apply js_filter_kept in Hl1 as (ts0 & _ & ->).
  unfold js_or in Hl2. cbn [truthy] in Hl2.
  apply js_filter_kept in Hl2 as (ts1 & Hts1 & ->). inversion Hts1; subst ts1. clear Hts1.
  set (kept := List.filter (fun t => negb (has_prefix (tagFilter reqBody) t)) ts0) in *.
  exists (List.filter (fun t => negb (has_prefix (tagFilter reqBody) t))
            (kept ++ [new_tag (tag reqBody)]) ++ [new_tag (tag reqBody)]).
  split; [exact Hlast2|].
  rewrite List.filter_app. subst kept. rewrite filter_kept.
  cbn [List.filter]. rewrite has_prefix_new_tag.
  destruct (startsWith (tag reqBody) (tagFilter reqBody)) eqn:Hprefix; cbn [negb].
  - rewrite app_nil_r. split; [|split; [|discriminate]].
    + intros t Hin Ht. apply in_app_or in Hin as [Hin|[<-|[]]].
      * apply kept_no_prefix in Hin. congruence.
      * apply name_of_new_tag.
    + intros _. rewrite count_named_app, (count_named_kept _ _ _ Hprefix).
      unfold count_named. cbn [List.filter]. rewrite is_named_new_tag. reflexivity.
  - split; [|split; [discriminate|]].
    + intros t Hin Ht. exfalso.
      apply in_app_or in Hin as [Hin|[<-|[]]];
        [apply in_app_or in Hin as [Hin|[<-|[]]]|].
      * apply kept_no_prefix in Hin. congruence.
      * rewrite has_prefix_new_tag in Ht. congruence.
      * rewrite has_prefix_new_tag in Ht. congruence.
    + intros _. rewrite !count_named_app.
      unfold count_named at 2 3. cbn [List.filter]. rewrite is_named_new_tag.
      cbn [length]. lia.
Qed.

Lemma modifyLeadByLeadId_twice_witness :
  let env := Demo.env 4999 [("42", Demo.tagged ["status:new"; "source:web"])] JNull None in
  let reqBody := Demo.request "" "42" "status:contacted" "status:" in
  let w1 := snd (modifyLeadByLeadId env reqBody Demo.fresh) in
  let w2 := snd (modifyLeadByLeadId env reqBody w1) in
  (modifyLeadByLeadId env reqBody Demo.fresh = (Ok 200, w1) /\
   fetched_tags env reqBody w1 = last_written (trace w1) /\
   modifyLeadByLeadId env reqBody w1 = (Ok 200, w2)) /\
  exists ts,
    last_written (trace w2) = Some (JArr ts) /\
    count_named "status:contacted" ts = 1%nat.
Proof.
  cbv zeta.
  set (env := Demo.env 4999 [("42", Demo.tagged ["status:new"; "source:web"])] JNull None).
  set (reqBody := Demo.request "" "42" "status:contacted" "status:").
  set (w1 := snd (modifyLeadByLeadId env reqBody Demo.fresh)).
  set (w2 := snd (modifyLeadByLeadId env reqBody w1)).
  assert (Hfirst : modifyLeadByLeadId env reqBody Demo.fresh = (Ok 200, w1))
    by (vm_compute; reflexivity).
  assert (Hfetch : fetched_tags env reqBody w1 = last_written (trace w1))
    by (vm_compute; reflexivity).
  assert (Hsecond : modifyLeadByLeadId env reqBody w1 = (Ok 200, w2))
    by (vm_compute; reflexivity).
  split; [split; [exact Hfirst | split; [exact Hfetch | exact Hsecond]]|].
  destruct (modifyLeadByLeadId_twice env reqBody Demo.fresh w1 w2 Hfirst Hfetch Hsecond)
    as (ts & Hlast & _ & Hone & _).
  exists ts. split; [exact Hlast|]. apply Hone. reflexivity.
Defined.

(** C3, as stated, fails for a tag that does not start with the filter: a
    lead without tags, retagged twice with ["vip"] under the filter
    ["status:"], ends with two tags named ["vip"]. *)
Lemma twice_leaves_one_counterexample :
  ~ twice_leaves_one (Demo.env 4999 [("42", JArr [])] JNull None)
      (Demo.request "" "42" "vip" "status:") Demo.fresh.
Proof.
  set (env := Demo.env 4999 [("42", JArr [])] JNull None).
  set (reqBody := Demo.request "" "42" "vip" "status:").
  intros Hall.
  set (w1 := snd (modifyLeadByLeadId env reqBody Demo.fresh)).
  set (w2 := snd (modifyLeadByLeadId env reqBody w1)).
  assert (Hfirst : modifyLeadByLeadId env reqBody Demo.fresh = (Ok 200, w1))
    by (vm_compute; reflexivity).
  assert (Hfetch : fetched_tags env reqBody w1 = last_written (trace w1))
    by (vm_compute; reflexivity).
  assert (Hsecond : modifyLeadByLeadId env reqBody w1 = (Ok 200, w2))
    by (vm_compute; reflexivity).
  destruct (Hall w1 w2 Hfirst Hfetch Hsecond) as (ts & Hlast & Hcount & _).
  assert (Hts : last_written (trace w2) = Some (JArr [new_tag "vip"; new_tag "vip"]))
    by (vm_compute; reflexivity).
  rewrite Hts in Hlast. inversion Hlast; subst ts.
  vm_compute in Hcount. discriminate.
Qed.

(** ** More on the request description and the token lifecycle *)

(** X1. In the request [generateApiRequestConfig] builds, every header the
    caller gives survives, so a caller's [Authorization] replaces the token;
    [Content-Type] and [Authorization] get their defaults when the caller
    does not give them; the base URL is the fixed one whatever the caller
    asks; method, URL, parameters and body are the caller's. *)
Theorem generateApiRequestConfig_merges options token :
  let config := generateApiRequestConfig options token in
  let given := default ∅ (headers options) in
  (forall k v, given !! k = Some v -> default ∅ (headers config) !! k = Some v) /\
  (given !! "Authorization" = None ->
   default ∅ (headers config) !! "Authorization"
     = Some ("Zoho-oauthtoken " ++ default "undefined" token)%string) /\
  (given !! "Content-Type" = None ->
   default ∅ (headers config) !! "Content-Type" = Some "application/json") /\
  (forall k, k <> "Authorization" -> k <> "Content-Type" ->
             default ∅ (headers config) !! k = given !! k) /\
  baseURL config = Some apiUrl /\
  method config = method options /\ url config = url options /\
  params config = params options /\ data config = data options.
Proof.
  cbv zeta. unfold generateApiRequestConfig. cbn [headers baseURL method url params data].
  change (default ∅ (Some ?m)) with m.
  split; [|split; [|split; [|split]]].
  - intros k v Hk. apply lookup_union_Some_l. exact Hk.
  - intros Hno. rewrite lookup_union_r by exact Hno. reflexivity.
  - intros Hno. rewrite lookup_union_r by exact Hno. reflexivity.
  - intros k Hauth Htype. rewrite lookup_union.
    rewrite lookup_insert_ne by congruence.
    rewrite lookup_singleton_ne by congruence.
    destruct (default ∅ (headers options) !! k); reflexivity.
  - repeat split; reflexivity.
Qed.

Lemma generateApiRequestConfig_merges_witness :
  let options :=
    {| method := Some "GET"; url := None; params := None; data := None;
       baseURL := Some "https://example.org";
       headers := Some {[ "Authorization" := "Bearer mine" ]} |} in
  let config := generateApiRequestConfig options (Some "1000.at") in
  default ∅ (headers options) !! "Authorization" = Some "Bearer mine" /\
  default ∅ (headers config) !! "Authorization" = Some "Bearer mine" /\
  default ∅ (headers config) !! "Content-Type" = Some "application/json" /\
  baseURL config = Some apiUrl.
Proof.
  cbv zeta.
  destruct (generateApiRequestConfig_merges
              {| method := Some "GET"; url := None; params := None; data := None;
                 baseURL := Some "https://example.org";
                 headers := Some {[ "Authorization" := "Bearer mine" ]} |}
              (Some "1000.at"))
    as (Hgiven & _ & Htype & _ & Hbase & _).
  split; [reflexivity|]. split; [apply Hgiven; reflexivity|].
  split; [apply Htype; reflexivity | exact Hbase].
Defined.

(** X2. When the token endpoint rejects the form, either exchange rethrows
    that error and stops: the form post is the only call made, no update is
    sent to the store and the record is as it was. *)
Theorem exchange_rejected env dbData w e :
  (axios_postForm env (trace w) tokenUrl (getAccessToken_payload dbData) = Err e ->
   getAccessToken env dbData w =
     (Err e, {| db := db w;
                trace := trace w ++ [EvPostForm tokenUrl (getAccessToken_payload dbData)] |})) /\
  (axios_postForm env (trace w) tokenUrl (refreshAccessToken_payload dbData) = Err e ->
   refreshAccessToken env dbData w =
     (Err e, {| db := db w;
                trace := trace w
                         ++ [EvPostForm tokenUrl (refreshAccessToken_payload dbData)] |})).
Proof.
  split; intros Hpost.
  - rewrite getAccessToken_run. cbv zeta. rewrite Hpost. reflexivity.
  - rewrite refreshAccessToken_run. cbv zeta. rewrite Hpost. reflexivity.
Qed.

Lemma exchange_rejected_witness :
  let env := Faults.env 6000 None None (Err Faults.invalid_code) (Ok JNull) in
  let w := Demo.fresh in
  axios_postForm env (trace w) tokenUrl (getAccessToken_payload (db w))
    = Err Faults.invalid_code /\
  fst (getAccessToken env (db w) w) = Err Faults.invalid_code /\
  db (snd (getAccessToken env (db w) w)) = db w /\
  fst (refreshAccessToken env (db w) w) = Err Faults.invalid_code /\
  db (snd (refreshAccessToken env (db w) w)) = db w.
Proof.
  cbv zeta.
  destruct (exchange_rejected
              (Faults.env 6000 None None (Err Faults.invalid_code) (Ok JNull))
              (db Demo.fresh) Demo.fresh Faults.invalid_code) as [Hcode Hrefresh].
  rewrite (Hcode eq_refl), (Hrefresh eq_refl). repeat split; reflexivity.
Defined.

(** X3. When the token endpoint answers but the store refuses the update,
    either exchange rethrows the store's error and the record is as it was,
    the new token being lost. *)
Theorem exchange_not_stored env dbData w response e :
  (axios_postForm env (trace w) tokenUrl (getAccessToken_payload dbData) = Ok response ->
   let posted := trace w ++ [EvPostForm tokenUrl (getAccessToken_payload dbData)] in
   let updates := code_updates (Date_now env posted) response in
   dbRef_update env posted updates = Some e ->
   getAccessToken env dbData w =
     (Err e, {| db := db w; trace := posted ++ [EvUpdate updates] |})) /\
  (axios_postForm env (trace w) tokenUrl (refreshAccessToken_payload dbData) = Ok response ->
   let posted := trace w ++ [EvPostForm tokenUrl (refreshAccessToken_payload dbData)] in
   let updates := refresh_updates (Date_now env posted) response in
   dbRef_update env posted updates = Some e ->
   refreshAccessToken env dbData w =
     (Err e, {| db := db w; trace := posted ++ [EvUpdate updates] |})).
Proof.
  split; intros Hpost posted updates Hupdate.
  - rewrite getAccessToken_run. cbv zeta. rewrite Hpost.
    fold posted. fold updates. rewrite Hupdate. reflexivity.
  - rewrite refreshAccessToken_run. cbv zeta. rewrite Hpost.
    fold posted. fold updates. rewrite Hupdate. reflexivity.
Qed.

Lemma exchange_not_stored_witness :
  let env := Faults.env 6000 None (Some Faults.denied) (Ok Demo.token_response) (Ok JNull) in
  let w := Demo.fresh in
  (axios_postForm env (trace w) tokenUrl (refreshAccessToken_payload (db w))
     = Ok Demo.token_response /\
   dbRef_update env [] no_updates = Some Faults.denied) /\
  fst (refreshAccessToken env (db w) w) = Err Faults.denied /\
  ACCESS_TOKEN (db (snd (refreshAccessToken env (db w) w))) = Some "1000.old" /\
  fst (getAccessToken env (db w) w) = Err Faults.denied.
Proof.
  cbv zeta.
  destruct (exchange_not_stored
              (Faults.env 6000 None (Some Faults.denied) (Ok Demo.token_response) (Ok JNull))
              (db Demo.fresh) Demo.fresh Demo.token_response Faults.denied)
    as [Hcode Hrefresh].
  rewrite (Hcode eq_refl eq_refl), (Hrefresh eq_refl eq_refl).
  repeat split; reflexivity.
Defined.

Lemma makeApiRequest_exchanging env options w :
  dbRef_once env (trace w) = None ->
  negb (truthy_str (ACCESS_TOKEN (db w)))
    || expired (Date_now env (trace w ++ [EvOnce])) (EXPIRY_TIME (db w)) = true ->
  let payload :=
    if truthy_str (REFRESH_TOKEN (db w))
    then refreshAccessToken_payload (db w) else getAccessToken_payload (db w) in
  exists rest,
    trace (snd (makeApiRequest env options w)) =
      trace w ++ EvOnce :: EvPostForm tokenUrl payload :: rest /\
    exchanges rest = [].
Proof.
  intros Hread Hstale. cbv zeta.
  rewrite makeApiRequest_run, Hread. cbv zeta. clear Hread.
  unfold ensure_token. cbn [after trace db]. rewrite Hstale.
  destruct (truthy_str (REFRESH_TOKEN (db w))); cbn [negb].
  - rewrite refreshAccessToken_run. cbv zeta. cbn [trace db].
    destruct (axios_postForm _ _ _ _) as [response|e];
      [destruct (dbRef_update _ _ _) as [e|];
         [|cbn [trace db]; destruct (dbRef_once env _) as [e|]]|];
      eexists; cbn [snd trace after db]; rewrite <- ?app_assoc;
      split; reflexivity.
  - rewrite getAccessToken_run. cbv zeta. cbn [trace db].
    destruct (axios_postForm _ _ _ _) as [response|e];
      [destruct (dbRef_update _ _ _) as [e|];
         [|cbn [trace db]; destruct (dbRef_once env _) as [e|]]|];
      eexists; cbn [snd trace after db]; rewrite <- ?app_assoc;
      split; reflexivity.
Qed.

(** X4. A record whose [ACCESS_TOKEN] is missing or empty makes
    [makeApiRequest] post exactly one form to the token endpoint, whatever
    [EXPIRY_TIME] says: the refresh form when the record holds a non-empty
    [REFRESH_TOKEN], the authorization-code form otherwise. *)
Theorem makeApiRequest_missing_token_exchanges env options w :
  dbRef_once env (trace w) = None ->
  ACCESS_TOKEN (db w) = None \/ ACCESS_TOKEN (db w) = Some "" ->
  let payload :=
    if truthy_str (REFRESH_TOKEN (db w))
    then refreshAccessToken_payload (db w) else getAccessToken_payload (db w) in
  exists rest,
    trace (snd (makeApiRequest env options w)) =
      trace w ++ EvOnce :: EvPostForm tokenUrl payload :: rest /\
    exchanges (EvOnce :: EvPostForm tokenUrl payload :: rest) = [payload].
Proof.
  intros Hread Hmissing. cbv zeta.
  destruct (makeApiRequest_exchanging env options w Hread) as (rest & Htrace & Hrest).
  - destruct Hmissing as [-> | ->]; reflexivity.
  - exists rest. split; [exact Htrace|]. cbn. unfold exchanges in Hrest.
    rewrite Hrest. reflexivity.
Qed.

Lemma makeApiRequest_missing_token_exchanges_witness :
  let env := Demo.env 1000 [] JNull None in
  let options :=
    {| method := Some "GET"; url := None; params := None; data := None;
       baseURL := None; headers := None |} in
  let w := Demo.world None None (Some 9999999) in
  (dbRef_once env (trace w) = None /\ ACCESS_TOKEN (db w) = None /\
   Date_now env (trace w ++ [EvOnce]) < default 0 (EXPIRY_TIME (db w))) /\
  exchanges (trace (snd (makeApiRequest env options w))) = [getAccessToken_payload (db w)].
Proof.
  cbv zeta. split; [repeat split; reflexivity|].
  destruct (makeApiRequest_missing_token_exchanges
              (Demo.env 1000 [] JNull None)
              {| method := Some "GET"; url := None; params := None; data := None;
                 baseURL := None; headers := None |}
              (Demo.world None None (Some 9999999)))
    as (rest & Htrace & Hone); [reflexivity | left; reflexivity |].
  rewrite Htrace. exact Hone.
Defined.

(** X5. When the token is missing or stale and the exchange and both reads
    of the store go through, the one request [makeApiRequest] sends carries
    the token the endpoint has just answered, the store holds that token
    with its new expiry, and what the call returns is what the CRM answers
    to that request. *)
Theorem makeApiRequest_sends_new_token env options w response :
  dbRef_once env (trace w) = None ->
  (truthy_str (ACCESS_TOKEN (db w)) = false \/
   default 0 (EXPIRY_TIME (db w)) <= Date_now env (trace w ++ [EvOnce])) ->
  let refreshing := truthy_str (REFRESH_TOKEN (db w)) in
  let payload :=
    if refreshing
    then refreshAccessToken_payload (db w) else getAccessToken_payload (db w) in
  let posted := trace w ++ [EvOnce; EvPostForm tokenUrl payload] in
  let updates :=
    if refreshing
    then refresh_updates (Date_now env posted) response
    else code_updates (Date_now env posted) response in
  axios_postForm env (trace w ++ [EvOnce]) tokenUrl payload = Ok response ->
  dbRef_update env posted updates = None ->
  dbRef_once env (posted ++ [EvUpdate updates]) = None ->
  let config := generateApiRequestConfig options (Some (access_token response)) in
  makeApiRequest env options w =
    (axios env (posted ++ [EvUpdate updates; EvOnce]) config,
     {| db := merge_record updates (db w);
        trace := posted ++ [EvUpdate updates; EvOnce; EvAxios config] |}) /\
  ACCESS_TOKEN (merge_record updates (db w)) = Some (access_token response) /\
  EXPIRY_TIME (merge_record updates (db w))
    = Some (Date_now env posted + expires_in response * 1000).
Proof.
  intros Hread Hstale. cbv zeta.
  assert (Hcond : negb (truthy_str (ACCESS_TOKEN (db w)))
            || expired (Date_now env (trace w ++ [EvOnce])) (EXPIRY_TIME (db w)) = true).
  { destruct Hstale as [-> | Hexp]; [reflexivity|].
    apply expired_spec in Hexp. rewrite Hexp. apply orb_true_r. }
  rewrite makeApiRequest_run, Hread. cbv zeta.
  unfold ensure_token. cbn [after trace db]. rewrite Hcond.
  destruct (truthy_str (REFRESH_TOKEN (db w))); cbn [negb]; cbv iota;
    intros Hpost Hupdate Hreread;
    rewrite <- !app_assoc in Hreread; cbn [app] in Hreread.
  - rewrite refreshAccessToken_run. cbv zeta. unfold after. cbn [trace db].
    rewrite Hpost. rewrite <- ?app_assoc; cbn [app]; rewrite Hupdate. cbn [trace db].
    rewrite <- ?app_assoc; cbn [app]. rewrite Hreread.
    unfold after. cbn [trace db]. rewrite <- ?app_assoc; cbn [app].
    repeat split; reflexivity.
  - rewrite getAccessToken_run. cbv zeta. unfold after. cbn [trace db].
    rewrite Hpost. rewrite <- ?app_assoc; cbn [app]; rewrite Hupdate. cbn [trace db].
    rewrite <- ?app_assoc; cbn [app]. rewrite Hreread.
    unfold after. cbn [trace db]. rewrite <- ?app_assoc; cbn [app].
    repeat split; reflexivity.
Qed.

Lemma makeApiRequest_sends_new_token_witness :
  let env := Demo.env 5000 [] (JObj [("data", JArr [])]) None in
  let options :=
    {| method := Some "GET"; url := None; params := None; data := None;
       baseURL := None; headers := None |} in
  let sent := axios_calls (trace (snd (makeApiRequest env options Demo.fresh))) in
  (dbRef_once env (trace Demo.fresh) = None /\
   default 0 (EXPIRY_TIME (db Demo.fresh)) <= Date_now env (trace Demo.fresh ++ [EvOnce])) /\
  sent = [generateApiRequestConfig options (Some "1000.at")] /\
  fst (makeApiRequest env options Demo.fresh) = Ok (JObj [("data", JArr [])]) /\
  EXPIRY_TIME (db (snd (makeApiRequest env options Demo.fresh))) = Some 3605000.
Proof.
  cbv zeta. split; [split; [reflexivity | vm_compute; discriminate]|].
  destruct (makeApiRequest_sends_new_token
              (Demo.env 5000 [] (JObj [("data", JArr [])]) None)
              {| method := Some "GET"; url := None; params := None; data := None;
                 baseURL := None; headers := None |}
              Demo.fresh Demo.token_response)
    as (Hrun & _ & Hexpiry);
    [reflexivity | right; vm_compute; discriminate | reflexivity | reflexivity
    | reflexivity |].
  rewrite Hrun. cbn [fst snd db trace]. split; [reflexivity|].
  split; [reflexivity | exact Hexpiry].
Defined.

(** X6. Whatever the collaborators answer, one call of [makeApiRequest]
    starts with a read of the store, reads it at most twice, posts at most
    one form to the token endpoint, sends at most one update to the store
    and at most one request to the CRM, and that request is the last thing
    it does: nothing is retried. *)
Theorem makeApiRequest_bounded env options w :
  exists evs,
    trace (snd (makeApiRequest env options w)) = trace w ++ evs /\
    head evs = Some EvOnce /\
    (reads evs <= 2)%nat /\
    (length (exchanges evs) <= 1)%nat /\
    (length (List.filter (fun e => match e with EvUpdate _ => true | _ => false end) evs)
       <= 1)%nat /\
    (length (axios_calls evs) <= 1)%nat /\
    (forall config, In (EvAxios config) evs -> last evs = Some (EvAxios config)).
Proof.
  rewrite makeApiRequest_run.
  destruct (dbRef_once env (trace w)) as [e|].
  { exists [EvOnce]. cbn. repeat split; try lia. intros c [H|[]]; discriminate. }
  cbv zeta. unfold ensure_token, after. cbn [trace db].
  destruct (negb (truthy_str (ACCESS_TOKEN (db w))) || expired _ _).
  - destruct (negb (truthy_str (REFRESH_TOKEN (db w)))).
    + rewrite getAccessToken_run. cbv zeta. cbn [trace db].
      destruct (axios_postForm _ _ _ _) as [response|e];
        [destruct (dbRef_update _ _ _) as [e|];
           [|cbn [trace db]; destruct (dbRef_once env _) as [e|]]|];
        eexists; cbn [snd trace db]; rewrite <- ?app_assoc;
        (split; [reflexivity|]); cbn; repeat split; try lia;
        intros c Hin; repeat destruct Hin as [Hin|Hin]; try discriminate;
        try contradiction; inversion Hin; reflexivity.
    + rewrite refreshAccessToken_run. cbv zeta. cbn [trace db].
      destruct (axios_postForm _ _ _ _) as [response|e];
        [destruct (dbRef_update _ _ _) as [e|];
           [|cbn [trace db]; destruct (dbRef_once env _) as [e|]]|];
        eexists; cbn [snd trace db]; rewrite <- ?app_assoc;
        (split; [reflexivity|]); cbn; repeat split; try lia;
        intros c Hin; repeat destruct Hin as [Hin|Hin]; try discriminate;
        try contradiction; inversion Hin; reflexivity.
  - cbn [ret trace db]. destruct (dbRef_once env _) as [e|];
      eexists; cbn [snd trace db]; rewrite <- ?app_assoc;
      (split; [reflexivity|]); cbn; repeat split; try lia;
      intros c Hin; repeat destruct Hin as [Hin|Hin]; try discriminate;
      try contradiction; inversion Hin; reflexivity.
Qed.

Lemma makeApiRequest_sent env options w :
  exists pre,
    axios_calls pre = [] /\
    ((trace (snd (makeApiRequest env options w)) = trace w ++ pre /\
      exists e, fst (makeApiRequest env options w) = Err e) \/
     (exists token,
        let config := generateApiRequestConfig options token in
        trace (snd (makeApiRequest env options w)) = trace w ++ pre ++ [EvAxios config] /\
        fst (makeApiRequest env options w) = axios env (trace w ++ pre) config)).
Proof.
  rewrite makeApiRequest_run.
  destruct (dbRef_once env (trace w)) as [e|].
  - exists [EvOnce]. split; [reflexivity|]. left. cbn. split; [reflexivity | eauto].
  - cbv zeta.
    destruct (ensure_token_quiet env (db w) (Date_now env (trace (after w EvOnce)))
                (after w EvOnce)) as (evs & Htrace & Hquiet).
    destruct (ensure_token _ _ _ _) as [[[]|e] w2]; cbn [snd] in Htrace.
    + destruct (dbRef_once env (trace w2)) as [e|];
        exists ([EvOnce] ++ evs ++ [EvOnce]);
        (split; [rewrite !axios_calls_app, Hquiet; reflexivity|]);
        cbn [fst snd after trace db] in *; rewrite Htrace, <- ?app_assoc.
      * left. split; [reflexivity | eauto].
      * right. eexists. cbv zeta. rewrite <- ?app_assoc. cbn [app].
        split; reflexivity.
    + exists ([EvOnce] ++ evs).
      split; [rewrite !axios_calls_app, Hquiet; reflexivity|].
      cbn [fst snd after trace] in *. rewrite Htrace, <- ?app_assoc.
      left. split; [reflexivity | eauto].
Qed.

(** X7. What [makeApiRequest] returns is either an error raised before any
    request went to the CRM, or exactly what the CRM answers (data or error)
    to the one request sent, which is the caller's description completed by
    [generateApiRequestConfig]: data it returns is the CRM's data, and an
    error it raises after the request went out is the CRM's error. *)
Theorem makeApiRequest_returns_the_answer env options w r w' :
  makeApiRequest env options w = (r, w') ->
  exists evs,
    trace w' = trace w ++ evs /\
    (forall v, r = Ok v ->
       exists pre token,
         evs = pre ++ [EvAxios (generateApiRequestConfig options token)] /\
         axios_calls pre = [] /\
         axios env (trace w ++ pre) (generateApiRequestConfig options token) = Ok v) /\
    (forall e, r = Err e ->
       axios_calls evs = [] \/
       exists pre token,
         evs = pre ++ [EvAxios (generateApiRequestConfig options token)] /\
         axios_calls pre = [] /\
         axios env (trace w ++ pre) (generateApiRequestConfig options token) = Err e).
Proof.
  intros Hrun.
  destruct (makeApiRequest_sent env options w) as (pre & Hpre & Hcases).
  rewrite Hrun in Hcases. cbn [fst snd] in Hcases.
  destruct Hcases as [[Htrace [e0 He0]]|[token Hsent]].
  - exists pre. split; [exact Htrace|]. split.
    + intros v Hv. congruence.
    + intros e He. left. exact Hpre.
  - cbv zeta in Hsent. destruct Hsent as [Htrace Hanswer].
    exists (pre ++ [EvAxios (generateApiRequestConfig options token)]).
    split; [exact Htrace|]. split.
    + intros v Hv. exists pre, token. rewrite <- Hanswer, Hv. auto.
    + intros e He. right. exists pre, token. rewrite <- Hanswer, He. auto.
Qed.

Lemma makeApiRequest_returns_the_answer_witness :
  let env := Demo.env 4999 [] (JObj [("data", JArr [])]) None in
  let options :=
    {| method := Some "GET"; url := None; params := None; data := None;
       baseURL := None; headers := None |} in
  fst (makeApiRequest env options Demo.fresh) = Ok (JObj [("data", JArr [])]) /\
  exists pre token,
    trace (snd (makeApiRequest env options Demo.fresh))
      = pre ++ [EvAxios (generateApiRequestConfig options token)] /\
    axios env pre (generateApiRequestConfig options token) = Ok (JObj [("data", JArr [])]).
Proof.
  cbv zeta. split; [reflexivity|].
  destruct (makeApiRequest_returns_the_answer
              (Demo.env 4999 [] (JObj [("data", JArr [])]) None)
              {| method := Some "GET"; url := None; params := None; data := None;
                 baseURL := None; headers := None |}
              Demo.fresh (Ok (JObj [("data", JArr [])]))
              (snd (makeApiRequest (Demo.env 4999 [] (JObj [("data", JArr [])]) None)
                      {| method := Some "GET"; url := None; params := None; data := None;
                         baseURL := None; headers := None |} Demo.fresh))
              eq_refl)
    as (evs & Htrace & Hok & _).
  destruct (Hok _ eq_refl) as (pre & token & -> & _ & Hanswer).
  exists pre, token. split; [exact Htrace | exact Hanswer].
Defined.

(** X8. An error of the store or of the token endpoint reaches the caller of
    [makeApiRequest] unchanged and keeps the request from being sent: when
    the first read fails nothing else is called; when the exchange of a
    missing or stale token is rejected only the read and the form post were
    made and the record is as it was. *)
Theorem makeApiRequest_fails_before_the_request env options w e :
  (dbRef_once env (trace w) = Some e ->
   makeApiRequest env options w = (Err e, {| db := db w; trace := trace w ++ [EvOnce] |})) /\
  (dbRef_once env (trace w) = None ->
   (truthy_str (ACCESS_TOKEN (db w)) = false \/
    default 0 (EXPIRY_TIME (db w)) <= Date_now env (trace w ++ [EvOnce])) ->
   let payload :=
     if truthy_str (REFRESH_TOKEN (db w))
     then refreshAccessToken_payload (db w) else getAccessToken_payload (db w) in
   axios_postForm env (trace w ++ [EvOnce]) tokenUrl payload = Err e ->
   makeApiRequest env options w =
     (Err e, {| db := db w; trace := trace w ++ [EvOnce; EvPostForm tokenUrl payload] |})).
Proof.
  split.
  - intros Hread. rewrite makeApiRequest_run, Hread. reflexivity.
  - intros Hread Hstale. cbv zeta.
    assert (Hcond : negb (truthy_str (ACCESS_TOKEN (db w)))
              || expired (Date_now env (trace w ++ [EvOnce])) (EXPIRY_TIME (db w)) = true).
    { destruct Hstale as [-> | Hexp]; [reflexivity|].
      apply expired_spec in Hexp. rewrite Hexp. apply orb_true_r. }
    rewrite makeApiRequest_run, Hread. cbv zeta.
    unfold ensure_token, after. cbn [trace db]. rewrite Hcond.
    destruct (truthy_str (REFRESH_TOKEN (db w))); cbn [negb]; intros Hpost.
    + rewrite refreshAccessToken_run. cbv zeta. cbn [trace db]. rewrite Hpost.
      rewrite <- app_assoc. reflexivity.
    + rewrite getAccessToken_run. cbv zeta. cbn [trace db]. rewrite Hpost.
      rewrite <- app_assoc. reflexivity.
Qed.

Lemma makeApiRequest_fails_before_the_request_witness :
  let options :=
    {| method := Some "GET"; url := None; params := None; data := None;
       baseURL := None; headers := None |} in
  let offline := Faults.env 6000 (Some Faults.denied) None (Ok Demo.token_response) (Ok JNull) in
  let rejecting := Faults.env 6000 None None (Err Faults.invalid_code) (Ok JNull) in
  (dbRef_once offline (trace Demo.fresh) = Some Faults.denied /\
   fst (makeApiRequest offline options Demo.fresh) = Err Faults.denied /\
   trace (snd (makeApiRequest offline options Demo.fresh)) = [EvOnce]) /\
  (default 0 (EXPIRY_TIME (db Demo.fresh)) <= Date_now rejecting [EvOnce] /\
   fst (makeApiRequest rejecting options Demo.fresh) = Err Faults.invalid_code /\
   axios_calls (trace (snd (makeApiRequest rejecting options Demo.fresh))) = []).
Proof.
  cbv zeta. split.
  - destruct (makeApiRequest_fails_before_the_request
                (Faults.env 6000 (Some Faults.denied) None (Ok Demo.token_response) (Ok JNull))
                {| method := Some "GET"; url := None; params := None; data := None;
                   baseURL := None; headers := None |}
                Demo.fresh Faults.denied) as [Hread _].
    rewrite (Hread eq_refl). repeat split; reflexivity.
  - destruct (makeApiRequest_fails_before_the_request
                (Faults.env 6000 None None (Err Faults.invalid_code) (Ok JNull))
                {| method := Some "GET"; url := None; params := None; data := None;
                   baseURL := None; headers := None |}
                Demo.fresh Faults.invalid_code) as [_ Hpost].
    rewrite Hpost; [|reflexivity | right; vm_compute; discriminate | reflexivity].
    split; [vm_compute; discriminate|]. split; reflexivity.
Defined.

(** ** What every run keeps *)

Lemma same_registration_refl d : same_registration d d.
Proof. repeat split. Qed.

Lemma evolves_refl w : evolves w w.
Proof.
  split; [|apply same_registration_refl].
  exists []. rewrite app_nil_r. split; [reflexivity | constructor].
Qed.

Lemma evolves_trans w1 w2 w3 : evolves w1 w2 -> evolves w2 w3 -> evolves w1 w3.
Proof.
  intros [(evs & Ht & Hp) (H1 & H2 & H3 & H4 & H5)]
         [(evs' & Ht' & Hp') (H1' & H2' & H3' & H4' & H5')].
  split.
  - exists (evs ++ evs'). rewrite Ht', Ht, app_assoc. split; [reflexivity|].
    apply Forall_app. split; assumption.
  - repeat split; congruence.
Qed.

Lemma evolves_event w e : paired_update e -> evolves w {| db := db w; trace := trace w ++ [e] |}.
Proof.
  intros He. split; [|apply same_registration_refl].
  exists [e]. split; [reflexivity | repeat constructor; exact He].
Qed.

Lemma respects_ret {A} (a : A) : respects (ret a).
Proof. intros w. apply evolves_refl. Qed.

Lemma respects_throw {A} (e : Error) : respects (@throw A e).
Proof. intros w. apply evolves_refl. Qed.

Lemma respects_lift {A} (r : Result A) : respects (lift r).
Proof. intros w. apply evolves_refl. Qed.

Lemma respects_bind {A B} (m : M A) (k : A -> M B) :
  respects m -> (forall a, respects (k a)) -> respects (bind m k).
Proof.
  intros Hm Hk w. unfold bind. specialize (Hm w).
  destruct (m w) as [[a|e] w1]; cbn [snd] in *; [|exact Hm].
  eapply evolves_trans; [exact Hm | apply Hk].
Qed.

Lemma respects_try_catch {A} (m : M A) (h : Error -> M A) :
  respects m -> (forall e, respects (h e)) -> respects (try_catch m h).
Proof.
  intros Hm Hh w. unfold try_catch. specialize (Hm w).
  destruct (m w) as [[a|e] w1]; cbn [snd] in *; [exact Hm|].
  eapply evolves_trans; [exact Hm | apply Hh].
Qed.

Lemma respects_for_of {A} (l : list A) (body : A -> M unit) :
  (forall x, respects (body x)) -> respects (for_of l body).
Proof.
  intros Hbody. induction l as [|x l IH]; cbn [for_of].
  - apply respects_ret.
  - apply respects_bind; [apply Hbody | intros _; exact IH].
Qed.

Lemma respects_readDbData env : respects (readDbData env).
Proof.
  apply respects_try_catch; [|intros e; apply respects_throw].
  intros w. unfold once_value.
  destruct (dbRef_once env (trace w)); cbn [snd]; apply evolves_event; exact I.
Qed.

Lemma respects_exchange_update env updates :
  paired_update (EvUpdate updates) -> respects (updateDbData env updates).
Proof.
  intros Hpaired. apply respects_try_catch; [|intros e; apply respects_throw].
  intros w. unfold update_value.
  destruct (dbRef_update env (trace w) updates); cbn [snd].
  - apply evolves_event. exact Hpaired.
  - split.
    + exists [EvUpdate updates].
      split; [reflexivity | constructor; [exact Hpaired | constructor]].
    + destruct Hpaired as (_ & _ & H1 & H2 & H3 & H4 & H5).
      unfold same_registration, merge_record. cbn.
      rewrite H1, H2, H3, H4, H5. repeat split.
Qed.

Lemma respects_postForm env target payload : respects (postForm env target payload).
Proof. intros w. unfold postForm. cbn [snd]. apply evolves_event. exact I. Qed.

Lemma respects_getAccessToken env dbData : respects (getAccessToken env dbData).
Proof.
  apply respects_try_catch; [|intros e; apply respects_throw]. cbv zeta.
  apply respects_bind; [apply respects_postForm|]. intros response.
  apply respects_bind; [intros w; apply evolves_refl|]. intros now.
  apply respects_exchange_update. cbn. repeat split; discriminate || reflexivity.
Qed.

Lemma respects_refreshAccessToken env dbData : respects (refreshAccessToken env dbData).
Proof.
  apply respects_try_catch; [|intros e; apply respects_throw]. cbv zeta.
  apply respects_bind; [apply respects_postForm|]. intros response.
  apply respects_bind; [intros w; apply evolves_refl|]. intros now.
  apply respects_exchange_update. cbn. repeat split; discriminate || reflexivity.
Qed.

Lemma respects_makeApiRequest env options : respects (makeApiRequest env options).
Proof.
  unfold makeApiRequest.
  apply respects_bind; [apply respects_readDbData|]. intros dbData.
  apply respects_bind; [intros w; apply evolves_refl|]. intros now.
  apply respects_bind.
  { destruct (negb (truthy_str (ACCESS_TOKEN dbData)) || expired now (EXPIRY_TIME dbData));
      [destruct (negb (truthy_str (REFRESH_TOKEN dbData)));
         [apply respects_getAccessToken | apply respects_refreshAccessToken]
      | apply respects_ret]. }
  intros _. apply respects_bind; [apply respects_readDbData|]. intros latestDbData.
  cbv zeta. apply respects_try_catch; [|intros e; apply respects_throw].
  apply respects_bind; [|intros v; apply respects_ret].
  intros w. unfold axios_request. cbn [snd]. apply evolves_event. exact I.
Qed.

Lemma respects_updateLeadTag env leadId tags : respects (updateLeadTag env leadId tags).
Proof.
  unfold updateLeadTag. cbv zeta.
  apply respects_bind; [apply respects_makeApiRequest | intros v; apply respects_ret].
Qed.

Lemma respects_modifyLeadByLeadId env reqBody : respects (modifyLeadByLeadId env reqBody).
Proof.
  apply respects_try_catch; [|intros e; apply respects_throw].
  apply respects_bind.
  { unfold findByLeadId. cbv zeta.
    apply respects_bind; [apply respects_makeApiRequest | intros v; apply respects_ret]. }
  intros response. apply respects_bind; [apply respects_lift|]. intros data.
  destruct (negb (truthy (opt_index0 data))); [apply respects_ret|].
  apply respects_bind; [apply respects_lift|]. intros lead.
  apply respects_bind; [apply respects_lift|]. intros Tag. cbv zeta.
  apply respects_bind; [apply respects_lift|]. intros updatedTags.
  apply respects_bind; [apply respects_lift|]. intros lead'.
  apply respects_bind; [apply respects_lift|]. intros leadId.
  apply respects_bind; [apply respects_updateLeadTag | intros v; apply respects_ret].
Qed.

Lemma respects_modifyLeadsByPhoneAndTag env reqBody :
  respects (modifyLeadsByPhoneAndTag env reqBody).
Proof.
  apply respects_try_catch; [|intros e; apply respects_throw].
  apply respects_bind.
  { unfold findByPhone. cbv zeta.
    apply respects_bind; [apply respects_makeApiRequest | intros v; apply respects_ret]. }
  intros response. apply respects_bind; [apply respects_lift|]. intros data.
  destruct (negb (truthy data)); [apply respects_ret|].
  apply respects_bind; [apply respects_lift|]. intros leads.
  apply respects_bind; [|intros v; apply respects_ret].
  apply respects_for_of. intros lead.
  apply respects_bind; [apply respects_lift|]. intros Tag. cbv zeta.
  apply respects_bind; [apply respects_lift|]. intros updatedTags.
  apply respects_bind; [apply respects_lift|]. intros leadId.
  apply respects_bind; [apply respects_updateLeadTag | intros v; apply respects_ret].
Qed.

Lemma respects_post_v5 env req_body : respects (post_v5 env req_body).
Proof.
  apply respects_try_catch; [|intros e; apply respects_ret].
  apply respects_bind; [apply respects_lift|]. intros body.
  apply respects_bind.
  - destruct (truthy_str (body_phone body) && truthy_str (body_tag body)).
    + apply respects_bind; [apply respects_modifyLeadsByPhoneAndTag|].
      intros s. apply respects_ret.
    + destruct (truthy_str (body_id body) && truthy_str (body_tag body)).
      * apply respects_bind; [apply respects_modifyLeadByLeadId|].
        intros s. apply respects_ret.
      * apply respects_ret.
  - intros [s|]; [destruct (s =? 200)|]; apply respects_ret.
Qed.

(** X9. Whatever a request to the endpoint, a workflow or a single
    [makeApiRequest] does, every update it sends to the store sets
    [ACCESS_TOKEN] together with [EXPIRY_TIME] and no field of the
    registration, and the stored client id, client secret, authorization
    code, accounts URL and API domain are afterwards what they were. *)
Theorem store_updates_are_paired env :
  (forall options w,
     let w' := snd (makeApiRequest env options w) in
     (exists evs, trace w' = trace w ++ evs /\ Forall paired_update evs) /\
     same_registration (db w) (db w')) /\
  (forall reqBody w,
     let w' := snd (modifyLeadByLeadId env reqBody w) in
     (exists evs, trace w' = trace w ++ evs /\ Forall paired_update evs) /\
     same_registration (db w) (db w')) /\
  (forall reqBody w,
     let w' := snd (modifyLeadsByPhoneAndTag env reqBody w) in
     (exists evs, trace w' = trace w ++ evs /\ Forall paired_update evs) /\
     same_registration (db w) (db w')) /\
  (forall req_body w,
     let w' := snd (post_v5 env req_body w) in
     (exists evs, trace w' = trace w ++ evs /\ Forall paired_update evs) /\
     same_registration (db w) (db w')).
Proof.
  split; [|split; [|split]].
  - intros options w. apply respects_makeApiRequest.
  - intros reqBody w. apply respects_modifyLeadByLeadId.
  - intros reqBody w. apply respects_modifyLeadsByPhoneAndTag.
  - intros req_body w. apply respects_post_v5.
Qed.

(** ** More on the three operations *)

Lemma bind_ret {A} (m : M A) w : bind m (fun a => ret a) w = m w.
Proof. unfold bind, ret. destruct (m w) as [[a|e] w']; reflexivity. Qed.

Lemma makeApiRequest_ok env options w v w' :
  makeApiRequest env options w = (Ok v, w') ->
  exists pre token,
    let config := generateApiRequestConfig options token in
    axios_calls pre = [] /\
    trace w' = trace w ++ pre ++ [EvAxios config] /\
    axios env (trace w ++ pre) config = Ok v.
Proof.
  intros Hrun.
  destruct (makeApiRequest_sent env options w) as (pre & Hpre & [[_ [e He]]|[token Hsent]]).
  - rewrite Hrun in He. discriminate.
  - cbv zeta in Hsent. rewrite Hrun in Hsent. cbn [fst snd] in Hsent.
    destruct Hsent as [Htrace Hanswer]. exists pre, token. cbv zeta.
    split; [exact Hpre|]. split; [exact Htrace | symmetry; exact Hanswer].
Qed.

(** X10. A lookup that returns has sent exactly one request to the CRM, as
    the last thing it did, and returns what the CRM answered to it: a [GET]
    of [/Leads/{leadId}] for [findByLeadId], a [GET] of [/Leads/search] with
    the criteria [Phone:starts_with:<prefix>] and the fields
    [id,Phone,Full_Name,Tag] for [findByPhone]; neither carries a body, and
    neither writes a lead. *)
Theorem lookups_send_one_get env w v w' :
  (forall leadId,
     findByLeadId env leadId w = (Ok v, w') ->
     exists pre config,
       trace w' = trace w ++ pre ++ [EvAxios config] /\
       axios_calls pre = [] /\
       axios env (trace w ++ pre) config = Ok v /\
       method config = Some "GET" /\
       url config = Some {| url_lit := "/Leads/"; url_arg := Some (JStr leadId) |} /\
       baseURL config = Some apiUrl /\
       params config = None /\ data config = None /\
       writes (pre ++ [EvAxios config]) = []) /\
  (forall prefix,
     findByPhone env prefix w = (Ok v, w') ->
     exists pre config,
       trace w' = trace w ++ pre ++ [EvAxios config] /\
       axios_calls pre = [] /\
       axios env (trace w ++ pre) config = Ok v /\
       method config = Some "GET" /\
       url config = Some {| url_lit := "/Leads/search"; url_arg := None |} /\
       baseURL config = Some apiUrl /\
       params config = Some [("criteria", ("Phone:starts_with:" ++ prefix)%string);
                             ("fields", "id,Phone,Full_Name,Tag")] /\
       data config = None /\
       writes (pre ++ [EvAxios config]) = []).
Proof.
  split.
  - intros leadId. unfold findByLeadId. cbv zeta. rewrite bind_ret. intros Hrun.
    apply makeApiRequest_ok in Hrun as (pre & token & Hpre & Htrace & Hanswer).
    eexists pre, _. split; [exact Htrace|]. split; [exact Hpre|].
    split; [exact Hanswer|]. rewrite writes_request by exact Hpre.
    repeat split; reflexivity.
  - intros prefix. unfold findByPhone. cbv zeta. rewrite bind_ret. intros Hrun.
    apply makeApiRequest_ok in Hrun as (pre & token & Hpre & Htrace & Hanswer).
    eexists pre, _. split; [exact Htrace|]. split; [exact Hpre|].
    split; [exact Hanswer|]. rewrite writes_request by exact Hpre.
    repeat split; reflexivity.
Qed.

Lemma lookups_send_one_get_witness :
  let env := Demo.env 4999 [("42", JNull)] (JObj [("data", JArr [])]) None in
  let by_id := findByLeadId env "42" Demo.fresh in
  let by_phone := findByPhone env "555" Demo.fresh in
  (fst by_id = Ok (JObj [("data", JArr [Demo.lead "42" JNull])]) /\
   length (axios_calls (trace (snd by_id))) = 1%nat /\
   writes (trace (snd by_id)) = []) /\
  (fst by_phone = Ok (JObj [("data", JArr [])]) /\
   length (axios_calls (trace (snd by_phone))) = 1%nat /\
   writes (trace (snd by_phone)) = []).
Proof.
  cbv zeta.
  set (env := Demo.env 4999 [("42", JNull)] (JObj [("data", JArr [])]) None).
  split.
  - destruct (lookups_send_one_get env Demo.fresh
                (JObj [("data", JArr [Demo.lead "42" JNull])])
                (snd (findByLeadId env "42" Demo.fresh))) as [Hid _].
    destruct (Hid "42" eq_refl)
      as (pre & config & Htrace & Hpre & _ & _ & _ & _ & _ & _ & Hwrites).
    split; [reflexivity|]. rewrite Htrace. cbn [Demo.fresh Demo.world trace app].
    split; [|exact Hwrites].
    rewrite axios_calls_app, Hpre. reflexivity.
  - destruct (lookups_send_one_get env Demo.fresh (JObj [("data", JArr [])])
                (snd (findByPhone env "555" Demo.fresh))) as [_ Hphone].
    destruct (Hphone "555" eq_refl)
      as (pre & config & Htrace & Hpre & _ & _ & _ & _ & _ & _ & Hwrites).
    split; [reflexivity|]. rewrite Htrace. cbn [Demo.fresh Demo.world trace app].
    split; [|exact Hwrites].
    rewrite axios_calls_app, Hpre. reflexivity.
Defined.

(** X11. An [updateLeadTag] that returns has sent exactly one request to the
    CRM, as the last thing it did, and returns what the CRM answered to it:
    a [PUT] of [/Leads/{leadId}] whose body is [{data: [{Tag: tags}]}], so
    that the whole tag collection of that one lead is replaced. *)
Theorem updateLeadTag_sends_one_put env leadId tags w v w' :
  updateLeadTag env leadId tags w = (Ok v, w') ->
  exists pre config,
    trace w' = trace w ++ pre ++ [EvAxios config] /\
    axios_calls pre = [] /\
    axios env (trace w ++ pre) config = Ok v /\
    method config = Some "PUT" /\
    url config = Some {| url_lit := "/Leads/"; url_arg := Some leadId |} /\
    baseURL config = Some apiUrl /\
    params config = None /\
    data config = Some (JObj [("data", JArr [JObj [("Tag", tags)]])]) /\
    writes (pre ++ [EvAxios config]) = [(leadId, tags)].
Proof.
  unfold updateLeadTag. cbv zeta. rewrite bind_ret. intros Hrun.
  apply makeApiRequest_ok in Hrun as (pre & token & Hpre & Htrace & Hanswer).
  eexists pre, _. split; [exact Htrace|]. split; [exact Hpre|].
  split; [exact Hanswer|]. rewrite writes_request by exact Hpre.
  repeat split; reflexivity.
Qed.

Lemma updateLeadTag_sends_one_put_witness :
  let env := Demo.env 4999 [("42", JNull)] JNull None in
  let run := updateLeadTag env (JStr "42") (Demo.tagged ["vip"]) Demo.fresh in
  fst run = Ok (JObj [("data", JArr [JObj [("code", JStr "SUCCESS")]])]) /\
  writes (trace (snd run)) = [(JStr "42", Demo.tagged ["vip"])].
Proof.
  cbv zeta. split; [reflexivity|].
  set (env := Demo.env 4999 [("42", JNull)] JNull None).
  destruct (updateLeadTag_sends_one_put env (JStr "42") (Demo.tagged ["vip"]) Demo.fresh
              (JObj [("data", JArr [JObj [("code", JStr "SUCCESS")]])])
              (snd (updateLeadTag env (JStr "42") (Demo.tagged ["vip"]) Demo.fresh))
              eq_refl)
    as (pre & config & Htrace & _ & _ & _ & _ & _ & _ & _ & Hwrites).
  rewrite Htrace. exact Hwrites.
Defined.

(** ** More on the workflows *)

(** X12. A lookup that fails makes its workflow fail with the same error in
    the world the lookup left, and a lookup that answers [null] or nothing
    at all makes it raise a [TypeError] there: no update is called and
    nothing is written. *)
Theorem failed_lookup_propagates env reqBody w w1 :
  (forall e,
     findByLeadId env (id reqBody) w = (Err e, w1) ->
     modifyLeadByLeadId env reqBody w = (Err e, w1)) /\
  (forall e,
     findByPhone env (phone reqBody) w = (Err e, w1) ->
     modifyLeadsByPhoneAndTag env reqBody w = (Err e, w1)) /\
  (forall response,
     absent response ->
     (findByLeadId env (id reqBody) w = (Ok response, w1) ->
      exists msg, modifyLeadByLeadId env reqBody w = (Err (TypeError msg), w1)) /\
     (findByPhone env (phone reqBody) w = (Ok response, w1) ->
      exists msg, modifyLeadsByPhoneAndTag env reqBody w = (Err (TypeError msg), w1))) /\
  (forall r,
     findByLeadId env (id reqBody) w = (r, w1) \/
     findByPhone env (phone reqBody) w = (r, w1) ->
     exists evs, trace w1 = trace w ++ evs /\ writes evs = []).
Proof.
  split; [|split; [|split]].
  - intros e Hfind. rewrite modifyLeadByLeadId_run, Hfind. reflexivity.
  - intros e Hfind. rewrite modifyLeadsByPhoneAndTag_run, Hfind. reflexivity.
  - intros response Habsent. split; intros Hfind.
    + rewrite modifyLeadByLeadId_run, Hfind.
      destruct Habsent as [-> | ->]; cbn [get_prop]; eauto.
    + rewrite modifyLeadsByPhoneAndTag_run, Hfind.
      destruct Habsent as [-> | ->]; cbn [get_prop]; eauto.
  - intros r [Hfind|Hfind].
    + eapply findByLeadId_writes. exact Hfind.
    + eapply findByPhone_writes. exact Hfind.
Qed.

Lemma failed_lookup_propagates_witness :
  let offline :=
    Faults.env 4999 None None (Ok Demo.token_response)
      (Err (Rejected "Request failed with status code 500")) in
  let silent := Faults.env 4999 None None (Ok Demo.token_response) (Ok JNull) in
  let reqBody := Demo.request "555" "42" "vip" "status:" in
  (fst (findByLeadId offline "42" Demo.fresh)
     = Err (Rejected "Request failed with status code 500") /\
   fst (modifyLeadByLeadId offline reqBody Demo.fresh)
     = Err (Rejected "Request failed with status code 500") /\
   fst (modifyLeadsByPhoneAndTag offline reqBody Demo.fresh)
     = Err (Rejected "Request failed with status code 500")) /\
  (fst (findByPhone silent "555" Demo.fresh) = Ok JNull /\
   exists msg, fst (modifyLeadsByPhoneAndTag silent reqBody Demo.fresh)
               = Err (TypeError msg)).
Proof.
  cbv zeta. split.
  - set (env := Faults.env 4999 None None (Ok Demo.token_response)
                  (Err (Rejected "Request failed with status code 500"))).
    set (reqBody := Demo.request "555" "42" "vip" "status:").
    destruct (failed_lookup_propagates env reqBody Demo.fresh
                (snd (findByLeadId env "42" Demo.fresh))) as (Hid & _).
    destruct (failed_lookup_propagates env reqBody Demo.fresh
                (snd (findByPhone env "555" Demo.fresh))) as (_ & Hphone & _).
    rewrite (Hid _ eq_refl), (Hphone _ eq_refl). repeat split; reflexivity.
  - set (env := Faults.env 4999 None None (Ok Demo.token_response) (Ok JNull)).
    set (reqBody := Demo.request "555" "42" "vip" "status:").
    destruct (failed_lookup_propagates env reqBody Demo.fresh
                (snd (findByPhone env "555" Demo.fresh))) as (_ & _ & Hnull & _).
    destruct (Hnull JNull (or_intror eq_refl)) as [_ Hphone].
    destruct (Hphone eq_refl) as [msg Hrun].
    split; [reflexivity|]. exists msg. rewrite Hrun. reflexivity.
Defined.

(** X13. The by-id workflow looks at the first lead of the answer only: when
    [data] holds a first lead and others, at most one request is written,
    the one of the first lead, and it is written when the workflow returns
    a status. *)
Theorem modifyLeadByLeadId_first_lead_only env reqBody w response w1 lead others :
  findByLeadId env (id reqBody) w = (Ok response, w1) ->
  get_prop response "data" = Ok (JArr (lead :: others)) ->
  truthy lead = true ->
  exists evs,
    trace (snd (modifyLeadByLeadId env reqBody w)) = trace w1 ++ evs /\
    (writes evs = [expected reqBody lead] \/
     (writes evs = [] /\ exists e, fst (modifyLeadByLeadId env reqBody w) = Err e)) /\
    (forall status, fst (modifyLeadByLeadId env reqBody w) = Ok status ->
                    status = 200 /\ writes evs = [expected reqBody lead]).
Proof.
  intros Hfind Hdata Htruthy.
  rewrite modifyLeadByLeadId_run, Hfind, Hdata.
  cbn [opt_index0 index0]. rewrite Htruthy. cbn [negb].
  destruct (apply_plan env reqBody lead w1) as [r w2] eqn:Hplan.
  apply apply_plan_writes in Hplan as (evs & Htrace & Hwrites).
  exists evs. destruct r as [[]|e]; cbn [fst snd]; (split; [exact Htrace|]).
  - destruct Hwrites as [Hw|[_ [e He]]]; [|discriminate].
    split; [left; exact Hw|]. intros status Hs. inversion Hs. split; [reflexivity | exact Hw].
  - split; [|intros status Hs; discriminate].
    destruct Hwrites as [Hw|[Hw _]]; [left; exact Hw | right; eauto].
Qed.

Lemma modifyLeadByLeadId_first_lead_only_witness :
  let first := Demo.lead "1" (Demo.tagged ["status:new"]) in
  let second := Demo.lead "2" (Demo.tagged ["status:old"]) in
  let env :=
    Faults.env 4999 None None (Ok Demo.token_response)
      (Ok (JObj [("data", JArr [first; second])])) in
  let reqBody := Demo.request "" "1" "status:contacted" "status:" in
  fst (findByLeadId env "1" Demo.fresh) = Ok (JObj [("data", JArr [first; second])]) /\
  fst (modifyLeadByLeadId env reqBody Demo.fresh) = Ok 200 /\
  writes (trace (snd (modifyLeadByLeadId env reqBody Demo.fresh)))
    = [(JStr "1", Demo.tagged ["status:contacted"])].
Proof.
  cbv zeta.
  set (first := Demo.lead "1" (Demo.tagged ["status:new"])).
  set (second := Demo.lead "2" (Demo.tagged ["status:old"])).
  set (env := Faults.env 4999 None None (Ok Demo.token_response)
                (Ok (JObj [("data", JArr [first; second])]))).
  set (reqBody := Demo.request "" "1" "status:contacted" "status:").
  destruct (modifyLeadByLeadId_first_lead_only env reqBody Demo.fresh
              (JObj [("data", JArr [first; second])])
              (snd (findByLeadId env "1" Demo.fresh)) first [second])
    as (evs & Htrace & _ & Hok); [reflexivity | reflexivity | reflexivity |].
  split; [reflexivity|]. split; [reflexivity|].
  destruct (Hok 200 eq_refl) as [_ Hwrites].
  rewrite Htrace, writes_app.
  change (writes (trace (snd (findByLeadId env "1" Demo.fresh)))) with (@nil (JSON * JSON)).
  exact Hwrites.
Defined.

Lemma by_id_status_writes env reqBody w status w' :
  modifyLeadByLeadId env reqBody w = (Ok status, w') ->
  exists evs,
    trace w' = trace w ++ evs /\
    ((status = 400 /\ writes evs = []) \/
     (status = 200 /\ exists entry, writes evs = [entry])).
Proof.
  rewrite modifyLeadByLeadId_run.
  destruct (findByLeadId env (id reqBody) w) as [[response|e] w1] eqn:Hfind; [|discriminate].
  apply findByLeadId_writes in Hfind as (evs1 & Htrace1 & Hw1).
  destruct (get_prop response "data") as [data|e]; [|discriminate].
  destruct (negb (truthy (opt_index0 data))).
  - intros H; inversion H; subst. exists evs1. split; [exact Htrace1|]. left. eauto.
  - destruct (index0 data) as [lead|e]; [|discriminate].
    destruct (apply_plan env reqBody lead w1) as [[[]|e] w2] eqn:Hplan; [|discriminate].
    apply apply_plan_writes in Hplan as (evs2 & Htrace2 & [Hw2|[_ [e He]]]); [|discriminate].
    intros H; inversion H; subst. exists (evs1 ++ evs2).
    rewrite Htrace2, Htrace1, app_assoc. split; [reflexivity|]. right.
    split; [reflexivity|]. rewrite writes_app, Hw1, Hw2. eauto.
Qed.

(** X14. Whatever happens, the by-id workflow writes at most one request
    to the CRM.  It returns no status but 200 and 400: with 400 nothing was
    written, with 200 exactly one request was. *)
Theorem modifyLeadByLeadId_status env reqBody w r w' :
  modifyLeadByLeadId env reqBody w = (r, w') ->
  exists evs,
    trace w' = trace w ++ evs /\
    (length (writes evs) <= 1)%nat /\
    (forall status, r = Ok status ->
       (status = 400 /\ writes evs = []) \/
       (status = 200 /\ exists entry, writes evs = [entry])).
Proof.
  rewrite modifyLeadByLeadId_run.
  destruct (findByLeadId env (id reqBody) w) as [[response|e] w1] eqn:Hfind;
    apply findByLeadId_writes in Hfind as (evs1 & Htrace1 & Hw1).
  - destruct (get_prop response "data") as [data|e].
    + destruct (negb (truthy (opt_index0 data))).
      * intros H; inversion H; subst. exists evs1. split; [exact Htrace1|].
        rewrite Hw1. split; [cbn; lia|]. intros status Hs. inversion Hs. left. auto.
      * destruct (index0 data) as [lead|e].
        -- destruct (apply_plan env reqBody lead w1) as [r2 w2] eqn:Hplan.
           apply apply_plan_writes in Hplan as (evs2 & Htrace2 & Hw2).
           assert (Hlen : (length (writes (evs1 ++ evs2)) <= 1)%nat).
           { rewrite writes_app, Hw1. destruct Hw2 as [-> |[-> _]]; cbn; lia. }
           destruct r2 as [[]|e]; intros H; inversion H; subst;
             exists (evs1 ++ evs2); rewrite Htrace2, Htrace1, app_assoc;
             (split; [reflexivity|]); (split; [exact Hlen|]); intros status Hs;
             inversion Hs; subst.
           right. split; [reflexivity|]. rewrite writes_app, Hw1.
           destruct Hw2 as [-> |[_ [e He]]]; [eauto | discriminate].
        -- intros H; inversion H; subst. exists evs1. split; [exact Htrace1|].
           rewrite Hw1. split; [cbn; lia | discriminate].
    + intros H; inversion H; subst. exists evs1. split; [exact Htrace1|].
      rewrite Hw1. split; [cbn; lia | discriminate].
  - intros H; inversion H; subst. exists evs1. split; [exact Htrace1|].
    rewrite Hw1. split; [cbn; lia | discriminate].
Qed.

Lemma modifyLeadByLeadId_status_witness :
  let env := Demo.env 4999 [("42", JNull)] JNull None in
  let reqBody := Demo.request "" "42" "vip" "status:" in
  fst (modifyLeadByLeadId env reqBody Demo.fresh) = Ok 200 /\
  length (writes (trace (snd (modifyLeadByLeadId env reqBody Demo.fresh)))) = 1%nat.
Proof.
  cbv zeta.
  set (env := Demo.env 4999 [("42", JNull)] JNull None).
  set (reqBody := Demo.request "" "42" "vip" "status:").
  assert (Hrun : modifyLeadByLeadId env reqBody Demo.fresh
                 = (Ok 200, snd (modifyLeadByLeadId env reqBody Demo.fresh)))
    by (vm_compute; reflexivity).
  split; [rewrite Hrun; reflexivity|].
  destruct (modifyLeadByLeadId_status env reqBody Demo.fresh _ _ Hrun)
    as (evs & Htrace & _ & Hstatus).
  destruct (Hstatus 200 eq_refl) as [[Hs _]|[_ [entry Hw]]]; [discriminate|].
  rewrite Htrace. cbn [Demo.fresh Demo.world trace app]. rewrite Hw. reflexivity.
Defined.

Lemma by_phone_status_writes env reqBody w status w' :
  modifyLeadsByPhoneAndTag env reqBody w = (Ok status, w') ->
  exists response data evs,
    fst (findByPhone env (phone reqBody) w) = Ok response /\
    get_prop response "data" = Ok data /\
    trace w' = trace w ++ evs /\
    ((status = 400 /\ truthy data = false /\ writes evs = []) \/
     (status = 200 /\ truthy data = true /\
      exists leads, iterate data = Ok leads /\ writes evs = map (expected reqBody) leads)).
Proof.
  rewrite modifyLeadsByPhoneAndTag_run.
  destruct (findByPhone env (phone reqBody) w) as [[response|e] w1] eqn:Hfind; [|discriminate].
  apply findByPhone_writes in Hfind as (evs1 & Htrace1 & Hw1).
  destruct (get_prop response "data") as [data|e] eqn:Hdata; [|discriminate].
  destruct (truthy data) eqn:Htruthy; cbn [negb].
  - destruct (iterate data) as [leads|e] eqn:Hiter; [|discriminate].
    destruct (for_of leads _ w1) as [[[]|e] w2] eqn:Hloop; [|discriminate].
    apply for_of_writes in Hloop as (evs2 & m & Htrace2 & Hw2 & Hall).
    intros H; inversion H; subst. exists response, data, (evs1 ++ evs2).
    split; [reflexivity|]. split; [exact Hdata|].
    rewrite Htrace2, Htrace1, app_assoc. split; [reflexivity|]. right.
    split; [reflexivity|]. split; [exact Htruthy|]. exists leads. split; [exact Hiter|].
    rewrite writes_app, Hw1, Hw2, (Hall tt eq_refl), firstn_all. reflexivity.
  - intros H; inversion H; subst. exists response, data, evs1.
    split; [reflexivity|]. split; [exact Hdata|]. split; [exact Htrace1|]. left.
    split; [reflexivity|]. split; [exact Htruthy | exact Hw1].
Qed.

(** X15. The by-phone workflow returns no status but 200 and 400: with 400
    the search answered no [data] and nothing was written; with 200 the
    requests written are those of the leads [data] runs through, one each,
    in order.  When it fails, what was written is nothing, or the requests
    of the first leads of [data], in order. *)
Theorem modifyLeadsByPhoneAndTag_status env reqBody w r w' :
  modifyLeadsByPhoneAndTag env reqBody w = (r, w') ->
  exists evs,
    trace w' = trace w ++ evs /\
    (forall status, r = Ok status ->
       exists response data,
         fst (findByPhone env (phone reqBody) w) = Ok response /\
         get_prop response "data" = Ok data /\
         ((status = 400 /\ truthy data = false /\ writes evs = []) \/
          (status = 200 /\ truthy data = true /\
           exists leads,
             iterate data = Ok leads /\ writes evs = map (expected reqBody) leads))) /\
    (forall e, r = Err e ->
       writes evs = [] \/
       exists response data leads m,
         fst (findByPhone env (phone reqBody) w) = Ok response /\
         get_prop response "data" = Ok data /\
         iterate data = Ok leads /\
         writes evs = map (expected reqBody) (take m leads)).
Proof.
  intros Hrun. destruct r as [status|e].
  - apply by_phone_status_writes in Hrun
      as (response & data & evs & Hfind & Hdata & Htrace & Hcases).
    exists evs. split; [exact Htrace|]. split; [|discriminate].
    intros status' Hs. inversion Hs; subst. eauto.
  - revert Hrun. rewrite modifyLeadsByPhoneAndTag_run.
    destruct (findByPhone env (phone reqBody) w) as [[response|e1] w1] eqn:Hfind;
      apply findByPhone_writes in Hfind as (evs1 & Htrace1 & Hw1).
    + destruct (get_prop response "data") as [data|e2] eqn:Hdata.
      * destruct (negb (truthy data)); [discriminate|].
        destruct (iterate data) as [leads|e3] eqn:Hiter.
        -- destruct (for_of leads _ w1) as [[[]|e4] w2] eqn:Hloop; [discriminate|].
           apply for_of_writes in Hloop as (evs2 & m & Htrace2 & Hw2 & _).
           intros H; inversion H; subst. exists (evs1 ++ evs2).
           rewrite Htrace2, Htrace1, app_assoc. split; [reflexivity|].
           split; [discriminate|]. intros e' _. right.
           exists response, data, leads, m. rewrite writes_app, Hw1, Hw2. auto.
        -- intros H; inversion H; subst. exists evs1. split; [exact Htrace1|].
           split; [discriminate | auto].
      * intros H; inversion H; subst. exists evs1. split; [exact Htrace1|].
        split; [discriminate | auto].
    + intros H; inversion H; subst. exists evs1. split; [exact Htrace1|].
      split; [discriminate | auto].
Qed.

Lemma modifyLeadsByPhoneAndTag_status_witness :
  let leads := [Demo.lead "1" JNull; Demo.lead "2" (Demo.tagged ["a:x"; "b"])] in
  let env := Demo.env 4999 [] (JObj [("data", JArr leads)]) None in
  let reqBody := Demo.request "555" "" "a:y" "a:" in
  fst (modifyLeadsByPhoneAndTag env reqBody Demo.fresh) = Ok 200 /\
  writes (trace (snd (modifyLeadsByPhoneAndTag env reqBody Demo.fresh)))
    = [(JStr "1", Demo.tagged ["a:y"]); (JStr "2", Demo.tagged ["b"; "a:y"])].
Proof.
  cbv zeta.
  set (leads := [Demo.lead "1" JNull; Demo.lead "2" (Demo.tagged ["a:x"; "b"])]).
  set (env := Demo.env 4999 [] (JObj [("data", JArr leads)]) None).
  set (reqBody := Demo.request "555" "" "a:y" "a:").
  assert (Hrun : modifyLeadsByPhoneAndTag env reqBody Demo.fresh
                 = (Ok 200, snd (modifyLeadsByPhoneAndTag env reqBody Demo.fresh)))
    by (vm_compute; reflexivity).
  split; [rewrite Hrun; reflexivity|].
  destruct (modifyLeadsByPhoneAndTag_status env reqBody Demo.fresh _ _ Hrun)
    as (evs & Htrace & Hstatus & _).
  destruct (Hstatus 200 eq_refl)
    as (response & data & Hfind & Hdata & [[Hs _]|(_ & _ & found & Hiter & Hw)]);
    [discriminate|].
  cbn in Hfind. inversion Hfind; subst response.
  cbn in Hdata. inversion Hdata; subst data.
  cbn in Hiter. inversion Hiter; subst found.
  rewrite Htrace. cbn [Demo.fresh Demo.world trace app]. rewrite Hw. reflexivity.
Defined.

Lemma keep_tag_error tagFilter t e :
  keep_tag tagFilter t = Err e -> exists msg, e = TypeError msg.
Proof.
  unfold keep_tag, get_prop.
  destruct t as [| |b|n|s|l|kvs]; try (intros H; inversion H; eauto; fail).
  destruct (assoc "name" kvs); intros H; inversion H; eauto.
Qed.

Lemma filter_array_error tagFilter ts e :
  filter_array (keep_tag tagFilter) ts = Err e -> exists msg, e = TypeError msg.
Proof.
  induction ts as [|t ts IH]; cbn [filter_array]; [discriminate|].
  destruct (keep_tag tagFilter t) as [b|e'] eqn:Ht.
  - destruct (filter_array (keep_tag tagFilter) ts) as [l|e']; [discriminate|].
    intros H; inversion H; subst. apply IH. reflexivity.
  - intros H; inversion H; subst. eapply keep_tag_error. exact Ht.
Qed.

Lemma js_filter_error tagFilter v e :
  js_filter v (keep_tag tagFilter) = Err e -> exists msg, e = TypeError msg.
Proof.
  destruct v; cbn [js_filter]; try (intros H; inversion H; eauto; fail).
  apply filter_array_error.
Qed.

Lemma filter_sublist {A} (P : A -> bool) (l : list A) : sublist (List.filter P l) l.
Proof.
  induction l as [|x l IH]; cbn [List.filter]; [constructor|].
  destruct (P x); [apply sublist_skip | apply sublist_cons]; exact IH.
Qed.

(** X16. The filter step of both workflows succeeds exactly on an array of
    tags that each have a string [name]; it then returns, in their order
    and as they are, the tags whose name does not start with [tagFilter],
    and nothing else.  On anything else it raises a [TypeError]. *)
Theorem js_filter_keeps_the_other_tags tagFilter tags :
  (forall l,
     js_filter tags (keep_tag tagFilter) = Ok l <->
     exists ts, tags = JArr ts /\ Forall named ts /\
                l = List.filter (fun t => negb (has_prefix tagFilter t)) ts) /\
  (forall ts l,
     tags = JArr ts ->
     js_filter tags (keep_tag tagFilter) = Ok l ->
     sublist l ts /\
     (forall t, In t l <-> In t ts /\ has_prefix tagFilter t = false)) /\
  (forall e, js_filter tags (keep_tag tagFilter) = Err e -> exists msg, e = TypeError msg).
Proof.
  split; [|split].
  - intros l. split.
    + intros H. destruct (js_filter_kept _ _ _ H) as (ts & -> & ->).
      cbn [js_filter] in H. apply filter_array_keep in H as [Hnamed _]. eauto.
    + intros (ts & -> & Hnamed & ->). cbn [js_filter]. apply filter_array_named. exact Hnamed.
  - intros ts l -> H. cbn [js_filter] in H. apply filter_array_keep in H as [_ ->].
    split; [apply filter_sublist|].
    intros t. rewrite List.filter_In, negb_true_iff. reflexivity.
  - intros e. apply js_filter_error.
Qed.

Lemma js_filter_keeps_the_other_tags_witness :
  let colored := JObj [("name", JStr "source:web"); ("color_code", JStr "#F17574")] in
  let tags := JArr [new_tag "status:new"; colored; new_tag "status:old"] in
  js_filter tags (keep_tag "status:") = Ok [colored] /\
  sublist [colored] [new_tag "status:new"; colored; new_tag "status:old"] /\
  (exists msg, js_filter (JArr [JObj [("id", JStr "7")]]) (keep_tag "status:")
               = Err (TypeError msg)).
Proof.
  cbv zeta.
  destruct (js_filter_keeps_the_other_tags "status:"
              (JArr [new_tag "status:new";
                     JObj [("name", JStr "source:web"); ("color_code", JStr "#F17574")];
                     new_tag "status:old"])) as (_ & Hkept & _).
  destruct (Hkept _ _ eq_refl eq_refl) as [Hsub _].
  split; [reflexivity|]. split; [exact Hsub|].
  destruct (js_filter_keeps_the_other_tags "status:" (JArr [JObj [("id", JStr "7")]]))
    as (_ & _ & Herr).
  destruct (Herr _ eq_refl) as [msg Hmsg]. exists msg. rewrite <- Hmsg. reflexivity.
Defined.

Lemma plan_malformed reqBody lead Tag :
  get_prop lead "Tag" = Ok Tag ->
  truthy Tag = true ->
  (forall ts, Tag = JArr ts -> ~ Forall named ts) ->
  exists msg, plan reqBody lead = Err (TypeError msg).
Proof.
  intros Htag Htruthy Hbad. unfold plan. rewrite Htag. unfold js_or. rewrite Htruthy.
  destruct (js_filter Tag (keep_tag (tagFilter reqBody))) as [l|e] eqn:Hl.
  - exfalso. destruct (js_filter_kept _ _ _ Hl) as (ts & -> & _).
    cbn [js_filter] in Hl. apply filter_array_keep in Hl as [Hnamed _].
    exact (Hbad ts eq_refl Hnamed).
  - apply js_filter_error in Hl as [msg ->]. eauto.
Qed.

(** X17. When the lead the by-id workflow has fetched holds a [Tag] that is
    truthy but not an array of tags with a string [name], the workflow
    raises a [TypeError] in the world the lookup left: no update is called
    and the lead keeps its tags. *)
Theorem modifyLeadByLeadId_malformed_tags env reqBody w response w1 data lead Tag :
  findByLeadId env (id reqBody) w = (Ok response, w1) ->
  get_prop response "data" = Ok data ->
  index0 data = Ok lead ->
  truthy lead = true ->
  get_prop lead "Tag" = Ok Tag ->
  truthy Tag = true ->
  (forall ts, Tag = JArr ts -> ~ Forall named ts) ->
  (exists msg, modifyLeadByLeadId env reqBody w = (Err (TypeError msg), w1)) /\
  exists evs, trace w1 = trace w ++ evs /\ writes evs = [].
Proof.
  intros Hfind Hdata Hlead Htruthy Htag Htag_truthy Hbad. split.
  - destruct (plan_malformed reqBody lead Tag Htag Htag_truthy Hbad) as [msg Hplan].
    exists msg.
    rewrite modifyLeadByLeadId_run, Hfind, Hdata, (index0_opt _ _ Hlead), Htruthy, Hlead.
    cbn [negb]. unfold apply_plan. rewrite Hplan. reflexivity.
  - eapply findByLeadId_writes. exact Hfind.
Qed.

Lemma modifyLeadByLeadId_malformed_tags_witness :
  let env := Demo.env 4999 [("42", JStr "status:new")] JNull None in
  let reqBody := Demo.request "" "42" "status:contacted" "status:" in
  fst (findByLeadId env "42" Demo.fresh)
    = Ok (JObj [("data", JArr [Demo.lead "42" (JStr "status:new")])]) /\
  (exists msg, fst (modifyLeadByLeadId env reqBody Demo.fresh) = Err (TypeError msg)) /\
  writes (trace (snd (modifyLeadByLeadId env reqBody Demo.fresh))) = [].
Proof.
  cbv zeta.
  set (env := Demo.env 4999 [("42", JStr "status:new")] JNull None).
  set (reqBody := Demo.request "" "42" "status:contacted" "status:").
  destruct (modifyLeadByLeadId_malformed_tags env reqBody Demo.fresh
              (JObj [("data", JArr [Demo.lead "42" (JStr "status:new")])])
              (snd (findByLeadId env "42" Demo.fresh))
              (JArr [Demo.lead "42" (JStr "status:new")])
              (Demo.lead "42" (JStr "status:new")) (JStr "status:new"))
    as ([msg Hrun] & evs & Htrace & Hwrites);
    [reflexivity | reflexivity | reflexivity | reflexivity | reflexivity | reflexivity
    | intros ts Hts; discriminate |].
  split; [reflexivity|]. rewrite Hrun. cbn [fst snd]. split; [eauto|].
  rewrite Htrace. exact Hwrites.
Defined.

Lemma for_of_aborts env reqBody pre bad post w wk e w' :
  Forall well_formed_lead pre ->
  applied env reqBody w pre wk ->
  apply_plan env reqBody bad wk = (Err e, w') ->
  for_of (pre ++ bad :: post) (apply_plan env reqBody) w = (Err e, w').
Proof.
  intros Hwf Hpre Hfail. induction Hpre as [w|w x pre v w1 w2 Hx _ IH].
  - cbn [app for_of]. unfold bind. rewrite Hfail. reflexivity.
  - cbn [app for_of]. unfold bind. apply Forall_cons_1 in Hwf as [Hlead Hrest].
    rewrite (apply_plan_well_formed _ _ _ _ Hlead), Hx. apply IH; assumption.
Qed.

(** X18. In the by-phone workflow a lead that is [null], or whose [Tag] is
    truthy but not an array of tags with a string [name], stops the loop
    with a [TypeError] before anything is sent for it: the leads before it
    have been written, nothing is written for it or for the leads after
    it. *)
Theorem modifyLeadsByPhoneAndTag_malformed_lead
    env reqBody w response w1 pre bad post wk :
  findByPhone env (phone reqBody) w = (Ok response, w1) ->
  get_prop response "data" = Ok (JArr (pre ++ bad :: post)) ->
  Forall well_formed_lead pre ->
  applied env reqBody w1 pre wk ->
  (absent bad \/
   exists Tag, get_prop bad "Tag" = Ok Tag /\ truthy Tag = true /\
               forall ts, Tag = JArr ts -> ~ Forall named ts) ->
  (exists msg, modifyLeadsByPhoneAndTag env reqBody w = (Err (TypeError msg), wk)) /\
  exists evs, trace wk = trace w1 ++ evs /\ writes evs = map (expected reqBody) pre.
Proof.
  intros Hfind Hdata Hwf Hpre Hbad. split; [|eapply applied_writes; exact Hpre].
  assert (Hplan : exists msg, plan reqBody bad = Err (TypeError msg)).
  { destruct Hbad as [[-> | ->]|(Tag & Htag & Htruthy & Hts)].
    - unfold plan. cbn. eauto.
    - unfold plan. cbn. eauto.
    - eapply plan_malformed; eassumption. }
  destruct Hplan as [msg Hplan]. exists msg.
  rewrite modifyLeadsByPhoneAndTag_run, Hfind, Hdata. cbn [truthy negb iterate].
  rewrite (for_of_aborts env reqBody pre bad post w1 wk (TypeError msg) wk Hwf Hpre).
  - reflexivity.
  - unfold apply_plan. rewrite Hplan. reflexivity.
Qed.

Lemma modifyLeadsByPhoneAndTag_malformed_lead_witness :
  let leads := [Demo.lead "1" JNull; JNull; Demo.lead "3" JNull] in
  let env := Demo.env 4999 [] (JObj [("data", JArr leads)]) None in
  let reqBody := Demo.request "555" "" "vip" "status:" in
  fst (findByPhone env "555" Demo.fresh) = Ok (JObj [("data", JArr leads)]) /\
  (exists msg, fst (modifyLeadsByPhoneAndTag env reqBody Demo.fresh) = Err (TypeError msg)) /\
  writes (trace (snd (modifyLeadsByPhoneAndTag env reqBody Demo.fresh)))
    = [(JStr "1", Demo.tagged ["vip"])].
Proof.
  cbv zeta.
  set (leads := [Demo.lead "1" JNull; JNull; Demo.lead "3" JNull]).
  set (env := Demo.env 4999 [] (JObj [("data", JArr leads)]) None).
  set (reqBody := Demo.request "555" "" "vip" "status:").
  edestruct (modifyLeadsByPhoneAndTag_malformed_lead env reqBody Demo.fresh
               (JObj [("data", JArr leads)]) (snd (findByPhone env "555" Demo.fresh))
               [Demo.lead "1" JNull] JNull [Demo.lead "3" JNull])
    as ([msg Hrun] & _).
  - reflexivity.
  - reflexivity.
  - repeat constructor. eexists. split; [reflexivity|]. left. right. reflexivity.
  - eapply applied_cons; [reflexivity | apply applied_nil].
  - left. right. reflexivity.
  - split; [reflexivity|]. rewrite Hrun. cbn [fst snd]. split; [eauto | reflexivity].
Defined.

Lemma has_prefix_empty t : named t -> has_prefix "" t = true.
Proof. intros [s Hs]. unfold has_prefix. rewrite Hs. destruct s; reflexivity. Qed.

Lemma filter_empty_prefix ts :
  Forall named ts -> List.filter (fun t => negb (has_prefix "" t)) ts = [].
Proof.
  induction 1 as [|t ts Ht _ IH]; cbn [List.filter]; [reflexivity|].
  rewrite (has_prefix_empty t Ht). exact IH.
Qed.

(** X19. With the empty string as [tagFilter] every tag starts with the
    filter: whatever named tags the fetched lead holds, the by-id workflow
    calls the update with the one tag [{name: tag}] alone. *)
Theorem empty_tagFilter_removes_every_tag env reqBody w response w1 data lead ts :
  tagFilter reqBody = "" ->
  findByLeadId env (id reqBody) w = (Ok response, w1) ->
  get_prop response "data" = Ok data ->
  index0 data = Ok lead ->
  truthy lead = true ->
  get_prop lead "Tag" = Ok (JArr ts) ->
  Forall named ts ->
  modifyLeadByLeadId env reqBody w =
    match updateLeadTag env (id_of lead) (JArr [JObj [("name", JStr (tag reqBody))]]) w1 with
    | (Ok _, w2) => (Ok 200, w2)
    | (Err e, w2) => (Err e, w2)
    end.
Proof.
  intros Hfilter Hfind Hdata Hlead Htruthy Htag Hnamed.
  assert (Hplan : plan reqBody lead
                  = Ok (id_of lead, JArr [JObj [("name", JStr (tag reqBody))]])).
  { unfold plan, id_of. rewrite Htag. unfold js_or. cbn [truthy js_filter].
    rewrite (filter_array_named _ _ Hnamed), Hfilter, (filter_empty_prefix _ Hnamed).
    destruct lead; try discriminate; reflexivity. }
  rewrite modifyLeadByLeadId_run, Hfind, Hdata, (index0_opt _ _ Hlead), Htruthy, Hlead.
  cbn [negb]. unfold apply_plan. rewrite Hplan.
  destruct (updateLeadTag _ _ _ _) as [[v|e] w2]; reflexivity.
Qed.

Lemma empty_tagFilter_removes_every_tag_witness :
  let env := Demo.env 4999 [("42", Demo.tagged ["status:new"; "source:web"])] JNull None in
  let reqBody := Demo.request "" "42" "vip" "" in
  fst (findByLeadId env "42" Demo.fresh)
    = Ok (JObj [("data", JArr [Demo.lead "42" (Demo.tagged ["status:new"; "source:web"])])]) /\
  writes (trace (snd (modifyLeadByLeadId env reqBody Demo.fresh)))
    = [(JStr "42", Demo.tagged ["vip"])].
Proof.
  cbv zeta. split; [reflexivity|].
  set (env := Demo.env 4999 [("42", Demo.tagged ["status:new"; "source:web"])] JNull None).
  rewrite (empty_tagFilter_removes_every_tag env (Demo.request "" "42" "vip" "") Demo.fresh
             (JObj [("data", JArr [Demo.lead "42" (Demo.tagged ["status:new"; "source:web"])])])
             (snd (findByLeadId env "42" Demo.fresh))
             (JArr [Demo.lead "42" (Demo.tagged ["status:new"; "source:web"])])
             (Demo.lead "42" (Demo.tagged ["status:new"; "source:web"]))
             [new_tag "status:new"; new_tag "source:web"]);
    [reflexivity | reflexivity | reflexivity | reflexivity | reflexivity | reflexivity
    | reflexivity | repeat constructor; eexists; reflexivity].
Defined.

(** X20. When [tag] starts with [tagFilter], a second run of the by-id
    workflow that fetches the tags the first run wrote writes the very same
    tag sequence again: from the first run on, the lead's tags are a fixed
    point of the workflow. *)
Theorem modifyLeadByLeadId_twice_same_tags env reqBody w w1 w2 :
  startsWith (tag reqBody) (tagFilter reqBody) = true ->
  modifyLeadByLeadId env reqBody w = (Ok 200, w1) ->
  fetched_tags env reqBody w1 = last_written (trace w1) ->
  modifyLeadByLeadId env reqBody w1 = (Ok 200, w2) ->
  last_written (trace w2) = last_written (trace w1) /\
  exists ts, last_written (trace w1) = Some (JArr ts).
Proof.
  intros Hprefix Hfirst Hfetch Hsecond.
  apply modifyLeadByLeadId_ok in Hfirst as (Tag0 & l1 & _ & Hl1 & Hlast1).
  apply modifyLeadByLeadId_ok in Hsecond as (Tag1 & l2 & Hfetched & Hl2 & Hlast2).
  rewrite Hfetch, Hlast1 in Hfetched. inversion Hfetched; subst Tag1. clear Hfetched.
  apply js_filter_kept in Hl1 as (ts0 & _ & ->).
  unfold js_or in Hl2. cbn [truthy] in Hl2.
  apply js_filter_kept in Hl2 as (ts1 & Hts1 & ->). inversion Hts1; subst ts1. clear Hts1.
  split; [|eauto].
  rewrite Hlast2, Hlast1. do 2 f_equal.
  rewrite List.filter_app, filter_kept. cbn [List.filter].
  rewrite has_prefix_new_tag, Hprefix. cbn [negb]. rewrite app_nil_r. reflexivity.
Qed.

Lemma modifyLeadByLeadId_twice_same_tags_witness :
  let env := Demo.env 4999 [("42", Demo.tagged ["status:new"; "source:web"])] JNull None in
  let reqBody := Demo.request "" "42" "status:contacted" "status:" in
  let w1 := snd (modifyLeadByLeadId env reqBody Demo.fresh) in
  let w2 := snd (modifyLeadByLeadId env reqBody w1) in
  (startsWith "status:contacted" "status:" = true /\
   modifyLeadByLeadId env reqBody Demo.fresh = (Ok 200, w1) /\
   fetched_tags env reqBody w1 = last_written (trace w1) /\
   modifyLeadByLeadId env reqBody w1 = (Ok 200, w2)) /\
  last_written (trace w2) = last_written (trace w1).
Proof.
  cbv zeta.
  set (env := Demo.env 4999 [("42", Demo.tagged ["status:new"; "source:web"])] JNull None).
  set (reqBody := Demo.request "" "42" "status:contacted" "status:").
  set (w1 := snd (modifyLeadByLeadId env reqBody Demo.fresh)).
  set (w2 := snd (modifyLeadByLeadId env reqBody w1)).
  assert (Hfirst : modifyLeadByLeadId env reqBody Demo.fresh = (Ok 200, w1))
    by (vm_compute; reflexivity).
  assert (Hfetch : fetched_tags env reqBody w1 = last_written (trace w1))
    by (vm_compute; reflexivity).
  assert (Hsecond : modifyLeadByLeadId env reqBody w1 = (Ok 200, w2))
    by (vm_compute; reflexivity).
  split; [split; [reflexivity|]; split; [exact Hfirst|]; split;
          [exact Hfetch | exact Hsecond]|].
  apply (modifyLeadByLeadId_twice_same_tags env reqBody Demo.fresh w1 w2
           eq_refl Hfirst Hfetch Hsecond).
Defined.

(** ** The endpoint *)

Lemma post_v5_run env body w :
  post_v5 env (Some body) w =
  let answer (run : Result Z * World) :=
    match run with
    | (Ok status, w') =>
        (Ok (if status =? 200
             then {| res_status := 200; res_text := "Leads modified successfully." |}
             else {| res_status := 400; res_text := "Error modifying leads." |}), w')
    | (Err _, w') =>
        (Ok {| res_status := 500; res_text := "Error modifying leads." |}, w')
    end in
  if truthy_str (body_phone body) && truthy_str (body_tag body)
  then answer (modifyLeadsByPhoneAndTag env (req_params body) w)
  else if truthy_str (body_id body) && truthy_str (body_tag body)
  then answer (modifyLeadByLeadId env (req_params body) w)
  else (Ok {| res_status := 400;
              res_text := "Bad Request: Either Phone or Lead Id or tag is missing." |}, w).
Proof.
  unfold post_v5, try_catch, bind, lift, send, ret. cbv zeta.
  destruct (truthy_str (body_phone body) && truthy_str (body_tag body)).
  - destruct (modifyLeadsByPhoneAndTag env (req_params body) w) as [[s|e] w'];
      [destruct (s =? 200)|]; reflexivity.
  - destruct (truthy_str (body_id body) && truthy_str (body_tag body)).
    + destruct (modifyLeadByLeadId env (req_params body) w) as [[s|e] w'];
        [destruct (s =? 200)|]; reflexivity.
    + reflexivity.
Qed.

(** X21. The handler never raises: whatever the request and the
    collaborators, it sends one of four answers, 200 [Leads modified
    successfully.], 400 [Error modifying leads.], 400 [Bad Request: ...] or
    500 [Error modifying leads.]; a request without a body gets the 500 one
    and no collaborator is called for it. *)
Theorem post_v5_always_answers env req_body w :
  (exists res,
     fst (post_v5 env req_body w) = Ok res /\
     (res = {| res_status := 200; res_text := "Leads modified successfully." |} \/
      res = {| res_status := 400; res_text := "Error modifying leads." |} \/
      res = {| res_status := 400;
               res_text := "Bad Request: Either Phone or Lead Id or tag is missing." |} \/
      res = {| res_status := 500; res_text := "Error modifying leads." |})) /\
  (req_body = None ->
   post_v5 env req_body w
     = (Ok {| res_status := 500; res_text := "Error modifying leads." |}, w)).
Proof.
  split; [|intros ->; reflexivity].
  destruct req_body as [body|]; [|eexists; split; [reflexivity | auto]].
  rewrite post_v5_run. cbv zeta.
  destruct (truthy_str (body_phone body) && truthy_str (body_tag body)).
  - destruct (modifyLeadsByPhoneAndTag env (req_params body) w) as [[s|e] w'];
      [destruct (s =? 200)|]; eexists; (split; [reflexivity | auto]).
  - destruct (truthy_str (body_id body) && truthy_str (body_tag body)).
    + destruct (modifyLeadByLeadId env (req_params body) w) as [[s|e] w'];
        [destruct (s =? 200)|]; eexists; (split; [reflexivity | auto]).
    + eexists. split; [reflexivity | auto].
Qed.

(** X22. The handler answers 400 [Bad Request: ...] exactly when the body
    has no (non-empty) [tag], or neither a [phone] nor an [id]; it then
    calls no collaborator: the store is not read and nothing is sent. *)
Theorem post_v5_bad_request env body w :
  let bad :=
    {| res_status := 400;
       res_text := "Bad Request: Either Phone or Lead Id or tag is missing." |} in
  (fst (post_v5 env (Some body) w) = Ok bad <->
   truthy_str (body_tag body) = false \/
   (truthy_str (body_phone body) = false /\ truthy_str (body_id body) = false)) /\
  (fst (post_v5 env (Some body) w) = Ok bad -> snd (post_v5 env (Some body) w) = w).
Proof.
  cbv zeta. rewrite post_v5_run. cbv zeta.
  destruct (truthy_str (body_phone body)), (truthy_str (body_tag body)),
           (truthy_str (body_id body)); cbn [andb];
    try (split; [split; [intros _; auto | reflexivity] | reflexivity]).
  - destruct (modifyLeadsByPhoneAndTag env (req_params body) w) as [[s|e] w'];
      [destruct (s =? 200)|]; cbn [fst snd];
      (split; [split; [discriminate | intros [H|[H _]]; discriminate] | discriminate]).
  - destruct (modifyLeadsByPhoneAndTag env (req_params body) w) as [[s|e] w'];
      [destruct (s =? 200)|]; cbn [fst snd];
      (split; [split; [discriminate | intros [H|[H _]]; discriminate] | discriminate]).
  - destruct (modifyLeadByLeadId env (req_params body) w) as [[s|e] w'];
      [destruct (s =? 200)|]; cbn [fst snd];
      (split; [split; [discriminate | intros [H|[_ H]]; discriminate] | discriminate]).
Qed.

Lemma post_v5_bad_request_witness :
  let env := Demo.env 4999 [("42", JNull)] JNull None in
  let body :=
    {| body_phone := Some "555"; body_tag := Some ""; body_id := Some "42";
       body_tagFilter := Some "status:" |} in
  truthy_str (body_tag body) = false /\
  post_v5 env (Some body) Demo.fresh
    = (Ok {| res_status := 400;
             res_text := "Bad Request: Either Phone or Lead Id or tag is missing." |},
       Demo.fresh).
Proof.
  cbv zeta. split; [reflexivity|].
  destruct (post_v5_bad_request (Demo.env 4999 [("42", JNull)] JNull None)
              {| body_phone := Some "555"; body_tag := Some ""; body_id := Some "42";
                 body_tagFilter := Some "status:" |} Demo.fresh) as [Hiff Hsame].
  apply injective_projections; cbn [fst snd].
  - apply Hiff. left. reflexivity.
  - apply Hsame. apply Hiff. left. reflexivity.
Defined.

Lemma modifyLeadsByPhoneAndTag_reads env r r' w :
  phone r = phone r' -> tag r = tag r' -> tagFilter r = tagFilter r' ->
  modifyLeadsByPhoneAndTag env r w = modifyLeadsByPhoneAndTag env r' w.
Proof.
  intros Hphone Htag Hfilter. unfold modifyLeadsByPhoneAndTag.
  rewrite Hphone, Htag, Hfilter. reflexivity.
Qed.

Lemma modifyLeadByLeadId_reads env r r' w :
  id r = id r' -> tag r = tag r' -> tagFilter r = tagFilter r' ->
  modifyLeadByLeadId env r w = modifyLeadByLeadId env r' w.
Proof.
  intros Hid Htag Hfilter. unfold modifyLeadByLeadId.
  rewrite Hid, Htag, Hfilter. reflexivity.
Qed.

(** X23. A body with a [phone] and a [tag] goes to the by-phone workflow
    whatever its [id]: two such bodies that differ in [id] only get the same
    answer and leave the same world, so the lead named by [id] is never
    looked up.  A body with an [id] and a [tag] goes to the by-id workflow
    only when it has no (non-empty) [phone]. *)
Theorem post_v5_phone_before_id env body w :
  truthy_str (body_tag body) = true ->
  (truthy_str (body_phone body) = true ->
   forall other,
     post_v5 env (Some {| body_phone := body_phone body; body_tag := body_tag body;
                          body_id := other; body_tagFilter := body_tagFilter body |}) w
     = post_v5 env (Some body) w) /\
  (truthy_str (body_phone body) = true ->
   forall status w',
     modifyLeadsByPhoneAndTag env (req_params body) w = (Ok status, w') ->
     post_v5 env (Some body) w
     = (Ok (if status =? 200
            then {| res_status := 200; res_text := "Leads modified successfully." |}
            else {| res_status := 400; res_text := "Error modifying leads." |}), w')) /\
  (truthy_str (body_phone body) = false ->
   truthy_str (body_id body) = true ->
   forall status w',
     modifyLeadByLeadId env (req_params body) w = (Ok status, w') ->
     post_v5 env (Some body) w
     = (Ok (if status =? 200
            then {| res_status := 200; res_text := "Leads modified successfully." |}
            else {| res_status := 400; res_text := "Error modifying leads." |}), w')).
Proof.
  intros Htag. split; [|split].
  - intros Hphone other. rewrite !post_v5_run. cbv zeta. cbn [body_phone body_tag].
    rewrite Hphone, Htag. cbn [andb].
    rewrite (modifyLeadsByPhoneAndTag_reads env _ (req_params body) w); reflexivity.
  - intros Hphone status w' Hrun. rewrite post_v5_run. cbv zeta.
    rewrite Hphone, Htag, Hrun. reflexivity.
  - intros Hphone Hid status w' Hrun. rewrite post_v5_run. cbv zeta.
    rewrite Hphone, Hid, Htag, Hrun. reflexivity.
Qed.

Lemma post_v5_phone_before_id_witness :
  let leads := [Demo.lead "1" JNull] in
  let env := Demo.env 4999 [("42", JNull)] (JObj [("data", JArr leads)]) None in
  let body :=
    {| body_phone := Some "555"; body_tag := Some "vip"; body_id := Some "42";
       body_tagFilter := Some "status:" |} in
  (truthy_str (body_tag body) = true /\ truthy_str (body_phone body) = true) /\
  fst (post_v5 env (Some body) Demo.fresh)
    = Ok {| res_status := 200; res_text := "Leads modified successfully." |} /\
  writes (trace (snd (post_v5 env (Some body) Demo.fresh)))
    = [(JStr "1", Demo.tagged ["vip"])].
Proof.
  cbv zeta. split; [split; reflexivity|].
  set (env := Demo.env 4999 [("42", JNull)] (JObj [("data", JArr [Demo.lead "1" JNull])]) None).
  set (body := {| body_phone := Some "555"; body_tag := Some "vip"; body_id := Some "42";
                  body_tagFilter := Some "status:" |}).
  destruct (post_v5_phone_before_id env body Demo.fresh eq_refl) as (_ & Hphone & _).
  rewrite (Hphone eq_refl 200
             (snd (modifyLeadsByPhoneAndTag env (req_params body) Demo.fresh)));
    [split; reflexivity | vm_compute; reflexivity].
Defined.

(** X24. What the answer tells about the CRM: after a 400 answer nothing
    was written; after a 200 answer to a body without [phone] exactly one
    request was written. *)
Theorem post_v5_answer_and_writes env body w res w' :
  post_v5 env (Some body) w = (Ok res, w') ->
  exists evs,
    trace w' = trace w ++ evs /\
    (res_status res = 400 -> writes evs = []) /\
    (res_status res = 200 -> truthy_str (body_phone body) = false ->
     exists entry, writes evs = [entry]).
Proof.
  rewrite post_v5_run. cbv zeta.
  destruct (truthy_str (body_phone body) && truthy_str (body_tag body)) eqn:Hroute.
  - destruct (modifyLeadsByPhoneAndTag env (req_params body) w) as [[s|e] w1] eqn:Hrun.
    + apply by_phone_status_writes in Hrun
        as (response & data & evs & _ & _ & Htrace & Hcases).
      intros H; inversion H; subst. exists evs. split; [exact Htrace|].
      apply andb_true_iff in Hroute as [Hphone _].
      destruct Hcases as [(-> & _ & Hw)|(-> & _ & _)]; cbn; split;
        try (intros _; exact Hw); try discriminate; try (intros _; congruence).
    + intros H; inversion H; subst. cbn.
      destruct (respects_modifyLeadsByPhoneAndTag env (req_params body) w)
        as [(evs & Htrace & _) _].
      rewrite Hrun in Htrace. cbn [snd] in Htrace.
      exists evs. split; [exact Htrace|]. split; discriminate.
  - destruct (truthy_str (body_id body) && truthy_str (body_tag body)).
    + destruct (modifyLeadByLeadId env (req_params body) w) as [[s|e] w1] eqn:Hrun.
      * apply by_id_status_writes in Hrun as (evs & Htrace & Hcases).
        intros H; inversion H; subst. exists evs. split; [exact Htrace|].
        destruct Hcases as [(-> & Hw)|(-> & Hw)]; cbn; split;
          try (intros _; exact Hw); try discriminate; try (intros _ _; exact Hw).
      * intros H; inversion H; subst. cbn.
        destruct (respects_modifyLeadByLeadId env (req_params body) w)
          as [(evs & Htrace & _) _].
        rewrite Hrun in Htrace. cbn [snd] in Htrace.
        exists evs. split; [exact Htrace|]. split; discriminate.
    + intros H; inversion H; subst. exists []. rewrite app_nil_r.
      split; [reflexivity|]. cbn. split; [reflexivity | discriminate].
Qed.

Lemma post_v5_answer_and_writes_witness :
  let env := Demo.env 4999 [("7", JNull)] JNull None in
  let body :=
    {| body_phone := None; body_tag := Some "vip"; body_id := Some "42";
       body_tagFilter := None |} in
  fst (post_v5 env (Some body) Demo.fresh)
    = Ok {| res_status := 400; res_text := "Error modifying leads." |} /\
  writes (trace (snd (post_v5 env (Some body) Demo.fresh))) = [].
Proof.
  cbv zeta.
  set (env := Demo.env 4999 [("7", JNull)] JNull None).
  set (body := {| body_phone := None; body_tag := Some "vip"; body_id := Some "42";
                  body_tagFilter := None |}).
  assert (Hrun : post_v5 env (Some body) Demo.fresh
                 = (Ok {| res_status := 400; res_text := "Error modifying leads." |},
                    snd (post_v5 env (Some body) Demo.fresh)))
    by (vm_compute; reflexivity).
  split; [rewrite Hrun; reflexivity|].
  destruct (post_v5_answer_and_writes env body Demo.fresh _ _ Hrun)
    as (evs & Htrace & Hnone & _).
  rewrite Htrace. cbn [Demo.fresh Demo.world trace app]. apply Hnone. reflexivity.
Defined.
